(** * yt frontends: Exodus II meshes and YTData containers

    A shallow embedding of
      - yt/frontends/ytdata/data_structures.py
      - yt/frontends/exodus_ii/data_structures.py
    and the properties of their validity probes and parameter parsing.

    Python exceptions are values of [exn]; a computation that may raise
    has type [result A].  A dict with string keys is a [gmap string _];
    the attributes that [setattr] puts on an object are its [__dict__],
    again a [gmap]. *)

From stdpp Require Import base option list gmap strings pretty.
From Stdlib Require Import ZArith Lia Ascii.
From Stdlib Require Floats.

Local Open Scope string_scope.

(** ** Exceptions and the error monad *)

Inductive exn :=
  | KeyError (k : string)
  | TypeError
  | IndexError
  | ValueError
  | AttributeError
  | UnboundLocalError
  | IOError.

Inductive result (A : Type) :=
  | Ok (a : A)
  | Raise (e : exn).
Arguments Ok {A} a.
Arguments Raise {A} e.

#[global] Instance result_ret : MRet result := λ A a, Ok a.
#[global] Instance result_bind : MBind result := λ A B f m,
  match m with Ok a => f a | Raise e => Raise e end.
#[global] Instance result_fmap : FMap result := λ A B f m,
  match m with Ok a => Ok (f a) | Raise e => Raise e end.

(** [try: body except (caught): handler] *)
Definition try_except {A} (body : result A) (caught : exn → bool)
    (handler : result A) : result A :=
  match body with
  | Ok a => Ok a
  | Raise e => if caught e then handler else Raise e
  end.

(** [except (KeyError, TypeError)] *)
Definition KeyError_or_TypeError (e : exn) : bool :=
  match e with KeyError _ | TypeError => true | _ => false end.

(** a bare [except:] *)
Definition any_exception (e : exn) : bool := true.

(** [d[k]] on a dict *)
Definition getitem {V} (d : gmap string V) (k : string) : result V :=
  match d !! k with
  | Some v => Ok v
  | None => Raise (KeyError k)
  end.

(** [s.endswith(suffix)] *)
Fixpoint endswith (s suffix : string) : bool :=
  if String.eqb s suffix then true
  else match s with
       | EmptyString => false
       | String _ s' => endswith s' suffix
       end.

(** What a Python function hands back when its value is used as a truth
    value: [True], [False], or the [None] of a body that ends without
    [return]. *)
Inductive pyret :=
  | PyBool (b : bool)
  | PyNone.

Definition truthy (r : pyret) : bool :=
  match r with PyBool b => b | PyNone => false end.

(** ** yt/frontends/ytdata/data_structures.py *)

Module YTData.

Section WithScalars.

(** The numeric payload of an HDF5 attribute (a float, an int, the entries
    of an array) is kept abstract: the frontend only moves it around. *)
Context {num : Type}.

(** A value of [f.attrs]. *)
Inductive attr :=
  | AStr (s : string)
  | ANum (x : num)
  | AVec (l : list num).

(** An HDF5 file on disk: its attributes, the names of its top-level
    groups, and the [st_ctime] that [os.stat] reports, in whole seconds. *)
Record h5file := H5File {
  attrs : gmap string attr;
  keys : list string;
  st_ctime : Z
}.

(** What a path leads to.  A path that is not in the file system does not
    exist. *)
Inductive entry :=
  | Hdf5 (f : h5file)
  | NotHdf5.

(** [h5py.File(path, "r")]: raises unless the path exists and holds an
    HDF5 file. *)
Definition h5py_File (fs : gmap string entry) (path : string) : result h5file :=
  match fs !! path with
  | Some (Hdf5 f) => Ok f
  | Some NotHdf5 => Raise IOError
  | None => Raise IOError
  end.

(** [a == tag] used as a truth value, for a string literal [tag].  A
    string equals the tag or does not, and a number equals no tag.  On a
    numpy array [==] compares element by element, and the truth value of
    the array it gives is an error as soon as there is more than one
    element; with one element or none it is false. *)
Definition attr_eq (a : attr) (tag : string) : result bool :=
  match a with
  | AStr s => Ok (String.eqb s tag)
  | ANum _ => Ok false
  | AVec l => if decide (length l ≤ 1)%nat then Ok false else Raise ValueError
  end.

(** [a in tags] for a list of string literals: the tags are compared in
    order, the first that equals [a] decides, and a comparison that raises
    ends the search. *)
Fixpoint attr_in (a : attr) (tags : list string) : result bool :=
  match tags with
  | [] => Ok false
  | tag :: tags' =>
      b ← attr_eq a tag;
      if b : bool then Ok true else attr_in a tags'
  end.

(** The body shared, word for word, by the two probes:
<<
    if not args[0].endswith(".h5"): return False
    with h5py.File(args[0], "r") as f:
        if "data_type" in f.attrs and f.attrs["data_type"] in tags:
            return True
    return False
>> *)
Definition probe (tags : list string) (fs : gmap string entry)
    (filename : string) : result bool :=
  if negb (endswith filename ".h5") then Ok false
  else
    f ← h5py_File fs filename;
    match attrs f !! "data_type" with
    | Some a => b ← attr_in a tags; if b : bool then Ok true else Ok false
    | None => Ok false
    end.

(** The values the attributes of a dataset object take. *)
Inductive pyval :=
  | PInt (z : Z)
  | PStr (s : string)
  | PStrs (l : list string)
  | PBools (l : list bool)
  | PInts (l : list Z)
  | PAttr (a : attr).

(** The dataset object as [__init__] hands it to the parsing hook. *)
Record self_t := Self {
  parameter_filename : string;
  n_ref : Z;
  over_refine_factor : Z;
  __dict__ : gmap string pyval;
  parameters : gmap string attr
}.

Definition setattr (self : self_t) (name : string) (v : pyval) : self_t :=
  {| parameter_filename := parameter_filename self;
     n_ref := n_ref self;
     over_refine_factor := over_refine_factor self;
     __dict__ := <[name := v]> (__dict__ self);
     parameters := parameters self |}.

(** [1 << n] on Python integers *)
Definition lshift1 (n : Z) : result Z :=
  if (n <? 0)%Z then Raise ValueError else Ok (Z.shiftl 1 n).

End WithScalars.

Arguments attr : clear implicits.
Arguments h5file : clear implicits.
Arguments entry : clear implicits.
Arguments pyval : clear implicits.
Arguments self_t : clear implicits.

Module YTDataContainerDataset.
Section WithScalars.
Context {num : Type}.

Definition _suffix : string := ".h5".

Definition recognized : list string :=
  ["light_ray"; "yt_array_data"; "yt_data_container"].

Definition _is_valid (fs : gmap string (entry num)) (filename : string)
    : result bool :=
  probe recognized fs filename.

Definition required : list string :=
  ["cosmological_simulation"; "current_time"; "current_redshift";
   "hubble_constant"; "omega_matter"; "omega_lambda";
   "domain_left_edge"; "domain_right_edge"].

(** The loop [for attr in [...]: setattr(self, attr, hvals[attr])]. *)
Fixpoint copy_attrs (hvals : gmap string (attr num)) (names : list string)
    (self : self_t num) : result (self_t num) :=
  match names with
  | [] => Ok self
  | a :: names' =>
      v ← getitem hvals a;
      copy_attrs hvals names' (setattr self a (PAttr v))
  end.

(** [prefix], computed from the file name by [rsplit], is never used and
    is left out.  [np.ones(3, "int32") * nz] keeps the exact product
    (numpy widens the result when [nz] does not fit 32 bits). *)
Definition _parse_parameter_file (fs : gmap string (entry num))
    (self : self_t num) : result (self_t num) :=
  f ← h5py_File fs (parameter_filename self);
  let hvals := attrs f in
  let self := setattr self "particle_types_raw" (PStrs (keys f)) in
  let self := setattr self "particle_types" (PStrs (keys f)) in
  let self := setattr self "dimensionality" (PInt 3) in
  let self := setattr self "refine_by" (PInt 2) in
  let self := setattr self "unique_identifier" (PInt (st_ctime f)) in
  let self := setattr self "filename_template" (PStr (parameter_filename self)) in
  let self := setattr self "file_count" (PInt 1) in
  self ← copy_attrs hvals required self;
  let self := setattr self "periodicity" (PBools [true; true; true]) in
  nz ← lshift1 (over_refine_factor self);
  let self := setattr self "domain_dimensions" (PInts [nz; nz; nz]) in
  Ok {| parameter_filename := parameter_filename self;
        n_ref := n_ref self;
        over_refine_factor := over_refine_factor self;
        __dict__ := __dict__ self;
        parameters := hvals ∪ parameters self |}.

End WithScalars.
End YTDataContainerDataset.

Module YTGridDataset.
Section WithScalars.
Context {num : Type}.

Definition recognized : list string := ["yt_grid_data"].

Definition _is_valid (fs : gmap string (entry num)) (filename : string)
    : result bool :=
  probe recognized fs filename.

(** [self.name] *)
Definition getattr (self : gmap string (pyval num)) (name : string)
    : result (pyval num) :=
  match self !! name with
  | Some v => Ok v
  | None => Raise AttributeError
  end.

(** The grid dataset sets whatever attribute names the file holds, so the
    object is modelled by its whole [__dict__]; the path that
    [Dataset.__init__] stored there is a string, and opening anything else
    is a [TypeError].
<<
    with h5py.File(self.parameter_filename, "r") as f:
        for attr, value in f.attrs.items():
            setattr(self, attr, value)
>> *)
Definition _parse_parameter_file (fs : gmap string (entry num))
    (self : gmap string (pyval num)) : result (gmap string (pyval num)) :=
  parameter_filename ← getattr self "parameter_filename";
  match parameter_filename with
  | PStr filename =>
      f ← h5py_File fs filename;
      Ok (map_fold (λ attr value self, <[attr := PAttr value]> self)
                   self (attrs f))
  | _ => Raise TypeError
  end.

End WithScalars.
End YTGridDataset.

End YTData.

(** ** yt/frontends/exodus_ii/data_structures.py *)

Module ExodusII.

(** *** Arrays

    A netCDF variable, and the numpy array that slicing it gives, has an
    element type and a rank.  The variables of an Exodus II file hold
    characters (names), integers (connectivity, status flags) or reals
    (coordinates, values); ranks 0, 1 and 2 are modelled. *)

Inductive dtype := DChar | DInt | DReal.

Record array2 (A : Type) := Array2 {
  ncols : nat;
  rows : list (list A)
}.
Arguments Array2 {A} ncols rows.
Arguments ncols {A} a.
Arguments rows {A} a.

(** numpy arrays are rectangular. *)
Definition rectangular {A} (a : array2 A) : Prop :=
  Forall (λ r, length r = ncols a) (rows a).

Inductive nd (A : Type) :=
  | Nd0 (x : A)
  | Nd1 (l : list A)
  | Nd2 (a : array2 A).
Arguments Nd0 {A} x.
Arguments Nd1 {A} l.
Arguments Nd2 {A} a.

Definition column {A} (j : nat) (rs : list (list A)) : list A :=
  omap (λ r, r !! j) rs.

(** [a.transpose()] *)
Definition transpose {A} (a : array2 A) : array2 A :=
  {| ncols := length (rows a);
     rows := (λ j, column j (rows a)) <$> seq 0 (ncols a) |}.

Definition nd_transpose {A} (a : nd A) : nd A :=
  match a with
  | Nd0 x => Nd0 x
  | Nd1 l => Nd1 l
  | Nd2 a => Nd2 (transpose a)
  end.

Definition nd_map {A B} (f : A → B) (a : nd A) : nd B :=
  match a with
  | Nd0 x => Nd0 (f x)
  | Nd1 l => Nd1 (f <$> l)
  | Nd2 a => Nd2 {| ncols := ncols a; rows := fmap (M:=list) f <$> rows a |}
  end.

Definition nd_mapM {A B} (f : A → result B) (a : nd A) : result (nd B) :=
  match a with
  | Nd0 x => Nd0 <$> f x
  | Nd1 l => Nd1 <$> mapM f l
  | Nd2 a => (λ rs, Nd2 {| ncols := ncols a; rows := rs |}) <$> mapM (mapM f) (rows a)
  end.

(** [a[e, k]] for in-range, non-negative [e] and [k] *)
Definition get2 {A} (a : array2 A) (e k : nat) : option A :=
  rows a !! e ≫= λ r, r !! k.

(** [l[i]] with Python's negative indices *)
Definition py_index {A} (l : list A) (i : Z) : result A :=
  let n := Z.of_nat (length l) in
  let j := if (i <? 0)%Z then (i + n)%Z else i in
  if ((0 <=? j) && (j <? n))%Z then
    match l !! Z.to_nat j with
    | Some x => Ok x
    | None => Raise IndexError
    end
  else Raise IndexError.

(** [a[-1, :]]: the row of the final time step *)
Definition last_row {A} (a : nd A) : result (list A) :=
  match a with
  | Nd2 a =>
      match last (rows a) with
      | Some r => Ok r
      | None => Raise IndexError
      end
  | Nd1 _ => Raise IndexError
  | Nd0 _ => Raise IndexError
  end.

(** [a[-1, idx, ...]]: the final row, read at every index of the integer
    array [idx]; the result has the shape of [idx]. *)
Definition take_last {A} (a : nd A) (idx : nd Z) : result (nd A) :=
  r ← last_row a;
  nd_mapM (py_index r) idx.

(** 64-bit two's complement wrap-around *)
Definition wrap64 (z : Z) : Z :=
  ((z + 2 ^ 63) `mod` 2 ^ 64 - 2 ^ 63)%Z.

(** [a.min(axis=0)] and [a.max(axis=0)], for the better of two elements
    given by [pick] *)
Definition reduce_axis0 {A} (pick : A → A → A) (a : nd A) : result (nd A) :=
  match a with
  | Nd0 x => Ok (Nd0 x)
  | Nd1 [] => Raise ValueError
  | Nd1 (x :: l) => Ok (Nd0 (foldl pick x l))
  | Nd2 a =>
      match rows a with
      | [] => Raise ValueError
      | r :: rs => Ok (Nd1 (foldl (zip_with pick) r rs))
      end
  end.

Section Values.
Context {f8 : Type}.

Definition elt (d : dtype) : Type :=
  match d with
  | DChar => ascii
  | DInt => Z
  | DReal => f8
  end.

(** A variable of a netCDF file: rank 1 or 2. *)
Inductive ncvar :=
  | Var1 (d : dtype) (l : list (elt d))
  | Var2 (d : dtype) (a : array2 (elt d)).

(** Plain Python data, as the info-records decoder returns it. *)
#[local] Unset Elimination Schemes.
Inductive pydata :=
  | IDict (kvs : list (string * pydata))
  | IList (l : list pydata)
  | IStr (s : string).
#[local] Set Elimination Schemes.

(** The values of the [parameters] dict and of the dataset attributes. *)
Inductive value :=
  | VNone
  | VInt (n : Z)
  | VFloat (x : f8)
  | VArr (d : dtype) (a : nd (elt d))
  | VNames (l : list string)
  | VConn (l : list (nd Z))
  | VData (i : pydata).

Definition of_ncvar (v : ncvar) : value :=
  match v with
  | Var1 d l => VArr d (Nd1 l)
  | Var2 d a => VArr d (Nd2 a)
  end.

(** What a path leads to. *)
Inductive entry :=
  | NetCDF (variables : gmap string ncvar)
  | NotNetCDF.

End Values.

Arguments elt : clear implicits.
Arguments ncvar : clear implicits.
Arguments value : clear implicits.
Arguments entry : clear implicits.

(** What the embedding takes from outside the two source files: the
    arithmetic of 64-bit floats and numpy's conversions, and the helpers
    of [yt.frontends.exodus_ii.util]. *)
Class Env (f8 : Type) := {
  (** the literal [0.0] *)
  f8_zero : f8;
  (** [<=] on floats *)
  f8_leb : f8 → f8 → bool;
  (** [np.isnan] on a float *)
  f8_is_nan : f8 → bool;
  (** [astype("f8")] on an integer and on a character element *)
  f8_of_int : Z → f8;
  f8_of_char : ascii → result f8;
  (** [astype("i8")] on a float and on a character element *)
  i8_of_f8 : f8 → Z;
  i8_of_char : ascii → result Z;
  (** the bytes [tostring()] gives for an integer and for a float *)
  int_bytes : Z → list ascii;
  f8_bytes : f8 → list ascii;
  (** [np.array(pieces)] where the pieces are not arrays of one element
      type, one rank below 2 and one length *)
  np_array_other : list (value f8) → result (value f8);
  (** [str.__hash__] *)
  str_hash : string → Z;
  (** [util.sanitize_string] *)
  sanitize_string : list ascii → string;
  (** [util.load_info_records] *)
  load_info_records : value f8 → result pydata
}.

(** *** Python and numpy operations on values *)

Section Ops.
Context {f8 : Type} `{!Env f8}.

(** Reading an element of one type as an element of another succeeds when
    the two types are the same. *)
Definition coerce (F : Type → Type) (d d' : dtype)
    : F (elt f8 d) → option (F (elt f8 d')) :=
  match d as d0, d' as d1 return F (elt f8 d0) → option (F (elt f8 d1)) with
  | DChar, DChar => Some
  | DInt, DInt => Some
  | DReal, DReal => Some
  | _, _ => λ _, None
  end.

(** [x.tostring()] on an element *)
Definition elt_bytes (d : dtype) : elt f8 d → list ascii :=
  match d with
  | DChar => λ c, [c]
  | DInt => int_bytes
  | DReal => f8_bytes
  end.

(** [a.tostring()]: the elements in row-major order *)
Definition nd_bytes (d : dtype) (a : nd (elt f8 d)) : list ascii :=
  match a with
  | Nd0 x => elt_bytes d x
  | Nd1 l => l ≫= elt_bytes d
  | Nd2 a => rows a ≫= λ r, r ≫= elt_bytes d
  end.

Definition astype_i8_elt (d : dtype) : elt f8 d → result Z :=
  match d with
  | DChar => i8_of_char
  | DInt => λ z, Ok (wrap64 z)
  | DReal => λ x, Ok (i8_of_f8 x)
  end.

Definition astype_f8_elt (d : dtype) : elt f8 d → result f8 :=
  match d with
  | DChar => f8_of_char
  | DInt => λ z, Ok (f8_of_int z)
  | DReal => λ x, Ok x
  end.

(** [v.astype("i8")] *)
Definition astype_i8 (v : value f8) : result (nd Z) :=
  match v with
  | VArr d a => nd_mapM (astype_i8_elt d) a
  | _ => Raise AttributeError
  end.

(** [v.astype("f8")] *)
Definition astype_f8 (v : value f8) : result (nd f8) :=
  match v with
  | VArr d a => nd_mapM (astype_f8_elt d) a
  | _ => Raise AttributeError
  end.

(** [v.shape[0]] *)
Definition shape0 (v : value f8) : result nat :=
  match v with
  | VArr _ (Nd0 _) => Raise IndexError
  | VArr _ (Nd1 l) => Ok (length l)
  | VArr _ (Nd2 a) => Ok (length (rows a))
  | _ => Raise AttributeError
  end.

(** [len(v)] *)
Definition len (v : value f8) : result nat :=
  match v with
  | VArr _ (Nd0 _) => Raise TypeError
  | VArr _ (Nd1 l) => Ok (length l)
  | VArr _ (Nd2 a) => Ok (length (rows a))
  | VNames l => Ok (length l)
  | VConn l => Ok (length l)
  | VData (IDict kvs) => Ok (length kvs)
  | VData (IList l) => Ok (length l)
  | VData (IStr s) => Ok (String.length s)
  | VNone | VInt _ | VFloat _ => Raise TypeError
  end.

(** [v[:]] *)
Definition slice_all (v : value f8) : result (value f8) :=
  match v with
  | VArr _ (Nd0 _) => Raise IndexError
  | VArr _ _ => Ok v
  | VNames _ | VConn _ => Ok v
  | VData (IDict _) => Raise TypeError
  | VData _ => Ok v
  | VNone | VInt _ | VFloat _ => Raise TypeError
  end.

(** [v[0]] *)
Definition item0 (v : value f8) : result (value f8) :=
  match v with
  | VArr _ (Nd0 _) => Raise IndexError
  | VArr d (Nd1 l) =>
      match l with x :: _ => Ok (VArr d (Nd0 x)) | [] => Raise IndexError end
  | VArr d (Nd2 a) =>
      match rows a with r :: _ => Ok (VArr d (Nd1 r)) | [] => Raise IndexError end
  | VNames l =>
      match l with s :: _ => Ok (VData (IStr s)) | [] => Raise IndexError end
  | VConn l =>
      match l with a :: _ => Ok (VArr DInt a) | [] => Raise IndexError end
  | VData (IDict _) => Raise (KeyError "0")
  | VData (IList l) =>
      match l with x :: _ => Ok (VData x) | [] => Raise IndexError end
  | VData (IStr s) =>
      match s with
      | String c _ => Ok (VData (IStr (String c "")))
      | EmptyString => Raise IndexError
      end
  | VNone | VInt _ | VFloat _ => Raise TypeError
  end.

(** [d[k]] on a dict given as its items: the last item of a key wins. *)
Fixpoint assoc (kvs : list (string * pydata)) (k : string) : option pydata :=
  match kvs with
  | [] => None
  | (k', v) :: kvs' =>
      match assoc kvs' k with
      | Some w => Some w
      | None => if String.eqb k' k then Some v else None
      end
  end.

(** [v[k]] for a string [k] *)
Definition subscript (v : value f8) (k : string) : result (value f8) :=
  match v with
  | VData (IDict kvs) =>
      match assoc kvs k with
      | Some x => Ok (VData x)
      | None => Raise (KeyError k)
      end
  | VData (IList _) | VData (IStr _) => Raise TypeError
  | VNames _ | VConn _ => Raise TypeError
  | VArr _ _ => Raise IndexError
  | VNone | VInt _ | VFloat _ => Raise TypeError
  end.

(** [for x in v] *)
Definition iter (v : value f8) : result (list (value f8)) :=
  match v with
  | VArr _ (Nd0 _) => Raise TypeError
  | VArr d (Nd1 l) => Ok ((λ x, VArr d (Nd0 x)) <$> l)
  | VArr d (Nd2 a) => Ok ((λ r, VArr d (Nd1 r)) <$> rows a)
  | VNames l => Ok ((λ s, VData (IStr s)) <$> l)
  | VConn l => Ok (VArr DInt <$> l)
  | VData (IDict kvs) => Ok ((λ kv, VData (IStr kv.1)) <$> kvs)
  | VData (IList l) => Ok (VData <$> l)
  | VData (IStr s) =>
      Ok ((λ c, VData (IStr (String c ""))) <$> String.list_ascii_of_string s)
  | VNone | VInt _ | VFloat _ => Raise TypeError
  end.

(** [v.tostring()] *)
Definition tostring (v : value f8) : result (list ascii) :=
  match v with
  | VArr d a => Ok (nd_bytes d a)
  | _ => Raise AttributeError
  end.

(** [v.transpose()] *)
Definition transpose_v (v : value f8) : result (value f8) :=
  match v with
  | VArr d a => Ok (VArr d (nd_transpose a))
  | _ => Raise AttributeError
  end.

Definition as_scalar (d : dtype) (v : value f8) : option (elt f8 d) :=
  match v with
  | VArr d' (Nd0 x) => coerce (λ T, T) d' d x
  | _ => None
  end.

Definition as_row (d : dtype) (v : value f8) : option (list (elt f8 d)) :=
  match v with
  | VArr d' (Nd1 l) => coerce list d' d l
  | _ => None
  end.

Definition same_length {A} (rs : list (list A)) : bool :=
  match rs with
  | [] => true
  | r :: rs' => forallb (λ r', Nat.eqb (length r') (length r)) rs'
  end.

(** [np.array(pieces)]: scalars of one type make a vector, vectors of one
    type and one length make the rows of a matrix, and no pieces at all
    make an empty vector of floats. *)
Definition np_array (pieces : list (value f8)) : result (value f8) :=
  match pieces with
  | [] => Ok (VArr DReal (Nd1 []))
  | VArr d _ :: _ =>
      match mapM (as_scalar d) pieces with
      | Some xs => Ok (VArr d (Nd1 xs))
      | None =>
          match mapM (as_row d) pieces with
          | Some rs =>
              if same_length rs
              then Ok (VArr d (Nd2 {| ncols := length (default [] (head rs));
                                      rows := rs |}))
              else np_array_other pieces
          | None => np_array_other pieces
          end
      end
  | _ => np_array_other pieces
  end.

(** One step of numpy's [min] ([smallest = true]) or [max] reduction, from
    the value [x] so far and the next element [y]: a not-a-number is
    propagated, whichever side it is on, and of two numbers [x] stays when
    [x <= y] (for [max], when [x >= y]). *)
Definition leb_pick {A} (is_nan : A → bool) (leb : A → A → bool)
    (smallest : bool) (x y : A) : A :=
  if is_nan x then x
  else if is_nan y then y
  else if smallest then (if leb x y then x else y)
  else (if leb y x then x else y).

(** [v.min(axis=0)] for [smallest = true], [v.max(axis=0)] otherwise; no
    integer is not-a-number. *)
Definition extremum_axis0 (smallest : bool) (v : value f8) : result (value f8) :=
  match v with
  | VArr DChar _ => Raise TypeError
  | VArr DInt a =>
      VArr DInt <$> reduce_axis0 (leb_pick (λ _, false) Z.leb smallest) a
  | VArr DReal a =>
      VArr DReal <$> reduce_axis0 (leb_pick f8_is_nan f8_leb smallest) a
  | _ => Raise AttributeError
  end.

End Ops.

Module ExodusIIUnstructuredMesh.

Definition _index_offset : Z := 1.

Section Host.
Context {f8 M : Type}.

(** Modelled from the spec: the constructor of the host framework's
    [UnstructuredMesh] class, which these files import and do not define.
    The spec names the class among the host's collaborators ("an
    UnstructuredMesh/UnstructuredIndex pair ... each exposing a mesh/grid
    list") and does not say what its constructor checks or stores.  It is
    therefore a parameter: given the mesh id, the file name, the
    connectivity block and the coordinates (the index, passed last, is
    left out) it returns a mesh of the host, of a type [M] that is the
    host's, or raises. *)
Context (UnstructuredMesh : nat → string → nd Z → value f8 → result M).

(** The constructor hands every argument it is given on to the
    constructor of the host's class. *)
Definition __init__ (mesh_id : nat) (filename : string)
    (connectivity_indices : nd Z) (connectivity_coords : value f8)
    : result M :=
  UnstructuredMesh mesh_id filename connectivity_indices connectivity_coords.

End Host.

End ExodusIIUnstructuredMesh.

Module ExodusIIDataset.

Section Model.
Context {f8 : Type} `{!Env f8}.

(** The attributes that parsing sets on the dataset object; [num_steps]
    is the last to be set. *)
Record dataset := Dataset {
  parameters : gmap string (value f8);
  dimensionality : nat;
  unique_identifier : value f8;
  current_time : value f8;
  data : list (gmap (string * string) (nd f8));
  domain_left_edge : value f8;
  domain_right_edge : value f8;
  periodicity : list bool;
  domain_dimensions : list Z;
  cosmological_simulation : Z;
  current_redshift : Z;
  omega_lambda : Z;
  omega_matter : Z;
  hubble_constant : Z;
  refine_by : Z;
  num_steps : option nat
}.

(** [NetCDF4FileHandler(filename).dataset.variables]: opening raises unless
    the path exists and holds a netCDF file. *)
Definition NetCDF4FileHandler (fs : gmap string (entry f8)) (filename : string)
    : result (gmap string (ncvar f8)) :=
  match fs !! filename with
  | Some (NetCDF variables) => Ok variables
  | Some NotNetCDF => Raise IOError
  | None => Raise IOError
  end.

(** [for key in handle.variables.keys(): self.parameters[key] = ...] *)
Definition _load_variables (fs : gmap string (entry f8)) (filename : string)
    (parameters : gmap string (value f8)) : result (gmap string (value f8)) :=
  variables ← NetCDF4FileHandler fs filename;
  Ok ((of_ncvar <$> variables) ∪ parameters).

(** The body of the three name readers:
<<
    try:
        return [sanitize_string(v.tostring()) for v in self.parameters[key]]
    except (KeyError, TypeError):
        mylog.warning(...)
        return []
>> *)
Definition decoded_names (parameters : gmap string (value f8)) (key : string)
    : result (list string) :=
  try_except
    (v ← getitem parameters key;
     items ← iter v;
     mapM (λ x, sanitize_string <$> tostring x) items)
    KeyError_or_TypeError
    (Ok []).

Definition _get_glo_names (parameters : gmap string (value f8)) :=
  decoded_names parameters "name_glo_var".

Definition _get_elem_names (parameters : gmap string (value f8)) :=
  decoded_names parameters "name_elem_var".

Definition _get_nod_names (parameters : gmap string (value f8)) :=
  decoded_names parameters "name_nod_var".

(** [for name, value in zip(names, values): self.parameters[name] = value] *)
Definition assign_all (parameters : gmap string (value f8))
    (pairs : list (string * value f8)) : gmap string (value f8) :=
  foldl (λ p nv, <[nv.1 := nv.2]> p) parameters pairs.

Definition _read_glo_var (parameters : gmap string (value f8))
    : result (gmap string (value f8)) :=
  names ← _get_glo_names parameters;
  match names with
  | [] => Ok parameters
  | _ :: _ =>
      v ← getitem parameters "vals_glo_var";
      s ← slice_all v;
      t ← transpose_v s;
      values ← iter t;
      Ok (assign_all parameters (zip names values))
  end.

Definition _load_info_records (parameters : gmap string (value f8))
    : result pydata :=
  try_except
    (v ← getitem parameters "info_records";
     load_info_records v)
    KeyError_or_TypeError
    (Ok (IList [])).

Definition _get_unique_identifier (parameters : gmap string (value f8))
    (parameter_filename : string) : result (value f8) :=
  try_except
    (r ← getitem parameters "info_records";
     version_info ← subscript r "Version Info";
     subscript version_info "Executable Timestamp")
    KeyError_or_TypeError
    (Ok (VInt (str_hash parameter_filename))).

Definition _get_current_time (parameters : gmap string (value f8))
    : result (value f8) :=
  try_except
    (v ← getitem parameters "time_whole";
     item0 v)
    KeyError_or_TypeError
    (Ok (VFloat f8_zero)).

(** [coord_axes] is bound for 3 and for 2 dimensions only; reading it
    otherwise is an [UnboundLocalError]. *)
Definition coord_axes (dimensionality : nat) : result (list string) :=
  if Nat.eqb dimensionality 3 then Ok ["x"; "y"; "z"]
  else if Nat.eqb dimensionality 2 then Ok ["x"; "y"]
  else Raise UnboundLocalError.

(** [.copy()] changes nothing in a model without sharing. *)
Definition _load_coordinates (dimensionality : nat)
    (parameters : gmap string (value f8)) : result (value f8) :=
  if decide (is_Some (parameters !! "coord")) then
    v ← getitem parameters "coord";
    s ← slice_all v;
    pieces ← iter s;
    a ← np_array pieces;
    transpose_v a
  else
    axes ← coord_axes dimensionality;
    pieces ← mapM (λ ax, v ← getitem parameters ("coord" +:+ ax);
                         slice_all v) axes;
    a ← np_array pieces;
    transpose_v a.

(** [num_meshes], [elem_names], [nod_names] and [connectivity] are read
    back only after [_parse_parameter_file] has stored them.  Their readers
    take the kind of value stored there and answer [TypeError] to any
    other. *)
Definition range (v : value f8) : result (list nat) :=
  match v with
  | VInt n => Ok (seq 0 (Z.to_nat n))
  | _ => Raise TypeError
  end.

Definition enumerate (v : value f8) : result (list (nat * string)) :=
  match v with
  | VNames l => Ok (imap (λ j name, (j, name)) l)
  | _ => Raise TypeError
  end.

Definition conn_item (v : value f8) (i : nat) : result (nd Z) :=
  match v with
  | VConn l =>
      match l !! i with
      | Some ci => Ok ci
      | None => Raise IndexError
      end
  | _ => Raise TypeError
  end.

Definition _load_connectivity (parameters : gmap string (value f8))
    : result (list (nd Z)) :=
  num_meshes ← getitem parameters "num_meshes";
  indices ← range num_meshes;
  mapM (λ i : nat,
          v ← getitem parameters ("connect" +:+ pretty (i + 1));
          s ← slice_all v;
          astype_i8 s) indices.

(** [ci - 1] on 64-bit integers *)
Definition minus_one (ci : nd Z) : nd Z :=
  nd_map (λ c, wrap64 (c - 1)) ci.

(** One pass of the loop over [elem_names]. *)
Definition elem_step (parameters : gmap string (value f8)) (i : nat)
    (vals : gmap (string * string) (nd f8)) (entry : nat * string)
    : result (gmap (string * string) (nd f8)) :=
  let '(j, elem_name) := entry in
  v ← getitem parameters
        ("vals_elem_var" +:+ pretty (j + 1) +:+ "eb" +:+ pretty (i + 1));
  s ← slice_all v;
  a ← astype_f8 s;
  r ← last_row a;
  Ok (<[("gas", elem_name) := Nd1 r]> vals).

(** One pass of the loop over [nod_names]. *)
Definition nod_step (parameters : gmap string (value f8)) (ci : nd Z)
    (vals : gmap (string * string) (nd f8)) (entry : nat * string)
    : result (gmap (string * string) (nd f8)) :=
  let '(j, nod_name) := entry in
  v ← getitem parameters ("vals_nod_var" +:+ pretty (j + 1));
  s ← slice_all v;
  a ← astype_f8 s;
  r ← take_last a (minus_one ci);
  Ok (<[("gas", nod_name) := r]> vals).

(** A [for] loop that threads a state and stops at the first exception. *)
Fixpoint for_each {S X} (step : S → X → result S) (xs : list X) (s : S)
    : result S :=
  match xs with
  | [] => Ok s
  | x :: xs' => s' ← step s x; for_each step xs' s'
  end.

(** The body of the loop over meshes. *)
Definition load_mesh (parameters : gmap string (value f8)) (i : nat)
    : result (gmap (string * string) (nd f8)) :=
  connectivity ← getitem parameters "connectivity";
  ci ← conn_item connectivity i;
  elem_names ← getitem parameters "elem_names" ≫= enumerate;
  vals ← for_each (elem_step parameters i) elem_names ∅;
  nod_names ← getitem parameters "nod_names" ≫= enumerate;
  for_each (nod_step parameters ci) nod_names vals.

Definition _load_data (parameters : gmap string (value f8))
    : result (list (gmap (string * string) (nd f8))) :=
  num_meshes ← getitem parameters "num_meshes";
  indices ← range num_meshes;
  mapM (load_mesh parameters) indices.

Definition _load_domain_edge (parameters : gmap string (value f8))
    (domain_idx : Z) : result (value f8) :=
  if (domain_idx =? 0)%Z then
    c ← getitem parameters "coordinates";
    extremum_axis0 true c
  else if (domain_idx =? 1)%Z then
    c ← getitem parameters "coordinates";
    extremum_axis0 false c
  else Ok VNone.

(** The statements of [_parse_parameter_file] that read the file and
    derive from it, up to the two domain edges.  What follows them assigns
    constants and, last, [num_steps]. *)
Definition derive (fs : gmap string (entry f8))
    (parameter_filename : string) (parameters : gmap string (value f8))
    : result dataset :=
  parameters ← _load_variables fs parameter_filename parameters;
  parameters ← _read_glo_var parameters;
  dimensionality ← getitem parameters "coor_names" ≫= shape0;
  info_records ← _load_info_records parameters;
  let parameters := <["info_records" := VData info_records]> parameters in
  unique_identifier ← _get_unique_identifier parameters parameter_filename;
  current_time ← _get_current_time parameters;
  num_meshes ← getitem parameters "eb_status" ≫= shape0;
  let parameters := <["num_meshes" := VInt (Z.of_nat num_meshes)]> parameters in
  elem_names ← _get_elem_names parameters;
  let parameters := <["elem_names" := VNames elem_names]> parameters in
  nod_names ← _get_nod_names parameters;
  let parameters := <["nod_names" := VNames nod_names]> parameters in
  coordinates ← _load_coordinates dimensionality parameters;
  let parameters := <["coordinates" := coordinates]> parameters in
  connectivity ← _load_connectivity parameters;
  let parameters := <["connectivity" := VConn connectivity]> parameters in
  data ← _load_data parameters;
  domain_left_edge ← _load_domain_edge parameters 0;
  domain_right_edge ← _load_domain_edge parameters 1;
  Ok {| parameters := parameters;
        dimensionality := dimensionality;
        unique_identifier := unique_identifier;
        current_time := current_time;
        data := data;
        domain_left_edge := domain_left_edge;
        domain_right_edge := domain_right_edge;
        periodicity := [false; false; false];
        domain_dimensions := [1; 1; 1]%Z;
        cosmological_simulation := 0;
        current_redshift := 0;
        omega_lambda := 0;
        omega_matter := 0;
        hubble_constant := 0;
        refine_by := 0;
        num_steps := None |}.

Definition _parse_parameter_file (fs : gmap string (entry f8))
    (parameter_filename : string) (initial : gmap string (value f8))
    : result dataset :=
  self ← derive fs parameter_filename initial;
  n ← getitem (parameters self) "time_whole" ≫= len;
  Ok {| parameters := parameters self;
        dimensionality := dimensionality self;
        unique_identifier := unique_identifier self;
        current_time := current_time self;
        data := data self;
        domain_left_edge := domain_left_edge self;
        domain_right_edge := domain_right_edge self;
        periodicity := periodicity self;
        domain_dimensions := domain_dimensions self;
        cosmological_simulation := cosmological_simulation self;
        current_redshift := current_redshift self;
        omega_lambda := omega_lambda self;
        omega_matter := omega_matter self;
        hubble_constant := hubble_constant self;
        refine_by := refine_by self;
        num_steps := Some n |}.

(** The loop of [_get_fluid_types], from block number [i]:
<<
    while True:
        ftype = 'connect%d' % i
        if ftype in handle.variables:
            fluid_types += (ftype,)
            i += 1
        else:
            break
>>
    Every pass but the last finds one more variable of the file, so the
    passes are bounded by the number of variables plus one; [budget] counts
    them down. *)
Fixpoint fluid_types_from (variables : gmap string (ncvar f8))
    (budget i : nat) : list string :=
  match budget with
  | 0 => []
  | S budget' =>
      let ftype := "connect" +:+ pretty i in
      if decide (is_Some (variables !! ftype))
      then ftype :: fluid_types_from variables budget' (i + 1)
      else []
  end.

Definition _get_fluid_types (fs : gmap string (entry f8))
    (parameter_filename : string) : result (list string) :=
  variables ← NetCDF4FileHandler fs parameter_filename;
  Ok (fluid_types_from variables (S (size variables)) 1).

(** The probe returns [True] from inside the [try]; the handler is [pass]
    and nothing follows it. *)
Definition _is_valid (fs : gmap string (entry f8)) (filename : string)
    : result pyret :=
  try_except
    (variables ← NetCDF4FileHandler fs filename;
     _ ← getitem variables "connect1";
     Ok (PyBool true))
    any_exception
    (Ok PyNone).

End Model.

Arguments dataset : clear implicits.

End ExodusIIDataset.

Module ExodusIIUnstructuredIndex.

Section Model.
Context {f8 : Type} `{!Env f8} {M : Type}.

(** Modelled from the spec: the constructor of the host's mesh class, as
    in [ExodusIIUnstructuredMesh], and the attribute
    [connectivity_indices] of a mesh it has built; neither is defined in
    these files, and the spec does not say what the attribute holds, so
    reading it is a parameter that returns an array or raises. *)
Context (UnstructuredMesh : nat → string → nd Z → value f8 → result M).
Context (connectivity_indices : M → result (nd Z)).

(** The index reads [coordinates], [connectivity], [elem_names] and
    [nod_names] as the dataset has stored them, and answers [TypeError] to
    a value of another kind.  The meshes are built in the order of the
    blocks, and the first constructor that raises ends the list
    comprehension. *)
Definition _initialize_mesh (parameters : gmap string (value f8))
    (index_filename : string) : result (list M) :=
  coords ← getitem parameters "coordinates";
  connectivity ← getitem parameters "connectivity";
  match connectivity with
  | VConn l =>
      mapM (λ entry : nat * nd Z,
              ExodusIIUnstructuredMesh.__init__ UnstructuredMesh
                entry.1 index_filename entry.2 coords)
           (imap (λ mesh_id conn_ind, (mesh_id, conn_ind)) l)
  | _ => Raise TypeError
  end.

(** [a.shape[1]] *)
Definition shape1 (a : nd Z) : result nat :=
  match a with
  | Nd2 a => Ok (ncols a)
  | Nd1 _ => Raise IndexError
  | Nd0 _ => Raise IndexError
  end.

(** [self.meshes[0].connectivity_indices.shape[1]] *)
Definition _connectivity_length (meshes : list M) : result nat :=
  match meshes with
  | [] => Raise IndexError
  | m :: _ => ci ← connectivity_indices m; shape1 ci
  end.

Definition names (v : value f8) : result (list string) :=
  match v with
  | VNames l => Ok l
  | _ => Raise TypeError
  end.

Definition _detect_output_fields (parameters : gmap string (value f8))
    (meshes : list M) : result (list (string * string)) :=
  elem_names ← getitem parameters "elem_names" ≫= names;
  node_names ← getitem parameters "nod_names" ≫= names;
  let fnames := (elem_names ++ node_names)%list in
  Ok (seq 1 (length meshes) ≫= λ i : nat,
        (λ fname : string, ("connect" +:+ pretty i, fname)) <$> fnames).

End Model.

End ExodusIIUnstructuredIndex.

End ExodusII.

(** ** Concrete files

    Small files on which the statements below are exercised.  Integers
    stand in for 64-bit floats where a concrete number type is needed. *)

Module Fixtures.
Import YTData ExodusII ExodusIIDataset.

(** A container file with every required attribute. *)
Definition container_attrs : gmap string (attr Z) :=
  list_to_map [
    ("data_type", AStr "yt_data_container");
    ("cosmological_simulation", ANum 0%Z);
    ("current_time", ANum 7%Z);
    ("current_redshift", ANum 0%Z);
    ("hubble_constant", ANum 1%Z);
    ("omega_matter", ANum 1%Z);
    ("omega_lambda", ANum 0%Z);
    ("domain_left_edge", AVec [0; 0; 0]%Z);
    ("domain_right_edge", AVec [1; 1; 1]%Z)].

Definition container_file : h5file Z :=
  {| attrs := container_attrs; keys := ["grid"]; st_ctime := 1446595200 |}.

(** The same file without [omega_lambda]. *)
Definition incomplete_file : h5file Z :=
  {| attrs := delete "omega_lambda" container_attrs;
     keys := ["grid"]; st_ctime := 1446595200 |}.

Definition grid_file : h5file Z :=
  {| attrs := {[ "data_type" := AStr "yt_grid_data" ]};
     keys := []; st_ctime := 0 |}.

(** A file whose [data_type] attribute is an array of two numbers. *)
Definition vector_tag_file : h5file Z :=
  {| attrs := {[ "data_type" := AVec [1; 2]%Z ]};
     keys := []; st_ctime := 0 |}.

Definition disk : gmap string (YTData.entry Z) :=
  list_to_map [
    ("sphere.h5", Hdf5 container_file);
    ("vector.h5", Hdf5 vector_tag_file);
    ("broken.h5", Hdf5 incomplete_file);
    ("grid.h5", Hdf5 grid_file);
    ("notes.h5", NotHdf5);
    ("sphere.dat", Hdf5 container_file)].

Definition container_self (filename : string) : self_t Z :=
  {| parameter_filename := filename; n_ref := 16; over_refine_factor := 1;
     __dict__ := ∅; YTData.parameters := ∅ |}.

(** A grid dataset as [Dataset.__init__] leaves it before parsing. *)
Definition grid_self : gmap string (pyval Z) :=
  {[ "parameter_filename" := PStr "grid.h5" ]}.

(** An environment in which integers stand in for floats: the order and
    the conversions are those of the integers, names are decoded byte for
    byte, and the info-records decoder finds one executable time stamp in
    any character variable. *)
#[global] Instance Env_Z : Env Z := {|
  f8_zero := 0%Z;
  f8_leb := Z.leb;
  f8_is_nan := λ _, false;
  f8_of_int := λ z, z;
  f8_of_char := λ _, Raise ValueError;
  i8_of_f8 := wrap64;
  i8_of_char := λ _, Raise ValueError;
  int_bytes := λ _, [];
  f8_bytes := λ _, [];
  np_array_other := λ _, Raise ValueError;
  str_hash := λ s, Z.of_nat (String.length s);
  sanitize_string := String.string_of_list_ascii;
  load_info_records := λ v,
    match v with
    | VArr DChar _ =>
        Ok (IDict [("Version Info",
                    IDict [("Executable Timestamp", IStr "Nov 4 2015")])])
    | _ => Raise TypeError
    end
|}.

(** The info records that the decoder of this environment returns. *)
Definition records : pydata :=
  IDict [("Version Info", IDict [("Executable Timestamp", IStr "Nov 4 2015")])].

Definition chars (s : string) : list ascii := String.list_ascii_of_string s.

(** A mesh of one triangle in the plane, with the combined [coord]
    variable, one node field [u] and two time steps. *)
Definition triangle : gmap string (ncvar Z) :=
  list_to_map [
    ("coor_names", Var2 DChar (Array2 1 [chars "x"; chars "y"]));
    ("coord", Var2 DReal (Array2 3 [[0; 4; 0]; [0; 0; 3]]%Z));
    ("connect1", Var2 DInt (Array2 3 [[1; 2; 3]]%Z));
    ("eb_status", Var1 DInt [1%Z]);
    ("time_whole", Var1 DReal [5; 6]%Z);
    ("name_nod_var", Var2 DChar (Array2 1 [chars "u"]));
    ("vals_nod_var1", Var2 DReal (Array2 3 [[10; 20; 30]; [11; 21; 31]]%Z))].

(** The same mesh with its coordinates in [coordx] and [coordy]. *)
Definition triangle_xy : gmap string (ncvar Z) :=
  <["coordx" := Var1 DReal [0; 4; 0]%Z]>
    (<["coordy" := Var1 DReal [0; 0; 3]%Z]> (delete "coord" triangle)).

(** A mesh of one bar on a line: one coordinate per node. *)
Definition bar : gmap string (ncvar Z) :=
  list_to_map [
    ("coor_names", Var2 DChar (Array2 1 [chars "x"]));
    ("coord", Var2 DReal (Array2 2 [[0; 4]]%Z));
    ("connect1", Var2 DInt (Array2 2 [[1; 2]]%Z));
    ("eb_status", Var1 DInt [1%Z]);
    ("time_whole", Var1 DReal [5%Z])].

(** The triangle written before any time step: [time_whole] is there and
    is empty. *)
Definition triangle_no_steps : gmap string (ncvar Z) :=
  <["time_whole" := Var1 DReal []]>
    (delete "name_nod_var" (delete "vals_nod_var1" triangle)).

(** The triangle without the [time_whole] variable. *)
Definition triangle_no_time : gmap string (ncvar Z) :=
  delete "time_whole" triangle.

(** No [time_whole] variable either, but a global variable of that name. *)
Definition triangle_global_time : gmap string (ncvar Z) :=
  <["name_glo_var" := Var2 DChar (Array2 10 [chars "time_whole"])]>
    (<["vals_glo_var" := Var2 DReal (Array2 1 [[5]; [6]]%Z)]> triangle_no_time).

(** The triangle with two global variables over its two time steps. *)
Definition triangle_globals : gmap string (ncvar Z) :=
  <["name_glo_var" := Var2 DChar (Array2 2 [chars "dt"; chars "ke"])]>
    (<["vals_glo_var" := Var2 DReal (Array2 2 [[1; 70]; [2; 80]]%Z)]> triangle).

Definition meshes : gmap string (ExodusII.entry Z) :=
  list_to_map [
    ("triangle.e", NetCDF triangle);
    ("triangle_xy.e", NetCDF triangle_xy);
    ("bar.e", NetCDF bar);
    ("no_steps.e", NetCDF triangle_no_steps);
    ("no_time.e", NetCDF triangle_no_time);
    ("global_time.e", NetCDF triangle_global_time);
    ("globals.e", NetCDF triangle_globals);
    ("no_blocks.e", NetCDF (delete "connect1" triangle));
    ("readme.e", NotNetCDF)].

(** The triangle with one element field [p] beside its node field. *)
Definition triangle_elem : gmap string (ncvar Z) :=
  <["name_elem_var" := Var2 DChar (Array2 1 [chars "p"])]>
    (<["vals_elem_var1eb1" := Var2 DReal (Array2 1 [[100]; [101]]%Z)]>
       triangle).

(** A file of nodes only: no element block at all. *)
Definition triangle_no_blocks : gmap string (ncvar Z) :=
  <["eb_status" := Var1 DInt []]> (delete "connect1" triangle).

(** The triangle with the names of two global variables and no values
    for them. *)
Definition triangle_names_only : gmap string (ncvar Z) :=
  <["name_glo_var" := Var2 DChar (Array2 2 [chars "dt"; chars "ke"])]>
    triangle.

(** The triangle with its connectivity counted from 0. *)
Definition triangle_zero_based : gmap string (ncvar Z) :=
  <["connect1" := Var2 DInt (Array2 3 [[0; 1; 2]]%Z)]> triangle.

Definition more_meshes : gmap string (ExodusII.entry Z) :=
  list_to_map [
    ("triangle_p.e", NetCDF triangle_elem);
    ("zero_based.e", NetCDF triangle_zero_based);
    ("nodes_only.e", NetCDF triangle_no_blocks);
    ("names_only.e", NetCDF triangle_names_only)].

(** *** Files of binary64 floats

    The same environment over the IEEE 754 binary64 floats of the kernel:
    the order, the not-a-number test and the conversions are those of the
    floats. *)

(** The float nearest to an integer. *)
Definition float_of_Z (z : Z) : PrimFloat.float :=
  FloatOps.SF2Prim
    (SpecFloat.binary_normalize FloatOps.prec FloatOps.emax z 0 false).

(** A float cut down to a 64-bit integer; what has no such integer gives
    the least one. *)
Definition Z_of_float (x : PrimFloat.float) : Z :=
  match FloatOps.Prim2SF x with
  | SpecFloat.S754_zero _ => 0%Z
  | SpecFloat.S754_finite s m e =>
      let v := if (0 <=? e)%Z then (Z.pos m * 2 ^ e)%Z
               else (Z.pos m / 2 ^ (- e))%Z in
      let v := if s then (- v)%Z else v in
      if ((- 2 ^ 63 <=? v) && (v <? 2 ^ 63))%Z then v else (- 2 ^ 63)%Z
  | _ => (- 2 ^ 63)%Z
  end.

#[global] Instance Env_float : Env PrimFloat.float | 100 := {|
  f8_zero := PrimFloat.zero;
  f8_leb := PrimFloat.leb;
  f8_is_nan := PrimFloat.is_nan;
  f8_of_int := float_of_Z;
  f8_of_char := λ _, Raise ValueError;
  i8_of_f8 := Z_of_float;
  i8_of_char := λ _, Raise ValueError;
  int_bytes := λ _, [];
  f8_bytes := λ _, [];
  np_array_other := λ _, Raise ValueError;
  str_hash := λ s, Z.of_nat (String.length s);
  sanitize_string := String.string_of_list_ascii;
  load_info_records := λ v,
    match v with
    | VArr DChar _ =>
        Ok (IDict [("Version Info",
                    IDict [("Executable Timestamp", IStr "Nov 4 2015")])])
    | _ => Raise TypeError
    end
|}.

(** A mesh of one triangle in the plane whose nodes have the abscissas
    [xs] and the ordinates 0, 0 and 3. *)
Definition float_triangle (xs : list PrimFloat.float)
    : gmap string (ncvar PrimFloat.float) :=
  list_to_map [
    ("coor_names", Var2 DChar (Array2 1 [chars "x"; chars "y"]));
    ("coord", Var2 DReal (Array2 3 [xs; float_of_Z <$> [0; 0; 3]%Z]));
    ("connect1", Var2 DInt (Array2 3 [[1; 2; 3]]%Z));
    ("eb_status", Var1 DInt [1%Z]);
    ("time_whole", Var1 DReal (float_of_Z <$> [5; 6]%Z))].

(** The triangle of the integer files, and one whose second node has no
    abscissa: a not-a-number. *)
Definition float_meshes : gmap string (ExodusII.entry PrimFloat.float) :=
  list_to_map [
    ("triangle.e", NetCDF (float_triangle (float_of_Z <$> [0; 4; 0]%Z)));
    ("nan.e", NetCDF (float_triangle
                        [float_of_Z 0; PrimFloat.nan; float_of_Z 0]))].

(** *** A host

    Meshes that record what their constructor is given; the constructor
    reads the second axis of the connectivity block, and so raises on a
    block that has none. *)
Record host_mesh := HostMesh {
  mesh_id : nat;
  mesh_filename : string;
  mesh_connectivity_indices : nd Z;
  mesh_connectivity_coords : value Z
}.

Definition host_init (mesh_id : nat) (filename : string)
    (connectivity_indices : nd Z) (connectivity_coords : value Z)
    : result host_mesh :=
  match connectivity_indices with
  | Nd2 _ =>
      Ok (HostMesh mesh_id filename connectivity_indices connectivity_coords)
  | _ => Raise IndexError
  end.

Definition host_connectivity_indices (m : host_mesh) : result (nd Z) :=
  Ok (mesh_connectivity_indices m).

Definition loaded (variables : gmap string (ncvar Z)) : gmap string (value Z) :=
  of_ncvar <$> variables.

End Fixtures.

(** ** Notions used in the statements *)

Module Notions.
Import YTData ExodusII ExodusIIDataset.

(** A container file is tagged for a probe when its [data_type] attribute
    is a string among the probe's tags. *)
Definition tagged {num} (tags : list string) (f : h5file num) : Prop :=
  ∃ tag, attrs f !! "data_type" = Some (AStr tag) ∧ tag ∈ tags.

(** The nested field "Version Info" → "Executable Timestamp" of parsed
    info records, when both levels are dicts that have it. *)
Definition executable_timestamp (records : pydata) : option pydata :=
  match records with
  | IDict kvs =>
      match assoc kvs "Version Info" with
      | Some (IDict kvs') => assoc kvs' "Executable Timestamp"
      | _ => None
      end
  | _ => None
  end.

(** The name of the [j]-th node variable, counted from 0. *)
Definition nod_key (j : nat) : string := "vals_nod_var" +:+ pretty (j + 1).

(** The name of the [j]-th element variable on the [i]-th element block,
    both counted from 0. *)
Definition elem_key (j i : nat) : string :=
  "vals_elem_var" +:+ pretty (j + 1) +:+ "eb" +:+ pretty (i + 1).

End Notions.
Import Notions.

(** * Properties *)

(** ** The error monad *)

Lemma bind_Ok {A B} (m : result A) (f : A → result B) (b : B) :
  m ≫= f = Ok b → ∃ a, m = Ok a ∧ f a = Ok b.
Proof. destruct m as [a|e]; [eauto | discriminate]. Qed.

Lemma fmap_Ok {A B} (m : result A) (f : A → B) (b : B) :
  f <$> m = Ok b → ∃ a, m = Ok a ∧ b = f a.
Proof. destruct m as [a|e]; [intros [= <-]; eauto | discriminate]. Qed.

Lemma getitem_Ok {V} (d : gmap string V) k v :
  getitem d k = Ok v ↔ d !! k = Some v.
Proof. unfold getitem. destruct (d !! k); split; congruence. Qed.

Lemma getitem_None {V} (d : gmap string V) k :
  d !! k = None → getitem d k = Raise (KeyError k).
Proof. unfold getitem. by intros ->. Qed.

(** Breaks [m ≫= f = Ok b] in a hypothesis into its steps. *)
Ltac inv_bind H :=
  let a := fresh "a" in
  let Ha := fresh "H" a in
  cbv beta zeta in H;
  apply bind_Ok in H as (a & Ha & H).

(** With [H : run = Ok s], turns a goal about [s] into the same goal about
    the value that [run] computes. *)
Ltac through H :=
  match type of H with
  | _ = Ok ?s =>
      pattern s;
      match goal with
      | |- ?P s =>
          change (match Ok s with Ok s' => P s' | Raise _ => True end);
          rewrite <- H; vm_compute
      end
  end.

Tactic Notation "unbind" hyp(H) "as" ident(x) ident(Hx) :=
  cbv beta zeta in H; apply bind_Ok in H as (x & Hx & H).

(** ** The container format *)

Section ContainerFormat.
Import YTData.
Context {num : Type}.
Implicit Types (fs : gmap string (entry num)) (f : h5file num).

Lemma attr_in_string (s : string) tags :
  attr_in (AStr (num:=num) s) tags = Ok (bool_decide (s ∈ tags)).
Proof.
  induction tags as [|t tags IH]; [done|]. cbn [attr_in attr_eq mbind result_bind].
  destruct (String.eqb_spec s t) as [->|Hne].
  - by rewrite bool_decide_eq_true_2 by apply list_elem_of_here.
  - rewrite IH. f_equal. apply bool_decide_ext. rewrite elem_of_cons.
    split; [by right | by intros [? | ?]].
Qed.

Lemma attr_in_true (a : attr num) tags :
  attr_in a tags = Ok true ↔ ∃ tag, a = AStr tag ∧ tag ∈ tags.
Proof.
  split.
  - intros Hin. destruct a as [s|x|l].
    + rewrite attr_in_string in Hin. injection Hin as Hin.
      apply bool_decide_eq_true_1 in Hin. eauto.
    + exfalso. induction tags as [|t tags IH]; [done|]. by apply IH.
    + exfalso. induction tags as [|t tags IH]; [done|].
      cbn [attr_in attr_eq mbind result_bind] in Hin.
      case_decide; [by apply IH | done].
  - intros (tag & -> & Hin). rewrite attr_in_string.
    by rewrite bool_decide_eq_true_2.
Qed.

(** The membership test returns a boolean unless the attribute is an array
    of several elements. *)
Lemma attr_in_returns (a : attr num) tags :
  (∀ l, a = AVec l → (length l ≤ 1)%nat) → ∃ b, attr_in a tags = Ok b.
Proof.
  intros Hsmall. destruct a as [s|x|l].
  - rewrite attr_in_string. eauto.
  - exists false. induction tags as [|t tags IH]; [done|]. exact IH.
  - exists false. induction tags as [|t tags IH]; [done|].
    cbn [attr_in attr_eq mbind result_bind].
    by rewrite decide_True by (by apply Hsmall).
Qed.

Lemma attr_in_array (l : list num) tags :
  (1 < length l)%nat → tags ≠ [] → attr_in (AVec l) tags = Raise ValueError.
Proof.
  intros Hl Htags. destruct tags as [|t tags]; [done|].
  cbn [attr_in attr_eq mbind result_bind]. by rewrite decide_False by lia.
Qed.

Lemma probe_wrong_suffix tags fs filename :
  endswith filename ".h5" = false → probe tags fs filename = Ok false.
Proof. unfold probe. by intros ->. Qed.

Lemma probe_opened tags fs filename f :
  endswith filename ".h5" = true → fs !! filename = Some (Hdf5 f) →
  (∀ l, attrs f !! "data_type" = Some (AVec l) → (length l ≤ 1)%nat) →
  ∃ b, probe tags fs filename = Ok b ∧ (b = true ↔ tagged tags f).
Proof.
  intros Hs Hf Hsmall. unfold probe, h5py_File, tagged. rewrite Hs, Hf. simpl.
  destruct (attrs f !! "data_type") as [a|] eqn:Ha.
  - destruct (attr_in_returns a tags) as [b Hb].
    { intros l ->. by apply Hsmall. }
    rewrite Hb. cbn [mbind result_bind]. destruct b; eexists; (split; [done|]).
    + split; [intros _ | done]. apply attr_in_true in Hb as (t & -> & ?). eauto.
    + split; [done|]. intros (t & [= ->] & Ht).
      assert (attr_in (AStr (num:=num) t) tags = Ok true)
        by (apply attr_in_true; eauto).
      congruence.
  - exists false. split; [done|]. split; [done | by intros (? & ? & _)].
Qed.

Lemma probe_array_tag tags fs filename f (l : list num) :
  endswith filename ".h5" = true → fs !! filename = Some (Hdf5 f) →
  attrs f !! "data_type" = Some (AVec l) → (1 < length l)%nat → tags ≠ [] →
  probe tags fs filename = Raise ValueError.
Proof.
  intros Hs Hf Ha Hl Htags. unfold probe, h5py_File. rewrite Hs, Hf. simpl.
  rewrite Ha. by rewrite attr_in_array.
Qed.

Lemma probe_open_fails tags fs filename :
  endswith filename ".h5" = true →
  fs !! filename = None ∨ fs !! filename = Some NotHdf5 →
  probe tags fs filename = Raise IOError.
Proof. unfold probe, h5py_File. by intros -> [-> | ->]. Qed.

(** C1, as amended.  Each of the two probes of the container format
    returns false when the file name lacks the [.h5] suffix, whatever the
    path leads to (the file is not opened).  With the suffix, a file that
    opens yields a boolean, true exactly when its [data_type] attribute is
    present and is a recognized tag, unless that attribute is an array of
    several elements: comparing it with a tag then raises [ValueError],
    which the probe does not catch.  A path that is missing or is not an
    HDF5 file makes the probe raise the error of the failed open. *)
Theorem container_probe_results fs filename :
  (endswith filename ".h5" = false →
     YTDataContainerDataset._is_valid fs filename = Ok false
     ∧ YTGridDataset._is_valid fs filename = Ok false)
  ∧ (∀ f, endswith filename ".h5" = true → fs !! filename = Some (Hdf5 f) →
     ((∀ l, attrs f !! "data_type" = Some (AVec l) → (length l ≤ 1)%nat) →
        (∃ b, YTDataContainerDataset._is_valid fs filename = Ok b
              ∧ (b = true ↔ tagged YTDataContainerDataset.recognized f))
        ∧ (∃ b, YTGridDataset._is_valid fs filename = Ok b
              ∧ (b = true ↔ tagged YTGridDataset.recognized f)))
     ∧ (∀ l, attrs f !! "data_type" = Some (AVec l) → (1 < length l)%nat →
          YTDataContainerDataset._is_valid fs filename = Raise ValueError
          ∧ YTGridDataset._is_valid fs filename = Raise ValueError))
  ∧ (endswith filename ".h5" = true →
     fs !! filename = None ∨ fs !! filename = Some NotHdf5 →
     YTDataContainerDataset._is_valid fs filename = Raise IOError
     ∧ YTGridDataset._is_valid fs filename = Raise IOError).
Proof.
  unfold YTDataContainerDataset._is_valid, YTGridDataset._is_valid.
  split; [|split].
  - intros Hs. split; by apply probe_wrong_suffix.
  - intros f Hs Hf. split.
    + intros Hsmall. split; by apply (probe_opened _ _ _ f).
    + intros l Ha Hl. split; by apply (probe_array_tag _ _ _ f l).
  - intros Hs Hf. split; by apply probe_open_fails.
Qed.

(** *** Required attributes *)

Import YTDataContainerDataset.

Lemma setattr_dict (self : self_t num) a v :
  __dict__ (setattr self a v) = <[a := v]> (__dict__ self).
Proof. done. Qed.

Lemma copy_attrs_Ok hvals names (self self' : self_t num) :
  copy_attrs hvals names self = Ok self' →
  (∀ a, a ∈ names →
     ∃ v, hvals !! a = Some v ∧ __dict__ self' !! a = Some (PAttr v))
  ∧ (∀ a, a ∉ names → __dict__ self' !! a = __dict__ self !! a)
  ∧ parameter_filename self' = parameter_filename self
  ∧ over_refine_factor self' = over_refine_factor self.
Proof.
  revert self. induction names as [|k names IH]; intros self; simpl.
  - intros [= <-]. split; [|done]. intros a Ha. by apply elem_of_nil in Ha.
  - intros H. inv_bind H. apply getitem_Ok in Ha.
    destruct (IH _ H) as (Hin & Hout & Hfn & Horf). clear IH.
    split; [|split; [|done]].
    + intros b Hb. destruct (decide (b ∈ names)) as [?|Hn]; [by apply Hin|].
      apply elem_of_cons in Hb as [-> | ?]; [|done].
      exists a. split; [done|]. rewrite (Hout _ Hn), setattr_dict.
      apply lookup_insert_eq.
    + intros b Hb. apply not_elem_of_cons in Hb as [Hne Hb].
      rewrite (Hout _ Hb), setattr_dict. by apply lookup_insert_ne.
Qed.

Lemma copy_attrs_missing hvals names (self : self_t num) a :
  a ∈ names → hvals !! a = None →
  ∃ k, k ∈ names ∧ hvals !! k = None
       ∧ copy_attrs hvals names self = Raise (KeyError k).
Proof.
  revert self. induction names as [|k names IH]; intros self Ha Hnone.
  - by apply elem_of_nil in Ha.
  - simpl. unfold getitem at 1. destruct (hvals !! k) as [v|] eqn:Hk.
    + apply elem_of_cons in Ha as [-> | Ha]; [congruence|].
      destruct (IH (setattr self k (PAttr v)) Ha Hnone) as (k' & ? & ? & ?).
      exists k'. split; [by apply elem_of_cons; right | done].
    + exists k. split; [apply elem_of_cons; by left | done].
Qed.

Lemma copy_attrs_total hvals names (self : self_t num) :
  (∀ a, a ∈ names → is_Some (hvals !! a)) →
  ∃ self', copy_attrs hvals names self = Ok self'.
Proof.
  revert self. induction names as [|k names IH]; intros self Hall; simpl.
  - eauto.
  - destruct (Hall k) as [v Hv]; [apply elem_of_cons; by left|].
    unfold getitem. rewrite Hv. simpl. apply IH.
    intros a Ha. apply Hall, elem_of_cons. by right.
Qed.

Lemma required_not_later a :
  a ∈ required → a ≠ "periodicity" ∧ a ≠ "domain_dimensions".
Proof.
  unfold required. rewrite !elem_of_cons, elem_of_nil.
  intros H. split; intros ->; repeat destruct H as [H|H]; done.
Qed.

(** C6.  Parsing a container file copies each of the eight required
    attributes from the file's attributes onto the dataset, unchanged;
    when the file opens and one of them is absent, parsing stops with the
    [KeyError] of a missing required attribute; and when all are there
    (and the over-refine factor is not negative) parsing succeeds. *)
Theorem container_required_attributes fs (self : self_t num) f :
  h5py_File fs (parameter_filename self) = Ok f →
  (∀ self', _parse_parameter_file fs self = Ok self' →
     ∀ a, a ∈ required →
       ∃ v, attrs f !! a = Some v ∧ __dict__ self' !! a = Some (PAttr v))
  ∧ (∀ a, a ∈ required → attrs f !! a = None →
     ∃ k, k ∈ required ∧ attrs f !! k = None
          ∧ _parse_parameter_file fs self = Raise (KeyError k))
  ∧ ((∀ a, a ∈ required → is_Some (attrs f !! a)) →
     (0 ≤ over_refine_factor self)%Z →
     ∃ self', _parse_parameter_file fs self = Ok self').
Proof.
  intros Hf. unfold _parse_parameter_file. rewrite Hf.
  cbn -[copy_attrs required]. split; [|split].
  - intros self' H a Ha. inv_bind H. inv_bind H.
    injection H as <-. cbn -[required].
    apply copy_attrs_Ok in Ha0 as (Hin & _).
    destruct (Hin a Ha) as (v & Hv & Hd). exists v. split; [done|].
    destruct (required_not_later a Ha) as [? ?].
    by rewrite !lookup_insert_ne.
  - intros a Ha Hnone.
    edestruct copy_attrs_missing as (k & Hk & Hkn & ->); [done..|]. eauto.
  - intros Hall Horf.
    edestruct copy_attrs_total as (s & Hs); [done|]. rewrite Hs.
    apply copy_attrs_Ok in Hs as (_ & _ & _ & Hsame).
    cbn -[required]. unfold lshift1. rewrite Hsame. cbn.
    destruct (Z.ltb_spec (over_refine_factor self) 0); [lia | eauto].
Qed.

End ContainerFormat.

(** The claim C1 as stated fails: a path that does not exist, or one that
    holds no HDF5 file, makes the probe raise instead of returning false. *)
Lemma container_probe_raises_on_unreadable_path :
  YTData.YTDataContainerDataset._is_valid Fixtures.disk "missing.h5" = Raise IOError
  ∧ YTData.YTDataContainerDataset._is_valid Fixtures.disk "notes.h5" = Raise IOError
  ∧ YTData.YTGridDataset._is_valid Fixtures.disk "missing.h5" = Raise IOError
  ∧ ¬ ∃ b : bool,
      YTData.YTDataContainerDataset._is_valid Fixtures.disk "missing.h5" = Ok b.
Proof.
  repeat split; try reflexivity. intros [b Hb]. vm_compute in Hb. discriminate.
Qed.

Lemma container_probe_results_witness :
  (YTData.YTDataContainerDataset._is_valid Fixtures.disk "sphere.dat" = Ok false
   ∧ YTData.YTGridDataset._is_valid Fixtures.disk "sphere.dat" = Ok false)
  ∧ ((∃ b, YTData.YTDataContainerDataset._is_valid Fixtures.disk "sphere.h5" = Ok b
           ∧ (b = true ↔ tagged YTData.YTDataContainerDataset.recognized
                                Fixtures.container_file))
     ∧ (∃ b, YTData.YTGridDataset._is_valid Fixtures.disk "sphere.h5" = Ok b
           ∧ (b = true ↔ tagged YTData.YTGridDataset.recognized
                                Fixtures.container_file)))
  ∧ (YTData.YTDataContainerDataset._is_valid Fixtures.disk "vector.h5"
     = Raise ValueError
     ∧ YTData.YTGridDataset._is_valid Fixtures.disk "vector.h5"
       = Raise ValueError)
  ∧ (YTData.YTDataContainerDataset._is_valid Fixtures.disk "notes.h5" = Raise IOError
     ∧ YTData.YTGridDataset._is_valid Fixtures.disk "notes.h5" = Raise IOError).
Proof.
  destruct (container_probe_results Fixtures.disk "sphere.dat") as (Hsuf & _ & _).
  destruct (container_probe_results Fixtures.disk "sphere.h5") as (_ & Hopen & _).
  destruct (container_probe_results Fixtures.disk "vector.h5") as (_ & Hvec & _).
  destruct (container_probe_results Fixtures.disk "notes.h5") as (_ & _ & Hfail).
  split; [|split; [|split]].
  - apply Hsuf. reflexivity.
  - destruct (Hopen Fixtures.container_file) as (Hb & _);
      [reflexivity | reflexivity |].
    apply Hb. intros l Hl. vm_compute in Hl. discriminate Hl.
  - destruct (Hvec Fixtures.vector_tag_file) as (_ & Hraise);
      [reflexivity | reflexivity |].
    apply (Hraise [1; 2]%Z); [reflexivity | simpl; lia].
  - apply Hfail; [reflexivity | right; reflexivity].
Defined.

Lemma container_required_attributes_witness :
  (∃ self', YTData.YTDataContainerDataset._parse_parameter_file Fixtures.disk
              (Fixtures.container_self "sphere.h5") = Ok self')
  ∧ (∃ k, k ∈ YTData.YTDataContainerDataset.required
          ∧ YTData.attrs Fixtures.incomplete_file !! k = None
          ∧ YTData.YTDataContainerDataset._parse_parameter_file Fixtures.disk
              (Fixtures.container_self "broken.h5") = Raise (KeyError k)).
Proof.
  split.
  - apply (container_required_attributes Fixtures.disk
             (Fixtures.container_self "sphere.h5") Fixtures.container_file).
    + reflexivity.
    + intros a Ha. unfold YTData.YTDataContainerDataset.required in Ha.
      rewrite !elem_of_cons, elem_of_nil in Ha.
      repeat destruct Ha as [-> | Ha]; try done; vm_compute; eauto.
    + simpl. lia.
  - apply (container_required_attributes Fixtures.disk
             (Fixtures.container_self "broken.h5") Fixtures.incomplete_file
             eq_refl) with (a := "omega_lambda").
    + unfold YTData.YTDataContainerDataset.required.
      rewrite !elem_of_cons. tauto.
    + reflexivity.
Defined.

(** ** The mesh format *)

Section MeshFormat.
Import ExodusII ExodusIIDataset.
Context {f8 : Type} `{!Env f8}.
Implicit Types (parameters : gmap string (value f8)) (v : value f8).

(** *** The validity probe *)

(** The probe never raises.  It returns [True] when the path leads to a
    netCDF file with a [connect1] variable, and otherwise falls off the end
    of its body, which returns [None]: the boolean [False] is never
    returned. *)
Lemma mesh_probe_cases (fs : gmap string (entry f8)) filename :
  (_is_valid fs filename = Ok (PyBool true)
   ∧ ∃ variables, fs !! filename = Some (NetCDF variables)
                  ∧ is_Some (variables !! "connect1"))
  ∨ (_is_valid fs filename = Ok PyNone
     ∧ ¬ ∃ variables, fs !! filename = Some (NetCDF variables)
                      ∧ is_Some (variables !! "connect1")).
Proof.
  unfold _is_valid, NetCDF4FileHandler.
  destruct (fs !! filename) as [[variables|]|] eqn:Hf; simpl.
  - unfold getitem. destruct (variables !! "connect1") as [c|] eqn:Hc; simpl.
    + left. split; [done|]. exists variables. eauto.
    + right. split; [done|]. intros (vs & [= <-] & [c Hc']). congruence.
  - right. split; [done|]. by intros (vs & [=] & _).
  - right. split; [done|]. by intros (vs & [=] & _).
Qed.

(** *** Names of variables *)


Lemma mapM_tostring_rows (cs : list (list ascii)) :
  mapM (λ x : value f8, sanitize_string <$> tostring x)
       ((λ r, VArr DChar (Nd1 r)) <$> cs)
  = Ok (sanitize_string <$> cs).
Proof.
  induction cs as [|r cs IH]; [done|].
  rewrite !fmap_cons. cbn [mapM]. rewrite IH. simpl.
  unfold elt_bytes. f_equal. f_equal. f_equal.
  induction r as [|c r IHr]; [done|]. simpl. f_equal. exact IHr.
Qed.

Lemma decoded_names_chars parameters key (c : array2 ascii) :
  parameters !! key = Some (VArr DChar (Nd2 c)) →
  decoded_names parameters key = Ok (sanitize_string <$> rows c).
Proof.
  intros Hk. unfold decoded_names, getitem. rewrite Hk. simpl.
  by rewrite mapM_tostring_rows.
Qed.

(** *** Assignments into the parameters *)

Lemma assign_all_snoc parameters pairs (k : string) v :
  assign_all parameters (pairs ++ [(k, v)])
  = <[k := v]> (assign_all parameters pairs).
Proof. unfold assign_all. by rewrite foldl_app. Qed.

Lemma assign_all_other parameters (pairs : list (string * value f8)) k :
  k ∉ pairs.*1 → assign_all parameters pairs !! k = parameters !! k.
Proof.
  induction pairs as [|[k' v'] pairs IH] using rev_ind; [done|].
  rewrite fmap_app, assign_all_snoc. simpl.
  intros Hk. apply not_elem_of_app in Hk as [Hk Hk'].
  apply not_elem_of_cons in Hk' as [Hne _].
  rewrite lookup_insert_ne by done. by apply IH.
Qed.


End MeshFormat.

Section GlobalVariables.
Import ExodusII ExodusIIDataset.
Context {f8 : Type} `{!Env f8}.
Implicit Types (parameters : gmap string (value f8)) (v : value f8).

(** *** Columns of a rectangular array *)

Lemma column_lookup {A} (j : nat) (rs : list (list A)) (t : nat) :
  Forall (λ r, j < length r) rs →
  column j rs !! t = rs !! t ≫= λ r, r !! j.
Proof.
  intros Hall. revert t. induction Hall as [|r rs Hr _ IH]; intros t; [done|].
  unfold column in *. cbn [omap list_omap].
  destruct (lookup_lt_is_Some_2 r j Hr) as [x Hx]. rewrite Hx.
  destruct t as [|t]; simpl; [done | apply IH].
Qed.

Lemma column_length {A} (j : nat) (rs : list (list A)) :
  Forall (λ r, j < length r) rs → length (column j rs) = length rs.
Proof.
  induction 1 as [|r rs Hr _ IH]; [done|].
  unfold column in *. cbn [omap list_omap].
  destruct (lookup_lt_is_Some_2 r j Hr) as [x ->]. simpl. by rewrite IH.
Qed.

Lemma rectangular_wide {A} (a : array2 A) (j : nat) :
  rectangular a → j < ncols a → Forall (λ r, j < length r) (rows a).
Proof.
  unfold rectangular. intros Hrect Hj.
  eapply Forall_impl; [exact Hrect|]. simpl. intros r ->. done.
Qed.

Lemma transpose_row {A} (a : array2 A) (j : nat) :
  j < ncols a → rows (transpose a) !! j = Some (column j (rows a)).
Proof.
  intros Hj. unfold transpose. simpl.
  rewrite list_lookup_fmap, lookup_seq_lt by done. done.
Qed.

Lemma transpose_length {A} (a : array2 A) :
  length (rows (transpose a)) = ncols a.
Proof. unfold transpose. simpl. by rewrite length_fmap, length_seq. Qed.

Lemma zip_fst_take {A B} (l : list A) (k : list B) :
  (zip l k).*1 = take (length k) l.
Proof.
  revert k. induction l as [|x l IH]; intros [|y k]; simpl; try done.
  by rewrite IH.
Qed.


End GlobalVariables.


(** C2.  On a path that does not exist, on a file that is not netCDF and
    on a netCDF file without [connect1], the mesh probe raises nothing but
    returns [None], which is not the boolean [False]; on a file with
    [connect1] it returns [True]. *)
Theorem mesh_probe_returns_None_for_invalid :
  ExodusII.ExodusIIDataset._is_valid Fixtures.meshes "nowhere.e" = Ok PyNone
  ∧ ExodusII.ExodusIIDataset._is_valid Fixtures.meshes "readme.e" = Ok PyNone
  ∧ ExodusII.ExodusIIDataset._is_valid Fixtures.meshes "no_blocks.e" = Ok PyNone
  ∧ ExodusII.ExodusIIDataset._is_valid Fixtures.meshes "triangle.e" = Ok (PyBool true)
  ∧ Ok PyNone ≠ Ok (PyBool false).
Proof. repeat split; try reflexivity. discriminate. Qed.

Section Fallbacks.
Import ExodusII ExodusIIDataset.
Context {f8 : Type} `{!Env f8}.
Implicit Types (parameters : gmap string (value f8)) (v : value f8).

Lemma unique_identifier_of_records parameters filename records :
  parameters !! "info_records" = Some (VData records) →
  _get_unique_identifier parameters filename
  = Ok (match executable_timestamp records with
        | Some stamp => VData stamp
        | None => VInt (str_hash filename)
        end).
Proof.
  intros Hr. unfold _get_unique_identifier, getitem. rewrite Hr.
  cbn [mbind result_bind]. unfold executable_timestamp.
  destruct records as [kvs| |]; [|done..]. cbn [subscript].
  destruct (assoc kvs "Version Info") as [[kvs'| |]|]; [|done..].
  cbn [mbind result_bind subscript].
  by destruct (assoc kvs' "Executable Timestamp").
Qed.

(** C8, as amended.  The unique identifier is the "Version Info" →
    "Executable Timestamp" field of the parsed info records when both
    levels have it, and the hash of the file path otherwise, also when
    there are no info records at all: it never raises.  The current time
    is the first entry of [time_whole] when there is one, and 0.0 when
    [time_whole] is absent or is a value that cannot be subscripted. *)
Theorem identifier_and_time_fallbacks parameters filename :
  (∀ records, parameters !! "info_records" = Some (VData records) →
     _get_unique_identifier parameters filename
     = Ok (match executable_timestamp records with
           | Some stamp => VData stamp
           | None => VInt (str_hash filename)
           end))
  ∧ (parameters !! "info_records" = None →
     _get_unique_identifier parameters filename = Ok (VInt (str_hash filename)))
  ∧ (∀ d x l, parameters !! "time_whole" = Some (VArr d (Nd1 (x :: l))) →
     _get_current_time parameters = Ok (VArr d (Nd0 x)))
  ∧ (parameters !! "time_whole" = None →
     _get_current_time parameters = Ok (VFloat f8_zero))
  ∧ (∀ v, parameters !! "time_whole" = Some v →
     v = VNone ∨ (∃ n, v = VInt n) ∨ (∃ x, v = VFloat x) →
     _get_current_time parameters = Ok (VFloat f8_zero)).
Proof.
  split; [|split; [|split; [|split]]].
  - intros records. apply unique_identifier_of_records.
  - intros Hnone. unfold _get_unique_identifier.
    by rewrite (getitem_None _ _ Hnone).
  - intros d x l Ht. unfold _get_current_time, getitem. by rewrite Ht.
  - intros Hnone. unfold _get_current_time.
    by rewrite (getitem_None _ _ Hnone).
  - intros v Ht Hv. unfold _get_current_time, getitem. rewrite Ht.
    by destruct Hv as [-> | [[n ->] | [x ->]]].
Qed.

End Fallbacks.

(** The claim C8 as stated fails: a [time_whole] variable without entries,
    as in a file written before any time step, makes the current-time
    derivation raise [IndexError], which its handler does not catch, and
    parsing stops with that error. *)
Lemma current_time_raises_on_empty_time_whole :
  ExodusII.ExodusIIDataset._get_current_time
    (Fixtures.loaded Fixtures.triangle_no_steps) = Raise IndexError
  ∧ ExodusII.ExodusIIDataset._parse_parameter_file
      Fixtures.meshes "no_steps.e" ∅ = Raise IndexError.
Proof. split; reflexivity. Qed.

Lemma identifier_and_time_fallbacks_witness :
  ExodusII.ExodusIIDataset._get_unique_identifier
    (<["info_records" := ExodusII.VData Fixtures.records]> ∅) "triangle.e"
    = Ok (ExodusII.VData (ExodusII.IStr "Nov 4 2015"))
  ∧ ExodusII.ExodusIIDataset._get_unique_identifier
      (Fixtures.loaded Fixtures.triangle) "triangle.e" = Ok (ExodusII.VInt 10)
  ∧ ExodusII.ExodusIIDataset._get_current_time (Fixtures.loaded Fixtures.triangle)
    = Ok (ExodusII.VArr ExodusII.DReal (ExodusII.Nd0 5%Z))
  ∧ ExodusII.ExodusIIDataset._get_current_time
      (Fixtures.loaded Fixtures.triangle_no_time)
    = Ok (ExodusII.VFloat 0%Z)
  ∧ ExodusII.ExodusIIDataset._get_current_time
      (<["time_whole" := ExodusII.VInt 3]> ∅)
    = Ok (ExodusII.VFloat 0%Z).
Proof.
  destruct (identifier_and_time_fallbacks
              (<["info_records" := ExodusII.VData Fixtures.records]> ∅)
              "triangle.e") as (Hstamp & _).
  destruct (identifier_and_time_fallbacks
              (Fixtures.loaded Fixtures.triangle) "triangle.e")
    as (_ & Hhash & Hfirst & _).
  destruct (identifier_and_time_fallbacks
              (Fixtures.loaded Fixtures.triangle_no_time) "triangle.e")
    as (_ & _ & _ & Habsent & _).
  destruct (identifier_and_time_fallbacks
              (<["time_whole" := ExodusII.VInt 3]> ∅) "triangle.e")
    as (_ & _ & _ & _ & Hbad).
  split; [|split; [|split; [|split]]].
  - exact (Hstamp Fixtures.records eq_refl).
  - exact (Hhash eq_refl).
  - exact (Hfirst ExodusII.DReal 5%Z [6%Z] eq_refl).
  - exact (Habsent eq_refl).
  - exact (Hbad (ExodusII.VInt 3) eq_refl
             (or_intror (or_introl (ex_intro _ 3%Z eq_refl)))).
Defined.

Section Parsing.
Import ExodusII ExodusIIDataset.
Context {f8 : Type} `{!Env f8}.
Implicit Types (parameters : gmap string (value f8)) (v : value f8).
Implicit Types (fs : gmap string (entry f8)) (self : dataset f8).

(** *** The steps of a successful parse *)

Lemma derive_Ok fs filename initial self :
  derive fs filename initial = Ok self →
  ∃ variables p records nm en nn co cn,
    let p2 := <["info_records" := VData records]> p in
    let p3 := <["num_meshes" := VInt (Z.of_nat nm)]> p2 in
    let p4 := <["elem_names" := VNames en]> p3 in
    let p5 := <["nod_names" := VNames nn]> p4 in
    let p6 := <["coordinates" := co]> p5 in
    let p7 := <["connectivity" := VConn cn]> p6 in
    NetCDF4FileHandler fs filename = Ok variables
    ∧ _read_glo_var ((of_ncvar <$> variables) ∪ initial) = Ok p
    ∧ getitem p "coor_names" ≫= shape0 = Ok (dimensionality self)
    ∧ _load_info_records p = Ok records
    ∧ _get_unique_identifier p2 filename = Ok (unique_identifier self)
    ∧ _get_current_time p2 = Ok (current_time self)
    ∧ getitem p2 "eb_status" ≫= shape0 = Ok nm
    ∧ _get_elem_names p3 = Ok en
    ∧ _get_nod_names p4 = Ok nn
    ∧ _load_coordinates (dimensionality self) p5 = Ok co
    ∧ _load_connectivity p6 = Ok cn
    ∧ _load_data p7 = Ok (data self)
    ∧ _load_domain_edge p7 0 = Ok (domain_left_edge self)
    ∧ _load_domain_edge p7 1 = Ok (domain_right_edge self)
    ∧ parameters self = p7
    ∧ num_steps self = None.
Proof.
  intros H. unfold derive in H.
  unbind H as p0 Hload. unbind H as p Hglo. unbind H as dim Hdim.
  unbind H as records Hrec. unbind H as uid Huid.
  unbind H as now Hnow. unbind H as nm Hnm. unbind H as en Hen.
  unbind H as nn Hnn. unbind H as co Hco. unbind H as cn Hcn.
  unbind H as dat Hdat. unbind H as lo Hlo. unbind H as hi Hhi.
  injection H as <-.
  unfold _load_variables in Hload. unbind Hload as variables Hopen.
  injection Hload as <-.
  exists variables, p, records, nm, en, nn, co, cn. simpl.
  repeat (split; [done|]). done.
Qed.

Lemma parse_Ok fs filename initial self :
  _parse_parameter_file fs filename initial = Ok self →
  ∃ self0 n,
    derive fs filename initial = Ok self0
    ∧ getitem (parameters self0) "time_whole" ≫= len = Ok n
    ∧ parameters self = parameters self0
    ∧ dimensionality self = dimensionality self0
    ∧ data self = data self0
    ∧ domain_left_edge self = domain_left_edge self0
    ∧ domain_right_edge self = domain_right_edge self0
    ∧ num_steps self = Some n.
Proof.
  intros H. unfold _parse_parameter_file in H.
  do 2 inv_bind H. injection H as <-. simpl. eauto 10.
Qed.

(** *** Loops *)

Lemma mapM_Ok {A B} (f : A → result B) (l : list A) (k : list B) :
  mapM f l = Ok k → Forall2 (λ x y, f x = Ok y) l k.
Proof.
  revert k. induction l as [|x l IH]; intros k; cbn [mapM].
  - intros [= <-]. constructor.
  - intros H. unbind H as y Hy. unbind H as k' Hk'. injection H as <-.
    constructor; [done | by apply IH].
Qed.

Lemma mapM_pure {A B} (g : A → B) (l : list A) :
  mapM (λ x, Ok (g x)) l = Ok (g <$> l).
Proof. induction l as [|x l IH]; [done|]. cbn [mapM]. by rewrite IH. Qed.

Lemma nd_mapM_pure {A B} (g : A → B) (a : nd A) :
  nd_mapM (λ x, Ok (g x)) a = Ok (nd_map g a).
Proof.
  destruct a as [x|l|a]; simpl; [done| |].
  - by rewrite mapM_pure.
  - assert (mapM (mapM (λ x, Ok (g x))) (rows a)
            = Ok (fmap (M:=list) g <$> rows a)) as ->; [|done].
    induction (rows a) as [|r rs IH]; [done|].
    cbn [mapM]. by rewrite mapM_pure, IH.
Qed.

(** *** Decimal numerals in variable names *)

Definition is_digit (c : ascii) : bool :=
  (48 <=? nat_of_ascii c)%nat && (nat_of_ascii c <=? 57)%nat.

Definition digit_headed (s : string) : Prop :=
  match s with
  | EmptyString => True
  | String c _ => is_digit c = true
  end.

Lemma pretty_N_char_digit x : is_digit (pretty_N_char x) = true.
Proof. unfold pretty_N_char. by repeat case_match. Qed.

Lemma pretty_N_go_digit_headed x s :
  digit_headed s → digit_headed (pretty_N_go x s).
Proof.
  revert s. induction (N.lt_wf_0 x) as [x _ IH]; intros s Hs.
  assert (x = 0 ∨ 0 < x)%N as [->|?] by lia.
  - by rewrite pretty_N_go_0.
  - rewrite pretty_N_go_step by done. apply IH.
    { by apply N.div_lt. }
    simpl. apply pretty_N_char_digit.
Qed.

Lemma pretty_nat_digit_headed (n : nat) : digit_headed (pretty n).
Proof.
  unfold pretty, pretty_nat, pretty, pretty_N.
  case_decide; [done|]. by apply pretty_N_go_digit_headed.
Qed.

Lemma connect_key_not_connectivity (n : nat) :
  "connect" +:+ pretty n ≠ "connectivity".
Proof.
  intros Heq. simpl in Heq. injection Heq as Heq.
  change (pretty n = "ivity") in Heq.
  pose proof (pretty_nat_digit_headed n) as Hd. rewrite Heq in Hd.
  discriminate Hd.
Qed.

(** *** Global variables leave other keys alone *)

Lemma read_glo_var_other parameters p names k :
  _read_glo_var parameters = Ok p →
  _get_glo_names parameters = Ok names → k ∉ names →
  p !! k = parameters !! k.
Proof.
  intros Hrun Hnames Hk. unfold _read_glo_var in Hrun. rewrite Hnames in Hrun.
  cbn [mbind result_bind] in Hrun. destruct names as [|n0 names0].
  { by injection Hrun as <-. }
  unbind Hrun as v Hv. unbind Hrun as s Hs. unbind Hrun as t Ht.
  unbind Hrun as values Hvalues. injection Hrun as <-.
  apply assign_all_other.
  change (k ∉ (zip (n0 :: names0) values).*1). rewrite zip_fst_take.
  intros Hin. apply Hk. apply elem_of_take in Hin as (i & Hi & _).
  apply list_elem_of_lookup. eauto.
Qed.

(** C10, as amended.  Take a mesh file that opens and has no
    [time_whole] variable, none of whose decoded global names is
    "time_whole" (and parameters that do not hold that key beforehand).
    Then parsing never succeeds: when every statement before the last one
    goes through, the current time there was the fallback 0.0 and the last
    statement, [len(self.parameters['time_whole'])], raises the key error;
    when an earlier statement raises, parsing stops with that error. *)
Theorem parsing_requires_time_whole fs filename initial variables :
  NetCDF4FileHandler fs filename = Ok variables →
  variables !! "time_whole" = None →
  initial !! "time_whole" = None →
  (∀ names, _get_glo_names ((of_ncvar <$> variables) ∪ initial) = Ok names →
            "time_whole" ∉ names) →
  (∀ self, derive fs filename initial = Ok self →
     current_time self = VFloat f8_zero
     ∧ _parse_parameter_file fs filename initial = Raise (KeyError "time_whole"))
  ∧ (∀ e, derive fs filename initial = Raise e →
     _parse_parameter_file fs filename initial = Raise e)
  ∧ (∀ self, _parse_parameter_file fs filename initial ≠ Ok self).
Proof.
  intros Hopen Hvar Hinit Hglo.
  assert (∀ self, derive fs filename initial = Ok self →
            current_time self = VFloat f8_zero
            ∧ parameters self !! "time_whole" = None) as Hkey.
  { intros self Hd.
    destruct (derive_Ok _ _ _ _ Hd)
      as (vs & p & records & nm & en & nn & co & cn & Hopen' & Hread & _ & _
          & _ & Hnow & _ & _ & _ & _ & _ & _ & _ & _ & Hpar & _).
    simpl in *. rewrite Hopen in Hopen'. injection Hopen' as <-.
    assert (p !! "time_whole" = None) as Hp.
    { pose proof Hread as Hrun. unfold _read_glo_var in Hrun.
      unbind Hrun as names Hnames.
      rewrite (read_glo_var_other _ _ names _ Hread Hnames (Hglo _ Hnames)).
      apply lookup_union_None. by rewrite lookup_fmap, Hvar. }
    split.
    - unfold _get_current_time in Hnow.
      rewrite getitem_None in Hnow by (by rewrite lookup_insert_ne).
      simpl in Hnow. congruence.
    - rewrite Hpar. by rewrite !lookup_insert_ne. }
  split; [|split].
  - intros self Hd. destruct (Hkey _ Hd) as [Hnow Hnone]. split; [done|].
    unfold _parse_parameter_file. rewrite Hd. cbn [mbind result_bind].
    by rewrite (getitem_None _ _ Hnone).
  - intros e Hd. unfold _parse_parameter_file. by rewrite Hd.
  - intros self Hp. destruct (parse_Ok _ _ _ _ Hp) as (self0 & n & Hd & Hn & _).
    destruct (Hkey _ Hd) as [_ Hnone].
    by rewrite (getitem_None _ _ Hnone) in Hn.
Qed.

(** The connectivity that a successful parse stores. *)
Lemma connectivity_of_parse fs filename initial self :
  _parse_parameter_file fs filename initial = Ok self →
  ∃ (nm : nat) conn eb,
    parameters self !! "num_meshes" = Some (VInt (Z.of_nat nm))
    ∧ parameters self !! "connectivity" = Some (VConn conn)
    ∧ parameters self !! "eb_status" = Some eb
    ∧ shape0 eb = Ok nm
    ∧ length conn = nm
    ∧ ∀ i, i < nm →
        ∃ v ci, parameters self !! ("connect" +:+ pretty (i + 1)) = Some v
                ∧ slice_all v ≫= astype_i8 = Ok ci
                ∧ conn !! i = Some ci
                ∧ ∀ a, v = VArr DInt a → ci = nd_map wrap64 a.
Proof.
  intros Hp. destruct (parse_Ok _ _ _ _ Hp) as (self0 & n & Hd & _ & -> & _).
  destruct (derive_Ok _ _ _ _ Hd)
    as (vs & p & records & nm & en & nn & co & cn & _ & _ & _ & _
        & _ & _ & Hnm & _ & _ & _ & Hcn & _ & _ & _ & -> & _).
  simpl in *. exists nm, cn.
  unbind Hnm as eb Heb. apply getitem_Ok in Heb. exists eb.
  rewrite lookup_insert_ne in Heb by done.
  unfold _load_connectivity in Hcn. unbind Hcn as nmv Hnmv.
  apply getitem_Ok in Hnmv.
  rewrite !lookup_insert_ne, lookup_insert_eq in Hnmv by done.
  injection Hnmv as <-. cbn [range mbind result_bind] in Hcn.
  rewrite Nat2Z.id in Hcn. apply mapM_Ok in Hcn.
  split; [by rewrite !lookup_insert_ne, lookup_insert_eq by done|].
  split; [by rewrite lookup_insert_eq|].
  split; [by rewrite !lookup_insert_ne by done|].
  split; [done|].
  pose proof (Forall2_length _ _ _ Hcn) as Hlen. rewrite length_seq in Hlen.
  split; [done|].
  intros i Hi.
  destruct (Forall2_lookup_l _ _ _ i i Hcn) as (ci & Hci & Hrun).
  { by apply lookup_seq_lt. }
  unbind Hrun as v Hv. apply getitem_Ok in Hv.
  exists v, ci. split; [|split; [|split]].
  - rewrite lookup_insert_ne; [done|].
    intros Heq. by apply (connect_key_not_connectivity (i + 1)).
  - done.
  - done.
  - intros a ->. unbind Hrun as s Hs.
    destruct a as [x|l|a]; simpl in Hs; [done|..]; injection Hs as <-;
      cbn [astype_i8 astype_i8_elt] in Hrun;
      rewrite nd_mapM_pure in Hrun; injection Hrun as <-; reflexivity.
Qed.

(** C7.  After a successful parse the number of meshes, the length of the
    connectivity list and the length of [eb_status] agree, and the [i]-th
    connectivity block, for [i] from 0, is the variable [connect<i+1>]
    sliced and cast to 64-bit integers (each integer entry wrapped to 64
    bits). *)
Theorem connectivity_matches_blocks fs filename initial self :
  _parse_parameter_file fs filename initial = Ok self →
  ∃ (nm : nat) conn eb,
    parameters self !! "num_meshes" = Some (VInt (Z.of_nat nm))
    ∧ parameters self !! "connectivity" = Some (VConn conn)
    ∧ parameters self !! "eb_status" = Some eb
    ∧ shape0 eb = Ok nm
    ∧ length conn = nm
    ∧ ∀ i, i < nm →
        ∃ v ci, parameters self !! ("connect" +:+ pretty (i + 1)) = Some v
                ∧ slice_all v ≫= astype_i8 = Ok ci
                ∧ conn !! i = Some ci
                ∧ ∀ a, v = VArr DInt a → ci = nd_map wrap64 a.
Proof. apply connectivity_of_parse. Qed.

End Parsing.

(** The claim C10 as stated fails: this file has no [time_whole] variable,
    yet one of its global variables is named "time_whole", its column of
    values is stored under that key before the last statement reads it,
    and parsing succeeds. *)
Lemma parse_succeeds_with_global_named_time_whole :
  ExodusII.ExodusIIDataset.NetCDF4FileHandler Fixtures.meshes "global_time.e"
    = Ok Fixtures.triangle_global_time
  ∧ Fixtures.triangle_global_time !! "time_whole" = None
  ∧ ∃ self,
      ExodusII.ExodusIIDataset._parse_parameter_file
        Fixtures.meshes "global_time.e" ∅ = Ok self
      ∧ ExodusII.ExodusIIDataset.num_steps self = Some 2.
Proof.
  split; [reflexivity|]. split; [reflexivity|].
  eexists. split; [vm_compute; reflexivity | reflexivity].
Qed.

Lemma parsing_requires_time_whole_witness :
  ExodusII.ExodusIIDataset._parse_parameter_file Fixtures.meshes "no_time.e" ∅
    = Raise (KeyError "time_whole")
  ∧ ∀ self, ExodusII.ExodusIIDataset._parse_parameter_file
              Fixtures.meshes "no_time.e" ∅ ≠ Ok self.
Proof.
  destruct (parsing_requires_time_whole Fixtures.meshes "no_time.e" ∅
              Fixtures.triangle_no_time) as (Hlast & _ & Hnever).
  - reflexivity.
  - reflexivity.
  - reflexivity.
  - intros names Hnames. vm_compute in Hnames. injection Hnames as <-.
    apply not_elem_of_nil.
  - split; [|exact Hnever].
    assert (∃ self, ExodusII.ExodusIIDataset.derive
                      Fixtures.meshes "no_time.e" ∅ = Ok self) as [self Hself].
    { eexists. vm_compute. reflexivity. }
    exact (proj2 (Hlast self Hself)).
Defined.

Lemma connectivity_matches_blocks_witness :
  ∃ self,
    ExodusII.ExodusIIDataset._parse_parameter_file
      Fixtures.meshes "triangle.e" ∅ = Ok self
    ∧ ∃ (nm : nat) conn eb,
        ExodusII.ExodusIIDataset.parameters self !! "num_meshes"
          = Some (ExodusII.VInt (Z.of_nat nm))
        ∧ ExodusII.ExodusIIDataset.parameters self !! "connectivity"
          = Some (ExodusII.VConn conn)
        ∧ ExodusII.ExodusIIDataset.parameters self !! "eb_status" = Some eb
        ∧ ExodusII.shape0 eb = Ok nm
        ∧ length conn = nm.
Proof.
  assert (∃ self, ExodusII.ExodusIIDataset._parse_parameter_file
                    Fixtures.meshes "triangle.e" ∅ = Ok self) as [self Hself].
  { eexists. vm_compute. reflexivity. }
  exists self. split; [exact Hself|].
  destruct (connectivity_matches_blocks Fixtures.meshes "triangle.e" ∅ self Hself)
    as (nm & conn & eb & H1 & H2 & H3 & H4 & H5 & _).
  exists nm, conn, eb. auto.
Defined.

Section Coordinates.
Import ExodusII ExodusIIDataset.
Context {f8 : Type} `{!Env f8}.
Implicit Types (parameters : gmap string (value f8)) (v : value f8).
Implicit Types (fs : gmap string (entry f8)) (self : dataset f8).

(** *** The shape of a transposed array *)

Lemma transpose_shape {A} (a : array2 A) :
  rectangular a →
  ncols (transpose a) = length (rows a)
  ∧ length (rows (transpose a)) = ncols a
  ∧ rectangular (transpose a)
  ∧ ∀ j t, j < ncols a → get2 (transpose a) j t = get2 a t j.
Proof.
  intros Hrect. split; [done|]. split; [apply transpose_length|]. split.
  - unfold rectangular, transpose. simpl. apply Forall_fmap, Forall_forall.
    intros j Hj. apply elem_of_seq in Hj. simpl.
    apply column_length, rectangular_wide; [done | lia].
  - intros j t Hj. unfold get2 at 1. rewrite transpose_row by done. simpl.
    by apply column_lookup, rectangular_wide.
Qed.

(** *** Stacking vectors *)

Lemma coerce_same (F : Type → Type) d (x : F (elt f8 d)) :
  coerce F d d x = Some x.
Proof. by destruct d. Qed.

Lemma mapM_as_row d (rs : list (list (elt f8 d))) :
  mapM (as_row d) ((λ r, VArr d (Nd1 r)) <$> rs) = Some rs.
Proof.
  induction rs as [|r rs IH]; [done|].
  rewrite fmap_cons. cbn [mapM as_row]. rewrite coerce_same. simpl.
  by rewrite IH.
Qed.

Lemma same_length_rows {A} (n : nat) (rs : list (list A)) :
  Forall (λ r, length r = n) rs → same_length rs = true.
Proof.
  intros Hall. destruct Hall as [|r rs Hr Hrs]; [done|]. simpl.
  apply forallb_forall. intros r' Hin. apply list_elem_of_In in Hin.
  rewrite Forall_forall in Hrs. apply Nat.eqb_eq. rewrite (Hrs _ Hin). done.
Qed.

Lemma np_array_rows d (n : nat) (rs : list (list (elt f8 d))) :
  rs ≠ [] → Forall (λ r, length r = n) rs →
  np_array ((λ r, VArr d (Nd1 r)) <$> rs) = Ok (VArr d (Nd2 (Array2 n rs))).
Proof.
  intros Hne Hall. pose proof (mapM_as_row d rs) as Hrows.
  pose proof (same_length_rows n rs Hall) as Hsame.
  destruct rs as [|r rs]; [done|]. rewrite fmap_cons in *.
  assert (mapM (as_scalar d)
            (VArr d (Nd1 r) :: ((λ r, VArr d (Nd1 r)) <$> rs)) = None) as Hnone
    by done.
  unfold np_array. cbv beta iota. rewrite Hnone, Hrows, Hsame. simpl.
  apply Forall_cons in Hall as [<- _]. done.
Qed.

(** *** Loading the coordinates *)

Lemma load_coordinates_combined dim parameters d (a : array2 (elt f8 d)) :
  parameters !! "coord" = Some (VArr d (Nd2 a)) →
  rectangular a → rows a ≠ [] →
  _load_coordinates dim parameters = Ok (VArr d (Nd2 (transpose a))).
Proof.
  intros Hc Hrect Hne. unfold _load_coordinates.
  rewrite decide_True by (by rewrite Hc).
  unfold getitem. rewrite Hc. cbn [mbind result_bind slice_all iter].
  rewrite (np_array_rows d (ncols a)) by done.
  by destruct a.
Qed.

Lemma load_coordinates_separate dim parameters co :
  parameters !! "coord" = None →
  _load_coordinates dim parameters = Ok co →
  ∃ axes,
    coord_axes dim = Ok axes
    ∧ (dim = 2 ∨ dim = 3)
    ∧ length axes = dim
    ∧ ∀ d (xs : list (list (elt f8 d))) n,
        Forall2 (λ ax l, parameters !! ("coord" +:+ ax) = Some (VArr d (Nd1 l)))
                axes xs →
        Forall (λ l, length l = n) xs →
        co = VArr d (Nd2 (transpose (Array2 n xs))).
Proof.
  intros Hnone Hrun. unfold _load_coordinates in Hrun.
  rewrite decide_False in Hrun by (rewrite Hnone; by intros [? ?]).
  unbind Hrun as axes Haxes. exists axes. split; [done|].
  assert ((dim = 2 ∨ dim = 3) ∧ length axes = dim) as [Hdim Hlen].
  { unfold coord_axes in Haxes.
    destruct (Nat.eqb_spec dim 3) as [->|_].
    { injection Haxes as <-. auto. }
    destruct (Nat.eqb_spec dim 2) as [->|_]; [|done].
    injection Haxes as <-. auto. }
  split; [done|]. split; [done|].
  intros d xs n Hvars Hlens.
  unbind Hrun as pieces Hpieces.
  assert (pieces = (λ r, VArr d (Nd1 r)) <$> xs) as ->.
  { apply mapM_Ok in Hpieces. clear Hrun Haxes Hlen Hlens.
    revert pieces Hpieces.
    induction Hvars as [|ax l axes xs Hax _ IH]; intros pieces Hpieces.
    - by inversion Hpieces.
    - inversion Hpieces as [|? y ? ys Hy Hys]; subst.
      rewrite fmap_cons. f_equal; [|by apply IH].
      unfold getitem in Hy. rewrite Hax in Hy. simpl in Hy. congruence. }
  rewrite (np_array_rows d n) in Hrun; [|destruct Hvars; [|done]|done].
  - simpl in Hrun. congruence.
  - simpl in Hlen. destruct Hdim; lia.
Qed.

(** C5, as amended.  After a successful parse the dimensionality is the
    length of the first axis of [coor_names].  When the variable [coord]
    is present, as a non-empty rectangular array, the coordinates are its
    transpose: one row per node, and as many columns as [coord] has rows,
    hence [dimensionality] columns when the first axis of [coord] has
    that length.  When [coord] is absent the dimensionality is 2 or 3 and
    the coordinates combine [coordx], [coordy] and, in 3 dimensions,
    [coordz] column-wise: one row per node and [dimensionality] columns. *)
Theorem coordinates_shape fs filename initial self :
  _parse_parameter_file fs filename initial = Ok self →
  (∃ names, parameters self !! "coor_names" = Some names
            ∧ shape0 names = Ok (dimensionality self))
  ∧ (∀ d (a : array2 (elt f8 d)),
       parameters self !! "coord" = Some (VArr d (Nd2 a)) →
       rectangular a → rows a ≠ [] →
       ∃ c, parameters self !! "coordinates" = Some (VArr d (Nd2 c))
            ∧ rectangular c
            ∧ length (rows c) = ncols a
            ∧ ncols c = length (rows a)
            ∧ (length (rows a) = dimensionality self →
               ncols c = dimensionality self)
            ∧ ∀ node axis, node < ncols a → get2 c node axis = get2 a axis node)
  ∧ (parameters self !! "coord" = None →
     (dimensionality self = 2 ∨ dimensionality self = 3)
     ∧ ∃ axes,
         coord_axes (dimensionality self) = Ok axes
         ∧ ∀ d (xs : list (list (elt f8 d))) n,
             Forall2 (λ ax l, parameters self !! ("coord" +:+ ax)
                              = Some (VArr d (Nd1 l))) axes xs →
             Forall (λ l, length l = n) xs →
             ∃ c, parameters self !! "coordinates" = Some (VArr d (Nd2 c))
                  ∧ rectangular c
                  ∧ length (rows c) = n
                  ∧ ncols c = dimensionality self
                  ∧ ∀ node axis, node < n →
                      get2 c node axis = xs !! axis ≫= λ l, l !! node).
Proof.
  intros Hp. destruct (parse_Ok _ _ _ _ Hp) as (self0 & n0 & Hd & _ & -> & -> & _).
  destruct (derive_Ok _ _ _ _ Hd)
    as (vs & p & records & nm & en & nn & co & cn & _ & _ & Hdim & _
        & _ & _ & _ & _ & _ & Hco & _ & _ & _ & _ & -> & _).
  simpl in *. split; [|split].
  - unbind Hdim as names Hnames. apply getitem_Ok in Hnames.
    exists names. split; [|done]. by rewrite !lookup_insert_ne.
  - intros d a Hc Hrect Hne. rewrite !lookup_insert_ne in Hc by done.
    rewrite (load_coordinates_combined _ _ d a) in Hco
      by (by rewrite ?lookup_insert_ne).
    injection Hco as <-.
    destruct (transpose_shape a Hrect) as (Hcols & Hrows & Hrect' & Hget).
    exists (transpose a).
    split; [by rewrite lookup_insert_ne, lookup_insert_eq|].
    split; [done|]. split; [done|]. split; [done|].
    split; [by intros <-|]. done.
  - intros Hnone. rewrite !lookup_insert_ne in Hnone by done.
    apply load_coordinates_separate in Hco
      as (axes & Haxes & Hdim23 & Hlen & Hshape);
      [|by rewrite !lookup_insert_ne].
    split; [done|]. exists axes. split; [done|].
    intros d xs n Hvars Hlens.
    assert (Forall2 (λ ax l,
              <["nod_names":=VNames nn]>
                (<["elem_names":=VNames en]>
                   (<["num_meshes":=VInt (Z.of_nat nm)]>
                      (<["info_records":=VData records]> p)))
              !! ("coord" +:+ ax) = Some (VArr d (Nd1 l))) axes xs) as Hvars'.
    { assert (Forall (λ ax, ax = "x" ∨ ax = "y" ∨ ax = "z") axes) as Hax.
      { destruct Hdim23 as [Hd23 | Hd23]; rewrite Hd23 in Haxes;
          injection Haxes as <-;
          repeat first [apply Forall_nil_2 | apply Forall_cons_2]; auto. }
      clear -Hvars Hax. induction Hvars as [|ax l axes xs H1 _ IH]; [done|].
      apply Forall_cons in Hax as [Hx Hax]. constructor; [|by apply IH].
      destruct Hx as [-> | [-> | ->]]; simpl in H1 |- *;
        by rewrite 2!lookup_insert_ne in H1 by done. }
    rewrite (Hshape d xs n Hvars' Hlens).
    assert (rectangular (Array2 n xs)) as Hrect by done.
    destruct (transpose_shape _ Hrect) as (Hcols & Hrows & Hrect' & Hget).
    exists (transpose (Array2 n xs)).
    split; [by rewrite lookup_insert_ne, lookup_insert_eq|].
    split; [done|]. split; [done|]. split.
    + simpl. rewrite <- Hlen. symmetry. by eapply Forall2_length.
    + intros node axis Hnode. by rewrite Hget.
Qed.

End Coordinates.

(** The claim C5 as stated fails: this mesh has one coordinate per node, in
    the combined [coord] variable; parsing succeeds and the dimensionality
    is 1, which is neither 2 nor 3. *)
Lemma dimensionality_one_is_accepted :
  ∃ self,
    ExodusII.ExodusIIDataset._parse_parameter_file Fixtures.meshes "bar.e" ∅
      = Ok self
    ∧ ExodusII.ExodusIIDataset.dimensionality self = 1
    ∧ ¬ (ExodusII.ExodusIIDataset.dimensionality self = 2
         ∨ ExodusII.ExodusIIDataset.dimensionality self = 3).
Proof.
  eexists. split; [vm_compute; reflexivity|]. simpl. split; [done | lia].
Qed.

Lemma coordinates_shape_witness :
  (∃ self c,
     ExodusII.ExodusIIDataset._parse_parameter_file
       Fixtures.meshes "triangle.e" ∅ = Ok self
     ∧ ExodusII.ExodusIIDataset.parameters self !! "coordinates"
       = Some (ExodusII.VArr ExodusII.DReal (ExodusII.Nd2 c))
     ∧ length (ExodusII.rows c) = 3
     ∧ ExodusII.ncols c = ExodusII.ExodusIIDataset.dimensionality self)
  ∧ (∃ self c,
       ExodusII.ExodusIIDataset._parse_parameter_file
         Fixtures.meshes "triangle_xy.e" ∅ = Ok self
       ∧ (ExodusII.ExodusIIDataset.dimensionality self = 2
          ∨ ExodusII.ExodusIIDataset.dimensionality self = 3)
       ∧ ExodusII.ExodusIIDataset.parameters self !! "coordinates"
         = Some (ExodusII.VArr ExodusII.DReal (ExodusII.Nd2 c))
       ∧ length (ExodusII.rows c) = 3
       ∧ ExodusII.ncols c = ExodusII.ExodusIIDataset.dimensionality self).
Proof.
  split.
  - assert (∃ self, ExodusII.ExodusIIDataset._parse_parameter_file
                      Fixtures.meshes "triangle.e" ∅ = Ok self) as [self Hself].
    { eexists. vm_compute. reflexivity. }
    destruct (coordinates_shape Fixtures.meshes "triangle.e" ∅ self Hself)
      as (_ & Hcombined & _).
    destruct (Hcombined ExodusII.DReal
                (ExodusII.Array2 3 [[0; 4; 0]; [0; 0; 3]]%Z))
      as (c & Hc & _ & Hrows & _ & Hcols & _).
    + clear -Hself. through Hself. reflexivity.
    + repeat constructor.
    + discriminate.
    + exists self, c. split; [exact Hself|]. split; [exact Hc|].
      split; [exact Hrows|]. apply Hcols.
      clear -Hself. through Hself. reflexivity.
  - assert (∃ self, ExodusII.ExodusIIDataset._parse_parameter_file
                      Fixtures.meshes "triangle_xy.e" ∅ = Ok self) as [self Hself].
    { eexists. vm_compute. reflexivity. }
    destruct (coordinates_shape Fixtures.meshes "triangle_xy.e" ∅ self Hself)
      as (_ & _ & Hseparate).
    destruct Hseparate as (Hdim & axes & Haxes & Hshape).
    { clear -Hself. through Hself. reflexivity. }
    assert (axes = ["x"; "y"]) as ->.
    { assert (ExodusII.ExodusIIDataset.dimensionality self = 2) as Hdim2.
      { clear -Hself. through Hself. reflexivity. }
      rewrite Hdim2 in Haxes. vm_compute in Haxes. by injection Haxes as <-. }
    destruct (Hshape ExodusII.DReal [[0; 4; 0]; [0; 0; 3]]%Z 3)
      as (c & Hc & _ & Hrows & Hcols & _).
    + clear -Hself. through Hself.
      repeat constructor.
    + repeat constructor.
    + exists self, c. auto.
Defined.
(** ** Extrema along the first axis *)

Section Extrema.
Import ExodusII.
Context {A : Type} (is_nan : A → bool) (leb : A → A → bool).

(** The order is total on the numbers, and transitive. *)
Hypothesis leb_total :
  ∀ x y, is_nan x = false → is_nan y = false →
         leb x y = true ∨ leb y x = true.
Hypothesis leb_trans : ∀ x y z, leb x y = true → leb y z = true → leb x z = true.

(** [best smallest m y]: [m] is at least as small (as large) as [y]. *)
Definition best (smallest : bool) (m y : A) : Prop :=
  if smallest then leb m y = true else leb y m = true.

Lemma leb_refl x : is_nan x = false → leb x x = true.
Proof. intros Hx. by destruct (leb_total x x Hx Hx). Qed.

Lemma best_refl smallest x : is_nan x = false → best smallest x x.
Proof. destruct smallest; apply leb_refl. Qed.

Lemma best_trans smallest x y z :
  best smallest x y → best smallest y z → best smallest x z.
Proof. destruct smallest; simpl; eauto. Qed.

Lemma leb_pick_member smallest x y :
  leb_pick is_nan leb smallest x y = x ∨ leb_pick is_nan leb smallest x y = y.
Proof.
  unfold leb_pick.
  destruct (is_nan x), (is_nan y), smallest, (leb x y), (leb y x); auto.
Qed.

Lemma leb_pick_nan smallest x y :
  is_nan x = true ∨ is_nan y = true →
  is_nan (leb_pick is_nan leb smallest x y) = true.
Proof.
  unfold leb_pick. destruct (is_nan x) eqn:Hx; [done|].
  destruct (is_nan y) eqn:Hy; [done|]. by intros [? | ?].
Qed.

Lemma leb_pick_number smallest x y :
  is_nan x = false → is_nan y = false →
  is_nan (leb_pick is_nan leb smallest x y) = false
  ∧ best smallest (leb_pick is_nan leb smallest x y) x
  ∧ best smallest (leb_pick is_nan leb smallest x y) y.
Proof.
  intros Hx Hy. unfold leb_pick. rewrite Hx, Hy. destruct smallest; simpl.
  - destruct (leb x y) eqn:Hxy; (split; [done|]); split; auto using leb_refl.
    by destruct (leb_total x y Hx Hy); [congruence|].
  - destruct (leb y x) eqn:Hyx; (split; [done|]); split; auto using leb_refl.
    by destruct (leb_total x y Hx Hy); [|congruence].
Qed.

Lemma foldl_pick_member smallest (x : A) (l : list A) :
  foldl (leb_pick is_nan leb smallest) x l ∈ x :: l.
Proof.
  revert x. induction l as [|z l IH]; intros x; simpl.
  - by apply list_elem_of_singleton.
  - specialize (IH (leb_pick is_nan leb smallest x z)).
    apply elem_of_cons in IH as [-> | IH].
    + destruct (leb_pick_member smallest x z) as [-> | ->].
      * apply elem_of_cons. by left.
      * apply elem_of_cons. right. apply elem_of_cons. by left.
    + do 2 (apply elem_of_cons; right). done.
Qed.

(** A not-a-number anywhere in the list is what the reduction gives. *)
Lemma foldl_pick_nan smallest (x : A) (l : list A) :
  (∃ y, y ∈ x :: l ∧ is_nan y = true) →
  is_nan (foldl (leb_pick is_nan leb smallest) x l) = true.
Proof.
  revert x. induction l as [|z l IH]; intros x (y & Hy & Hnan); simpl.
  - apply list_elem_of_singleton in Hy as ->. done.
  - apply IH. apply elem_of_cons in Hy as [-> | Hy].
    + eexists. split; [apply list_elem_of_here|]. apply leb_pick_nan. by left.
    + apply elem_of_cons in Hy as [-> | Hy].
      * eexists. split; [apply list_elem_of_here|]. apply leb_pick_nan. by right.
      * exists y. split; [|done]. apply elem_of_cons. by right.
Qed.

(** Over numbers the reduction gives a number that bounds them all. *)
Lemma foldl_pick_extremum smallest (x : A) (l : list A) :
  (∀ y, y ∈ x :: l → is_nan y = false) →
  ∀ y, y ∈ x :: l → best smallest (foldl (leb_pick is_nan leb smallest) x l) y.
Proof.
  revert x. induction l as [|z l IH]; intros x Hnum; simpl.
  - intros y Hy. apply list_elem_of_singleton in Hy as ->.
    apply best_refl, Hnum, list_elem_of_here.
  - destruct (leb_pick_number smallest x z) as (Hm & Hx & Hz).
    { apply Hnum, list_elem_of_here. }
    { apply Hnum. apply elem_of_cons. right. apply list_elem_of_here. }
    remember (leb_pick is_nan leb smallest x z) as m0 eqn:Hm0. clear Hm0.
    assert (∀ y, y ∈ m0 :: l → is_nan y = false) as Hnum'.
    { intros y Hy. apply elem_of_cons in Hy as [-> | Hy]; [done|].
      apply Hnum. do 2 (apply elem_of_cons; right). done. }
    specialize (IH m0 Hnum').
    assert (best smallest (foldl (leb_pick is_nan leb smallest) m0 l) m0)
      as Hhead by (apply IH, list_elem_of_here).
    intros y Hy. apply elem_of_cons in Hy as [-> | Hy].
    { by eapply best_trans. }
    apply elem_of_cons in Hy as [-> | Hy].
    { by eapply best_trans. }
    apply IH, elem_of_cons. by right.
Qed.

End Extrema.

Section Reduce.
Import ExodusII.
Context {A : Type} (pick : A → A → A).

Lemma reduce_axis0_rows (a : array2 A) (r : list A) (rs : list (list A)) :
  rows a = r :: rs →
  reduce_axis0 pick (Nd2 a) = Ok (Nd1 (foldl (zip_with pick) r rs)).
Proof. intros Hrows. simpl. by rewrite Hrows. Qed.

Lemma foldl_zip_with_length (n : nat) (r : list A) (rs : list (list A)) :
  length r = n → Forall (λ r', length r' = n) rs →
  length (foldl (zip_with pick) r rs) = n.
Proof.
  intros Hr Hall. revert r Hr. induction Hall as [|r' rs Hr' _ IH]; intros r Hr.
  - done.
  - simpl. apply IH. rewrite length_zip_with. lia.
Qed.

Lemma foldl_zip_with_lookup (d : nat) (r : list A) (rs : list (list A)) (x : A) :
  r !! d = Some x → Forall (λ r', d < length r') rs →
  foldl (zip_with pick) r rs !! d = Some (foldl pick x (column d rs)).
Proof.
  intros Hx Hall. revert r x Hx.
  induction Hall as [|r' rs Hr' _ IH]; intros r x Hx; [done|].
  destruct (lookup_lt_is_Some_2 r' d Hr') as [y Hy].
  unfold column in *. cbn [omap list_omap]. rewrite Hy. simpl.
  apply IH. apply lookup_zip_with_Some. eauto.
Qed.

End Reduce.

Section DomainEdges.
Import ExodusII ExodusIIDataset.
Context {f8 : Type} `{!Env f8}.
Implicit Types (parameters : gmap string (value f8)) (v : value f8).
Implicit Types (fs : gmap string (entry f8)) (self : dataset f8).

(** What the order of floats gives: any two numbers are comparable, the
    order is transitive, and a not-a-number is below nothing. *)
Hypothesis f8_leb_total :
  ∀ x y : f8, f8_is_nan x = false → f8_is_nan y = false →
              f8_leb x y = true ∨ f8_leb y x = true.
Hypothesis f8_leb_trans :
  ∀ x y z : f8, f8_leb x y = true → f8_leb y z = true → f8_leb x z = true.
Hypothesis f8_leb_nan :
  ∀ x y : f8, f8_is_nan x = true → f8_leb x y = false.

Lemma load_domain_edge_extremum parameters (a : array2 f8) (smallest : bool) :
  parameters !! "coordinates" = Some (VArr DReal (Nd2 a)) →
  rectangular a → rows a ≠ [] →
  ∃ edge,
    _load_domain_edge parameters (if smallest then 0 else 1)
    = Ok (VArr DReal (Nd1 edge))
    ∧ length edge = ncols a
    ∧ ∀ d, d < ncols a →
        ∃ m, edge !! d = Some m
             ∧ m ∈ column d (rows a)
             ∧ ((∀ x, x ∈ column d (rows a) → f8_is_nan x = false) →
                ∀ x, x ∈ column d (rows a) → best f8_leb smallest m x)
             ∧ ((∃ x, x ∈ column d (rows a) ∧ f8_is_nan x = true) →
                f8_is_nan m = true).
Proof.
  intros Hc Hrect Hne.
  assert (_load_domain_edge parameters (if smallest then 0 else 1)%Z
          = extremum_axis0 smallest (VArr DReal (Nd2 a))) as ->.
  { unfold _load_domain_edge, getitem. rewrite Hc. by destruct smallest. }
  destruct (rows a) as [|r rs] eqn:Hrows; [done|].
  unfold extremum_axis0. rewrite (reduce_axis0_rows _ a r rs Hrows).
  unfold rectangular in Hrect. rewrite Hrows in Hrect.
  apply Forall_cons in Hrect as [Hr Hrs].
  eexists. split; [reflexivity|]. split.
  { by apply foldl_zip_with_length. }
  intros d Hd.
  assert (Forall (λ r', d < length r') rs) as Hwide.
  { eapply Forall_impl; [exact Hrs|]. simpl. intros ? ->. done. }
  destruct (lookup_lt_is_Some_2 r d) as [x Hx]; [lia|].
  rewrite (foldl_zip_with_lookup _ d r rs x Hx Hwide).
  assert (column d (r :: rs) = x :: column d rs) as ->.
  { unfold column. cbn [omap list_omap]. by rewrite Hx. }
  eexists. split; [done|]. split; [apply foldl_pick_member|]. split.
  - by apply (foldl_pick_extremum f8_is_nan f8_leb f8_leb_total f8_leb_trans).
  - apply foldl_pick_nan.
Qed.

(** C4, as amended.  After a successful parse whose coordinates are a
    rectangular array of floats, with one row per node, each entry [d] of
    the left and of the right domain edge is an entry of column [d] of
    the coordinates, nothing being added.  When the column holds numbers
    only, the left entry is less than or equal to every entry of the
    column and the right entry greater than or equal to every one: they
    are the column's minimum and maximum, and the left entry is less than
    or equal to the right one.  When the column holds a not-a-number,
    both entries are not-a-number, as numpy's [min] and [max] propagate
    it, and the left entry is not less than or equal to the right one. *)
Theorem domain_edges_are_column_extrema fs filename initial self (a : array2 f8) :
  _parse_parameter_file fs filename initial = Ok self →
  parameters self !! "coordinates" = Some (VArr DReal (Nd2 a)) →
  rectangular a →
  ∃ lo hi,
    domain_left_edge self = VArr DReal (Nd1 lo)
    ∧ domain_right_edge self = VArr DReal (Nd1 hi)
    ∧ length lo = ncols a ∧ length hi = ncols a
    ∧ ∀ d, d < ncols a →
        ∃ l h, lo !! d = Some l ∧ hi !! d = Some h
               ∧ l ∈ column d (rows a) ∧ h ∈ column d (rows a)
               ∧ ((∀ x, x ∈ column d (rows a) → f8_is_nan x = false) →
                  (∀ x, x ∈ column d (rows a) →
                     f8_leb l x = true ∧ f8_leb x h = true)
                  ∧ f8_leb l h = true)
               ∧ ((∃ x, x ∈ column d (rows a) ∧ f8_is_nan x = true) →
                  f8_is_nan l = true ∧ f8_is_nan h = true
                  ∧ f8_leb l h = false).
Proof.
  intros Hp Hc Hrect.
  destruct (parse_Ok _ _ _ _ Hp)
    as (self0 & n0 & Hd & _ & Hpar & _ & _ & -> & -> & _).
  rewrite Hpar in Hc.
  destruct (derive_Ok _ _ _ _ Hd)
    as (vs & p & records & nm & en & nn & co & cn & _ & _ & _ & _
        & _ & _ & _ & _ & _ & _ & _ & _ & Hlo & Hhi & Hpar0 & _).
  simpl in *. rewrite Hpar0 in Hc.
  assert (rows a ≠ []) as Hne.
  { intros Hnil. unfold _load_domain_edge, getitem in Hlo. rewrite Hc in Hlo.
    simpl in Hlo. by rewrite Hnil in Hlo. }
  destruct (load_domain_edge_extremum _ a true Hc Hrect Hne)
    as (lo & Hlo' & Hlolen & Hlocol).
  destruct (load_domain_edge_extremum _ a false Hc Hrect Hne)
    as (hi & Hhi' & Hhilen & Hhicol).
  rewrite Hlo in Hlo'. rewrite Hhi in Hhi'.
  injection Hlo' as ->. injection Hhi' as ->.
  exists lo, hi. split; [done|]. split; [done|]. split; [done|]. split; [done|].
  intros d Hd'.
  destruct (Hlocol d Hd') as (l & Hl & Hlin & Hlbest & Hlnan).
  destruct (Hhicol d Hd') as (h & Hh & Hhin & Hhbest & Hhnan).
  exists l, h. split; [done|]. split; [done|]. split; [done|]. split; [done|].
  split.
  - intros Hnum. split.
    + intros x Hx. split; [apply (Hlbest Hnum x Hx) | apply (Hhbest Hnum x Hx)].
    + apply (Hhbest Hnum l Hlin).
  - intros Hsome. split; [by apply Hlnan|]. split; [by apply Hhnan|].
    apply f8_leb_nan. by apply Hlnan.
Qed.

End DomainEdges.

(** *** The order of binary64 floats *)

Definition sf_is_nan (x : SpecFloat.spec_float) : bool :=
  match x with SpecFloat.S754_nan => true | _ => false end.

Lemma SFcompare_refl x :
  sf_is_nan x = false → SpecFloat.SFcompare x x = Some Eq.
Proof.
  destruct x as [s|s| |s m e]; simpl; try done; intros _.
  - by destruct s.
  - destruct s; rewrite Z.compare_refl, Pos.compare_cont_refl; done.
Qed.

Lemma SFleb_total x y :
  sf_is_nan x = false → sf_is_nan y = false →
  SpecFloat.SFleb x y = true ∨ SpecFloat.SFleb y x = true.
Proof.
  unfold SpecFloat.SFleb.
  destruct x as [s1|s1| |s1 m1 e1], y as [s2|s2| |s2 m2 e2]; simpl; try done;
    intros _ _; try (destruct s1; try destruct s2; simpl; auto; fail);
    try (destruct s2; simpl; auto; fail).
  destruct s1, s2; simpl; auto;
    rewrite (Z.compare_antisym e1 e2);
    destruct (e1 ?= e2)%Z eqn:He; simpl; auto;
    change (Pos.compare_cont Eq m2 m1) with (m2 ?= m1)%positive;
    change (Pos.compare_cont Eq m1 m2) with (m1 ?= m2)%positive;
    rewrite (Pos.compare_antisym m1 m2);
    destruct (m1 ?= m2)%positive; simpl; auto.
Qed.

Lemma SFleb_trans x y z :
  SpecFloat.SFleb x y = true → SpecFloat.SFleb y z = true →
  SpecFloat.SFleb x z = true.
Proof.
  unfold SpecFloat.SFleb.
  destruct x as [s1|s1| |s1 m1 e1], y as [s2|s2| |s2 m2 e2],
           z as [s3|s3| |s3 m3 e3]; simpl; try done;
    try (destruct s1; try done; destruct s2; try done; destruct s3; done);
    try (destruct s1; try done; destruct s3; try done; destruct s2; done);
    try (destruct s2; try done; destruct s3; done);
    try (destruct s2; try done; destruct s1; done);
    try (destruct s3; try done; destruct s1; done).
  all: destruct s1, s2, s3; simpl; try done.
  all: change (Pos.compare_cont Eq ?a ?b) with (a ?= b)%positive.
  all: destruct (Z.compare_spec e1 e2), (Z.compare_spec e2 e3),
         (Z.compare_spec e1 e3); try lia; simpl; try done.
  all: destruct (Pos.compare_spec m1 m2), (Pos.compare_spec m2 m3),
         (Pos.compare_spec m1 m3); try lia; simpl; try done.
Qed.

Lemma float_is_nan_spec (x : PrimFloat.float) :
  PrimFloat.is_nan x = sf_is_nan (FloatOps.Prim2SF x).
Proof.
  unfold PrimFloat.is_nan. rewrite FloatAxioms.eqb_spec.
  unfold SpecFloat.SFeqb.
  destruct (sf_is_nan (FloatOps.Prim2SF x)) eqn:Hn.
  - by destruct (FloatOps.Prim2SF x).
  - by rewrite SFcompare_refl.
Qed.

Lemma float_leb_total (x y : PrimFloat.float) :
  ExodusII.f8_is_nan (Env := Fixtures.Env_float) x = false →
  ExodusII.f8_is_nan (Env := Fixtures.Env_float) y = false →
  ExodusII.f8_leb (Env := Fixtures.Env_float) x y = true
  ∨ ExodusII.f8_leb (Env := Fixtures.Env_float) y x = true.
Proof.
  simpl. rewrite !float_is_nan_spec, !FloatAxioms.leb_spec. apply SFleb_total.
Qed.

Lemma float_leb_trans (x y z : PrimFloat.float) :
  ExodusII.f8_leb (Env := Fixtures.Env_float) x y = true →
  ExodusII.f8_leb (Env := Fixtures.Env_float) y z = true →
  ExodusII.f8_leb (Env := Fixtures.Env_float) x z = true.
Proof. simpl. rewrite !FloatAxioms.leb_spec. apply SFleb_trans. Qed.

Lemma float_leb_nan (x y : PrimFloat.float) :
  ExodusII.f8_is_nan (Env := Fixtures.Env_float) x = true →
  ExodusII.f8_leb (Env := Fixtures.Env_float) x y = false.
Proof.
  simpl. rewrite float_is_nan_spec, FloatAxioms.leb_spec.
  unfold SpecFloat.SFleb. intros Hn. by destruct (FloatOps.Prim2SF x).
Qed.

(** The claim C4 as stated fails: the first column of the coordinates of
    this mesh holds a not-a-number, both edges are not-a-number there, and
    the left edge is not less than or equal to the right edge. *)
Lemma edges_of_a_nan_column_are_unordered :
  ∃ self l l' h h',
    ExodusII.ExodusIIDataset._parse_parameter_file
      Fixtures.float_meshes "nan.e" ∅ = Ok self
    ∧ ExodusII.ExodusIIDataset.domain_left_edge self
      = ExodusII.VArr ExodusII.DReal (ExodusII.Nd1 [l; l'])
    ∧ ExodusII.ExodusIIDataset.domain_right_edge self
      = ExodusII.VArr ExodusII.DReal (ExodusII.Nd1 [h; h'])
    ∧ PrimFloat.leb l h = false.
Proof.
  assert (∃ self, ExodusII.ExodusIIDataset._parse_parameter_file
                    Fixtures.float_meshes "nan.e" ∅ = Ok self)
    as [self Hself].
  { eexists. vm_compute. reflexivity. }
  exists self. clear -Hself. through Hself.
  do 4 eexists. repeat split; reflexivity.
Qed.

Lemma domain_edges_are_column_extrema_witness :
  (∃ self lo hi,
     ExodusII.ExodusIIDataset._parse_parameter_file
       Fixtures.float_meshes "triangle.e" ∅ = Ok self
     ∧ ExodusII.ExodusIIDataset.domain_left_edge self
       = ExodusII.VArr ExodusII.DReal (ExodusII.Nd1 lo)
     ∧ ExodusII.ExodusIIDataset.domain_right_edge self
       = ExodusII.VArr ExodusII.DReal (ExodusII.Nd1 hi)
     ∧ length lo = 2 ∧ length hi = 2
     ∧ ∀ d, d < 2 →
         ∃ l h, lo !! d = Some l ∧ hi !! d = Some h
                ∧ PrimFloat.leb l h = true)
  ∧ (∃ self lo hi l h,
       ExodusII.ExodusIIDataset._parse_parameter_file
         Fixtures.float_meshes "nan.e" ∅ = Ok self
       ∧ ExodusII.ExodusIIDataset.domain_left_edge self
         = ExodusII.VArr ExodusII.DReal (ExodusII.Nd1 lo)
       ∧ ExodusII.ExodusIIDataset.domain_right_edge self
         = ExodusII.VArr ExodusII.DReal (ExodusII.Nd1 hi)
       ∧ lo !! 0 = Some l ∧ hi !! 0 = Some h
       ∧ PrimFloat.is_nan l = true ∧ PrimFloat.is_nan h = true
       ∧ PrimFloat.leb l h = false).
Proof.
  split.
  - assert (∃ self, ExodusII.ExodusIIDataset._parse_parameter_file
                      Fixtures.float_meshes "triangle.e" ∅ = Ok self)
      as [self Hself].
    { eexists. vm_compute. reflexivity. }
    destruct (domain_edges_are_column_extrema (f8 := PrimFloat.float)
                float_leb_total float_leb_trans float_leb_nan
                Fixtures.float_meshes "triangle.e" ∅ self
                (ExodusII.Array2 2
                   (fmap (M:=list) Fixtures.float_of_Z
                      <$> [[0; 0]; [4; 0]; [0; 3]]%Z)) Hself)
      as (lo & hi & Hlo & Hhi & Hlolen & Hhilen & Hcols).
    + clear -Hself. through Hself. reflexivity.
    + repeat constructor.
    + exists self, lo, hi. repeat (split; [assumption|]).
      intros d Hd.
      destruct (Hcols d Hd) as (l & h & Hl & Hh & _ & _ & Hnum & _).
      exists l, h. split; [done|]. split; [done|]. apply Hnum.
      apply Forall_forall. destruct d as [|[|d]]; [| |simpl in Hd; lia];
        vm_compute; repeat constructor.
  - assert (∃ self, ExodusII.ExodusIIDataset._parse_parameter_file
                      Fixtures.float_meshes "nan.e" ∅ = Ok self)
      as [self Hself].
    { eexists. vm_compute. reflexivity. }
    destruct (domain_edges_are_column_extrema (f8 := PrimFloat.float)
                float_leb_total float_leb_trans float_leb_nan
                Fixtures.float_meshes "nan.e" ∅ self
                (ExodusII.Array2 2
                   [[Fixtures.float_of_Z 0; Fixtures.float_of_Z 0];
                    [PrimFloat.nan; Fixtures.float_of_Z 0];
                    [Fixtures.float_of_Z 0; Fixtures.float_of_Z 3]]) Hself)
      as (lo & hi & Hlo & Hhi & Hlolen & Hhilen & Hcols).
    + clear -Hself. through Hself. reflexivity.
    + repeat constructor.
    + destruct (Hcols 0) as (l & h & Hl & Hh & _ & _ & _ & Hnan);
        [simpl; lia|].
      destruct Hnan as (Hln & Hhn & Hle).
      { exists PrimFloat.nan. split; [|reflexivity].
        vm_compute. repeat constructor. }
      exists self, lo, hi, l, h. auto 10.
Defined.

Section NodeFields.
Import ExodusII ExodusIIDataset.
Context {f8 : Type} `{!Env f8}.
Implicit Types (parameters : gmap string (value f8)) (v : value f8).
Implicit Types (fs : gmap string (entry f8)) (self : dataset f8).

(** *** Indexing *)

Lemma slice_all_Ok v s : slice_all v = Ok s → s = v.
Proof.
  destruct v as [| | |d [x|l|a]| | |[kvs|l|s']]; simpl; congruence.
Qed.

Lemma py_index_in_range {A} (l : list A) (i : Z) :
  (0 ≤ i < Z.of_nat (length l))%Z →
  ∃ x, py_index l i = Ok x ∧ l !! Z.to_nat i = Some x.
Proof.
  intros Hi. unfold py_index.
  destruct (Z.ltb_spec i 0) as [?|_]; [lia|].
  destruct (Z.leb_spec 0 i) as [_|?]; [|lia].
  destruct (Z.ltb_spec i (Z.of_nat (length l))) as [_|?]; [|lia]. simpl.
  destruct (lookup_lt_is_Some_2 l (Z.to_nat i)) as [x Hx]; [lia|].
  rewrite Hx. eauto.
Qed.


Lemma Forall2_last {A B} (Q : A → B → Prop) (l : list A) (l' : list B) y :
  Forall2 Q l l' → last l' = Some y → ∃ x, last l = Some x ∧ Q x y.
Proof.
  intros Hall. rewrite !last_lookup, <- (Forall2_length _ _ _ Hall).
  intros Hy. destruct (Forall2_lookup_r _ _ _ _ _ Hall Hy) as (x & Hx & HQ).
  eauto.
Qed.



Lemma astype_f8_rows d (raw : array2 (elt f8 d)) (a : nd f8) lastrow' :
  astype_f8 (VArr d (Nd2 raw)) = Ok a → last_row a = Ok lastrow' →
  ∃ lastrow, last (rows raw) = Some lastrow
             ∧ Forall2 (λ x y, astype_f8_elt d x = Ok y) lastrow lastrow'.
Proof.
  intros Hcast Hlast. cbn [astype_f8 nd_mapM] in Hcast.
  apply fmap_Ok in Hcast as (rs & Hrs & ->). apply mapM_Ok in Hrs.
  simpl in Hlast. destruct (last rs) as [r'|] eqn:Hr'; [|done].
  injection Hlast as ->.
  destruct (Forall2_last _ _ _ _ Hrs Hr') as (r & Hr & Hrun).
  exists r. split; [done|]. by apply mapM_Ok.
Qed.

(** *** The loop over the node variables *)

Lemma nod_step_Ok parameters ci vals j name vals' :
  nod_step parameters ci vals (j, name) = Ok vals' →
  ∃ v a r, parameters !! nod_key j = Some v
           ∧ astype_f8 v = Ok a
           ∧ take_last a (minus_one ci) = Ok r
           ∧ vals' = <[("gas", name) := r]> vals.
Proof.
  intros H. unfold nod_step in H. unbind H as v Hv. unbind H as s Hs.
  unbind H as a Ha. unbind H as r Hr. injection H as <-.
  apply getitem_Ok in Hv. apply slice_all_Ok in Hs as ->.
  exists v, a, r. done.
Qed.




(** *** Casting indices that fit 64 bits *)




End NodeFields.





(** * Further properties *)

(** ** The container format *)

Section ContainerFormatMore.
Import YTData.
Context {num : Type}.
Implicit Types (fs : gmap string (entry num)) (f : h5file num).

Lemma probe_true tags fs filename :
  probe tags fs filename = Ok true →
  ∃ f tag, fs !! filename = Some (Hdf5 f)
           ∧ attrs f !! "data_type" = Some (AStr tag) ∧ tag ∈ tags.
Proof.
  unfold probe, h5py_File. destruct (endswith filename ".h5"); [|done]. simpl.
  destruct (fs !! filename) as [[f|]|]; [|done..]. simpl.
  destruct (attrs f !! "data_type") as [a|] eqn:Ha; [|done].
  destruct (attr_in a tags) as [[|]|e] eqn:Hin; [|done..]. intros _.
  apply attr_in_true in Hin as (tag & -> & Htag). eauto.
Qed.

(** X1.  No path is valid for both datasets of the container format: the
    tags that the container probe recognizes and the tag that the grid
    probe recognizes do not overlap. *)
Theorem container_and_grid_probes_exclude_each_other fs filename :
  ¬ (YTDataContainerDataset._is_valid fs filename = Ok true
     ∧ YTGridDataset._is_valid fs filename = Ok true).
Proof.
  intros [Hc Hg].
  apply probe_true in Hc as (f & tag & Hf & Htag & Hin).
  apply probe_true in Hg as (f' & tag' & Hf' & Htag' & Hin').
  rewrite Hf in Hf'. injection Hf' as <-.
  rewrite Htag in Htag'. injection Htag' as <-.
  unfold YTDataContainerDataset.recognized in Hin.
  unfold YTGridDataset.recognized in Hin'.
  apply list_elem_of_singleton in Hin' as ->.
  rewrite !elem_of_cons, elem_of_nil in Hin.
  by destruct Hin as [? | [? | [? | []]]].
Qed.

Import YTDataContainerDataset.

Lemma required_not_fixed a :
  a ∈ required →
  a ∉ ["particle_types_raw"; "particle_types"; "dimensionality"; "refine_by";
       "unique_identifier"; "filename_template"; "file_count"].
Proof.
  unfold required. rewrite !elem_of_cons, elem_of_nil. intros H Hfix.
  repeat destruct H as [-> | H]; try done;
    repeat destruct Hfix as [Hfix | Hfix]; done.
Qed.

Lemma fixed_not_required k :
  k ∈ ["particle_types_raw"; "particle_types"; "dimensionality"; "refine_by";
       "unique_identifier"; "filename_template"; "file_count"] →
  k ∉ required.
Proof. intros Hk Hr. by apply (required_not_fixed k). Qed.

Lemma copy_attrs_parameters hvals names (self self' : self_t num) :
  copy_attrs hvals names self = Ok self' → parameters self' = parameters self.
Proof.
  revert self. induction names as [|k names IH]; intros self; simpl.
  - by intros [= <-].
  - intros H. unbind H as v Hv. by rewrite (IH _ H).
Qed.

(** X2.  A successful parse of a container file leaves on the dataset the
    cell counts [2 ** over_refine_factor] on each of the three axes,
    periodicity on all three, dimensionality 3, refinement factor 2, the
    file's change time as unique identifier and the names of its groups as
    particle types, none of them disturbed by the copy of the required
    attributes; and the dataset's parameters are updated with every
    attribute of the file, the file's value winning.  With a negative
    over-refine factor the shift raises [ValueError], even for a file that
    has every required attribute. *)
Theorem container_parse_derived_attributes fs (self : self_t num) f :
  h5py_File fs (parameter_filename self) = Ok f →
  (∀ self', _parse_parameter_file fs self = Ok self' →
     (0 ≤ over_refine_factor self)%Z
     ∧ __dict__ self' !! "domain_dimensions"
       = Some (PInts [2 ^ over_refine_factor self;
                      2 ^ over_refine_factor self;
                      2 ^ over_refine_factor self]%Z)
     ∧ __dict__ self' !! "periodicity" = Some (PBools [true; true; true])
     ∧ __dict__ self' !! "dimensionality" = Some (PInt 3)
     ∧ __dict__ self' !! "refine_by" = Some (PInt 2)
     ∧ __dict__ self' !! "unique_identifier" = Some (PInt (st_ctime f))
     ∧ __dict__ self' !! "particle_types" = Some (PStrs (keys f))
     ∧ ∀ k, parameters self' !! k
            = match attrs f !! k with
              | Some v => Some v
              | None => parameters self !! k
              end)
  ∧ ((over_refine_factor self < 0)%Z →
     (∀ a, a ∈ required → is_Some (attrs f !! a)) →
     _parse_parameter_file fs self = Raise ValueError).
Proof.
  intros Hf. unfold _parse_parameter_file. rewrite Hf.
  cbn -[copy_attrs required]. split.
  - intros self' H. unbind H as s Hs. unbind H as nz Hnz. injection H as <-.
    pose proof (copy_attrs_parameters _ _ _ _ Hs) as Hpars.
    apply copy_attrs_Ok in Hs as (_ & Hkeep & _ & Horf).
    unfold lshift1 in Hnz. rewrite Horf in Hnz. cbn in Hnz.
    destruct (Z.ltb_spec (over_refine_factor self) 0) as [|Hpos]; [done|].
    injection Hnz as <-. rewrite Z.shiftl_1_l.
    split; [done|]. cbn -[required].
    split; [by rewrite lookup_insert_eq|].
    split; [by rewrite lookup_insert_ne, lookup_insert_eq|].
    assert (∀ k v,
              k ∈ ["particle_types_raw"; "particle_types"; "dimensionality";
                   "refine_by"; "unique_identifier"; "filename_template";
                   "file_count"] →
              k ≠ "periodicity" → k ≠ "domain_dimensions" →
              <["file_count" := PInt 1]>
                (<["filename_template" := PStr (parameter_filename self)]>
                   (<["unique_identifier" := PInt (st_ctime f)]>
                      (<["refine_by" := PInt 2]>
                         (<["dimensionality" := PInt 3]>
                            (<["particle_types" := PStrs (keys f)]>
                               (<["particle_types_raw" := PStrs (keys f)]>
                                  (__dict__ self))))))) !! k = Some v →
              <["domain_dimensions" := PInts
                  [2 ^ over_refine_factor self; 2 ^ over_refine_factor self;
                   2 ^ over_refine_factor self]%Z]>
                (<["periodicity" := PBools [true; true; true]]> (__dict__ s))
              !! k = Some v) as Hfixed.
    { intros k v Hk Hk1 Hk2 Hv.
      rewrite !lookup_insert_ne by (by intros <-).
      rewrite (Hkeep k (fixed_not_required k Hk)). exact Hv. }
    split; [apply Hfixed; [rewrite !elem_of_cons; auto 10|done|done|
            by rewrite !lookup_insert_ne, lookup_insert_eq by done]|].
    split; [apply Hfixed; [rewrite !elem_of_cons; auto 10|done|done|
            by rewrite !lookup_insert_ne, lookup_insert_eq by done]|].
    split; [apply Hfixed; [rewrite !elem_of_cons; auto 10|done|done|
            by rewrite !lookup_insert_ne, lookup_insert_eq by done]|].
    split; [apply Hfixed; [rewrite !elem_of_cons; auto 10|done|done|
            by rewrite !lookup_insert_ne, lookup_insert_eq by done]|].
    intros k. rewrite lookup_union, Hpars. cbn.
    by destruct (attrs f !! k), (parameters self !! k).
  - intros Hneg Hall.
    edestruct (copy_attrs_total (num:=num) (attrs f) required) as (s & Hs);
      [done|]. rewrite Hs.
    apply copy_attrs_Ok in Hs as (_ & _ & _ & Hsame).
    cbn -[required]. unfold lshift1. rewrite Hsame. cbn.
    by destruct (Z.ltb_spec (over_refine_factor self) 0); [|lia].
Qed.

(** *** The grid dataset *)

Import YTGridDataset.

(** X3.  Parsing a grid file whose path opens sets every attribute of the
    file on the dataset, whatever its name, and leaves the dataset's other
    attributes alone; the order in which the attributes are visited does
    not matter.  A path that does not open raises. *)
Theorem grid_parse_sets_every_attribute fs
    (self : gmap string (pyval num)) filename :
  self !! "parameter_filename" = Some (PStr filename) →
  (∀ f, fs !! filename = Some (Hdf5 f) →
     ∃ self', YTGridDataset._parse_parameter_file fs self = Ok self'
              ∧ ∀ k, self' !! k = match attrs f !! k with
                                  | Some v => Some (PAttr v)
                                  | None => self !! k
                                  end)
  ∧ (fs !! filename = None ∨ fs !! filename = Some NotHdf5 →
     YTGridDataset._parse_parameter_file fs self = Raise IOError).
Proof.
  intros Hname. unfold YTGridDataset._parse_parameter_file, getattr.
  rewrite Hname. cbn [mbind result_bind]. unfold h5py_File. split.
  - intros f Hf. rewrite Hf. cbn [mbind result_bind]. eexists. split; [done|].
    apply (map_fold_weak_ind
             (λ r m, ∀ k, r !! k = match m !! k with
                                   | Some v => Some (PAttr v)
                                   | None => self !! k
                                   end)).
    + intros k. by rewrite lookup_empty.
    + intros i x m r Hi IH k. destruct (decide (i = k)) as [->|Hne].
      * by rewrite !lookup_insert_eq.
      * rewrite !lookup_insert_ne by done. apply IH.
  - by intros [-> | ->].
Qed.

End ContainerFormatMore.

Lemma container_parse_derived_attributes_witness :
  (∃ self', YTData.YTDataContainerDataset._parse_parameter_file Fixtures.disk
              (Fixtures.container_self "sphere.h5") = Ok self'
            ∧ YTData.__dict__ self' !! "domain_dimensions"
              = Some (YTData.PInts [2; 2; 2]%Z))
  ∧ YTData.YTDataContainerDataset._parse_parameter_file Fixtures.disk
      (YTData.Self "sphere.h5" 16 (-1) ∅ ∅) = Raise ValueError.
Proof.
  destruct (container_parse_derived_attributes Fixtures.disk
              (Fixtures.container_self "sphere.h5") Fixtures.container_file
              eq_refl) as (Hok & _).
  destruct (container_parse_derived_attributes Fixtures.disk
              (YTData.Self "sphere.h5" 16 (-1) ∅ ∅) Fixtures.container_file
              eq_refl) as (_ & Hneg).
  split.
  - assert (∃ self', YTData.YTDataContainerDataset._parse_parameter_file
                       Fixtures.disk (Fixtures.container_self "sphere.h5")
                     = Ok self') as [self' Hself'].
    { eexists. vm_compute. reflexivity. }
    exists self'. split; [exact Hself'|].
    exact (proj1 (proj2 (Hok self' Hself'))).
  - apply Hneg; [simpl; lia|].
    intros a Ha. unfold YTData.YTDataContainerDataset.required in Ha.
    rewrite !elem_of_cons, elem_of_nil in Ha.
    repeat destruct Ha as [-> | Ha]; try done; vm_compute; eauto.
Defined.

Lemma grid_parse_sets_every_attribute_witness :
  (∃ self', YTData.YTGridDataset._parse_parameter_file Fixtures.disk
              Fixtures.grid_self = Ok self'
            ∧ self' !! "data_type"
              = Some (YTData.PAttr (YTData.AStr "yt_grid_data"))
            ∧ self' !! "parameter_filename" = Some (YTData.PStr "grid.h5"))
  ∧ YTData.YTGridDataset._parse_parameter_file Fixtures.disk
      (<["parameter_filename" := YTData.PStr "missing.h5"]> Fixtures.grid_self)
    = Raise IOError.
Proof.
  split.
  - destruct (grid_parse_sets_every_attribute Fixtures.disk
                Fixtures.grid_self "grid.h5") as (Hopen & _); [reflexivity|].
    destruct (Hopen Fixtures.grid_file) as (self' & Hrun & Hall);
      [reflexivity|].
    exists self'. split; [exact Hrun|]. split.
    + exact (Hall "data_type").
    + exact (Hall "parameter_filename").
  - destruct (grid_parse_sets_every_attribute Fixtures.disk
                (<["parameter_filename" := YTData.PStr "missing.h5"]>
                   Fixtures.grid_self) "missing.h5") as (_ & Hfail);
      [reflexivity|].
    apply Hfail. left. reflexivity.
Defined.

(** ** Fluid types of a mesh file *)

Section FluidTypes.
Import ExodusII ExodusIIDataset.
Context {f8 : Type} `{!Env f8}.
Implicit Types (fs : gmap string (entry f8)).
Implicit Types (variables : gmap string (ncvar f8)).

Lemma connect_key_inj (i j : nat) :
  "connect" +:+ pretty i = "connect" +:+ pretty j → i = j.
Proof. intros Heq. apply (inj (String.app "connect")) in Heq. by apply (inj pretty). Qed.

(** The loop stops before its budget is spent: every pass that goes on
    has found a variable that no earlier pass has found. *)
Lemma fluid_types_from_blocks variables (m : gmap string (ncvar f8))
    (budget i : nat) :
  (∀ j : nat, (i ≤ j)%nat → is_Some (variables !! ("connect" +:+ pretty j)) →
        is_Some (m !! ("connect" +:+ pretty j))) →
  (size m < budget)%nat →
  ∃ n, fluid_types_from variables budget i
       = (λ j : nat, "connect" +:+ pretty j) <$> seq i n
     ∧ (∀ j : nat, (i ≤ j < i + n)%nat → is_Some (variables !! ("connect" +:+ pretty j)))
     ∧ variables !! ("connect" +:+ pretty (i + n)) = None.
Proof.
  revert m i. induction budget as [|b IH]; intros m i Hm Hsize; [lia|].
  cbn [fluid_types_from]. case_decide as Hi.
  - destruct (Hm i) as [x Hx]; [lia|done|].
    destruct (IH (delete ("connect" +:+ pretty i) m) (i + 1))
      as (n & Hrun & Hall & Hend).
    + intros j Hj Hv. rewrite lookup_delete_ne.
      * apply Hm; [lia|done].
      * intros Heq. apply connect_key_inj in Heq. lia.
    + rewrite map_size_delete_Some by done.
      assert (size m ≠ 0); [|lia].
      apply map_size_ne_0_lookup. eauto.
    + exists (S n). split; [|split].
      * rewrite Hrun. cbn [seq fmap list_fmap]. by rewrite Nat.add_1_r.
      * intros j Hj. destruct (decide (j = i)) as [->|Hne]; [done|].
        apply Hall. lia.
      * by replace (i + S n) with (i + 1 + n) by lia.
  - exists 0. split; [done|]. split; [intros j Hj; lia|].
    rewrite Nat.add_0_r. by apply eq_None_not_Some.
Qed.

(** X4.  The fluid types of a file that opens are the names [connect1],
    [connect2], ... of its leading element blocks, in order: every one of
    them is a variable of the file, the name that would follow the last is
    not, and blocks behind a gap in the numbering are not counted.  A path
    that does not open raises, nothing being caught. *)
Theorem fluid_types_are_the_leading_blocks fs filename :
  (∀ variables, fs !! filename = Some (NetCDF variables) →
     ∃ n, _get_fluid_types fs filename
          = Ok ((λ j : nat, "connect" +:+ pretty j) <$> seq 1 n)
        ∧ (∀ j : nat, (1 ≤ j ≤ n)%nat → is_Some (variables !! ("connect" +:+ pretty j)))
        ∧ variables !! ("connect" +:+ pretty (n + 1)) = None)
  ∧ (fs !! filename = None ∨ fs !! filename = Some NotNetCDF →
     _get_fluid_types fs filename = Raise IOError).
Proof.
  unfold _get_fluid_types, NetCDF4FileHandler. split.
  - intros variables ->. cbn [mbind result_bind].
    destruct (fluid_types_from_blocks variables variables
                (S (size variables)) 1) as (n & Hrun & Hall & Hend);
      [done|lia|].
    exists n. rewrite Hrun. split; [done|]. split.
    + intros j Hj. apply Hall. lia.
    + by rewrite Nat.add_comm.
  - by intros [-> | ->].
Qed.

(** X5.  The validity probe and the fluid types agree: a path passes the
    probe exactly when the file there has at least one fluid type, and
    the first fluid type is then [connect1].  On every other path the
    probe returns [None] (a path that does not open included, where
    reading the fluid types raises). *)
Theorem probe_accepts_files_with_fluid_types fs filename :
  (_is_valid fs filename = Ok (PyBool true)
   ↔ ∃ types, _get_fluid_types fs filename = Ok ("connect1" :: types))
  ∧ (_is_valid fs filename = Ok PyNone
     ↔ _get_fluid_types fs filename = Ok []
       ∨ _get_fluid_types fs filename = Raise IOError).
Proof.
  unfold _is_valid, _get_fluid_types, NetCDF4FileHandler, getitem.
  destruct (fs !! filename) as [[variables|]|]; cbn [mbind result_bind].
  - cbn [fluid_types_from]. change ("connect" +:+ pretty 1) with "connect1".
    destruct (decide (is_Some (variables !! "connect1"))) as [[c Hc]|Hno].
    + rewrite Hc. simpl. split.
      * split; [eauto | done].
      * split; [done | by intros [? | ?]].
    + apply eq_None_not_Some in Hno. rewrite Hno. simpl. split.
      * split; [done | by intros (? & ?)].
      * split; [eauto | done].
  - simpl. split; [split; [done | by intros (? & ?)] | split; eauto].
  - simpl. split; [split; [done | by intros (? & ?)] | split; eauto].
Qed.

End FluidTypes.

Lemma fluid_types_are_the_leading_blocks_witness :
  (∃ n, ExodusII.ExodusIIDataset._get_fluid_types Fixtures.meshes "triangle.e"
        = Ok ((λ j : nat, "connect" +:+ pretty j) <$> seq 1 n)
        ∧ Fixtures.triangle !! ("connect" +:+ pretty (n + 1)) = None)
  ∧ ExodusII.ExodusIIDataset._get_fluid_types Fixtures.meshes "readme.e"
    = Raise IOError.
Proof.
  destruct (fluid_types_are_the_leading_blocks Fixtures.meshes "triangle.e")
    as (Hopen & _).
  destruct (fluid_types_are_the_leading_blocks Fixtures.meshes "readme.e")
    as (_ & Hfail).
  split.
  - destruct (Hopen Fixtures.triangle) as (n & Hrun & _ & Hend); [reflexivity|].
    exists n. split; [exact Hrun | exact Hend].
  - apply Hfail. right. reflexivity.
Defined.

(** ** The materialized fields *)

Section Fields.
Import ExodusII ExodusIIDataset.
Context {f8 : Type} `{!Env f8}.
Implicit Types (parameters : gmap string (value f8)) (v : value f8).
Implicit Types (fs : gmap string (entry f8)) (self : dataset f8).
Implicit Types (vals : gmap (string * string) (nd f8)).

(** What a successful parse has stored when it loads the data, and the
    run of the loop body on every mesh. *)
Lemma data_of_parse fs filename initial self :
  _parse_parameter_file fs filename initial = Ok self →
  ∃ (nm : nat) en nn cn,
    parameters self !! "num_meshes" = Some (VInt (Z.of_nat nm))
    ∧ parameters self !! "elem_names" = Some (VNames en)
    ∧ parameters self !! "nod_names" = Some (VNames nn)
    ∧ parameters self !! "connectivity" = Some (VConn cn)
    ∧ length (data self) = nm
    ∧ ∀ i vals, data self !! i = Some vals →
        ∃ ci vals0,
          cn !! i = Some ci
          ∧ for_each (elem_step (parameters self) i)
                     (imap (λ j name, (j, name)) en) ∅ = Ok vals0
          ∧ for_each (nod_step (parameters self) ci)
                     (imap (λ j name, (j, name)) nn) vals0 = Ok vals.
Proof.
  intros Hp.
  destruct (parse_Ok _ _ _ _ Hp) as (self0 & n0 & Hd & _ & Hpar & _ & -> & _).
  rewrite Hpar. clear Hpar Hp.
  destruct (derive_Ok _ _ _ _ Hd)
    as (vs & p & records & nm & en & nn & co & cn & _ & _ & _ & _
        & _ & _ & _ & _ & _ & _ & _ & Hdat & _ & _ & -> & _).
  cbv zeta in *. clear Hd.
  set (p7 := <["connectivity":=VConn cn]> _) in *.
  assert (p7 !! "nod_names" = Some (VNames nn)) as Hnn.
  { unfold p7. by rewrite !lookup_insert_ne, lookup_insert_eq by done. }
  assert (p7 !! "elem_names" = Some (VNames en)) as Hen.
  { unfold p7. by rewrite !lookup_insert_ne, lookup_insert_eq by done. }
  assert (p7 !! "connectivity" = Some (VConn cn)) as Hcn.
  { unfold p7. by rewrite lookup_insert_eq. }
  assert (p7 !! "num_meshes" = Some (VInt (Z.of_nat nm))) as Hnm.
  { unfold p7. by rewrite !lookup_insert_ne, lookup_insert_eq by done. }
  unfold _load_data, getitem in Hdat. rewrite Hnm in Hdat.
  cbn [mbind result_bind range] in Hdat. rewrite Nat2Z.id in Hdat.
  apply mapM_Ok in Hdat.
  pose proof (Forall2_length _ _ _ Hdat) as Hdlen. rewrite length_seq in Hdlen.
  exists nm, en, nn, cn. split; [done|]. split; [done|]. split; [done|].
  split; [done|]. split; [done|].
  intros i vals Hvals.
  destruct (Forall2_lookup_r _ _ _ i vals Hdat Hvals) as (i' & Hi' & Hmesh).
  apply lookup_seq in Hi' as [-> _]. simpl in Hmesh.
  unfold load_mesh, getitem in Hmesh. rewrite Hcn, Hnn, Hen in Hmesh.
  cbn [mbind result_bind enumerate] in Hmesh.
  unbind Hmesh as ci Hci. unbind Hmesh as vals0 Hvals0.
  exists ci, vals0. split; [|done].
  simpl in Hci. by destruct (cn !! i) as [c|]; [injection Hci as ->|].
Qed.

(** *** The loop over the element variables *)

Lemma elem_step_Ok parameters i vals j name vals' :
  elem_step parameters i vals (j, name) = Ok vals' →
  ∃ v a r, parameters !! elem_key j i = Some v
           ∧ astype_f8 v = Ok a
           ∧ last_row a = Ok r
           ∧ vals' = <[("gas", name) := Nd1 r]> vals.
Proof.
  intros H. unfold elem_step in H. unbind H as v Hv. unbind H as s Hs.
  unbind H as a Ha. unbind H as r Hr. injection H as <-.
  apply getitem_Ok in Hv. apply slice_all_Ok in Hs as ->.
  exists v, a, r. done.
Qed.

(** *** Loops that assign one field per pass *)

Section Assigning.
Context (step : gmap (string * string) (nd f8) → nat * string
                → result (gmap (string * string) (nd f8))).
Hypothesis step_assigns : ∀ vals j name vals',
  step vals (j, name) = Ok vals' → ∃ r, vals' = <[("gas", name) := r]> vals.

Lemma loop_other entries vals vals' key :
  for_each step entries vals = Ok vals' →
  (∀ i j name, entries !! i = Some (j, name) → key ≠ ("gas", name)) →
  vals' !! key = vals !! key.
Proof.
  revert vals. induction entries as [|[j n] entries IH]; intros vals H Hno.
  - by injection H as <-.
  - cbn [for_each] in H. unbind H as vals1 H1.
    apply step_assigns in H1 as (r & ->).
    rewrite (IH _ H); [|intros i j' name; apply (Hno (S i) j' name)].
    apply lookup_insert_ne. intros <-. by apply (Hno 0 j n).
Qed.

Lemma loop_keys entries vals vals' key :
  for_each step entries vals = Ok vals' →
  is_Some (vals' !! key)
  ↔ is_Some (vals !! key) ∨ ∃ name, key = ("gas", name) ∧ name ∈ entries.*2.
Proof.
  revert vals. induction entries as [|[j n] entries IH]; intros vals H.
  - injection H as <-. split; [eauto|]. intros [? | (name & _ & Hin)]; [done|].
    by apply elem_of_nil in Hin.
  - cbn [for_each] in H. unbind H as vals1 H1.
    apply step_assigns in H1 as (r & ->). rewrite (IH _ H).
    rewrite fmap_cons. cbn [snd]. split.
    + intros [Hk | (name & -> & Hin)].
      * destruct (decide (key = ("gas", n))) as [->|Hne].
        -- right. exists n. split; [done | apply elem_of_cons; auto].
        -- left. by rewrite lookup_insert_ne in Hk.
      * right. exists name. split; [done | apply elem_of_cons; auto].
    + intros [Hk | (name & -> & Hin)].
      * left. destruct (decide (key = ("gas", n))) as [->|Hne].
        -- rewrite lookup_insert_eq. eauto.
        -- by rewrite lookup_insert_ne.
      * apply elem_of_cons in Hin as [-> | Hin].
        -- left. rewrite lookup_insert_eq. eauto.
        -- right. eauto.
Qed.

End Assigning.

Lemma elem_step_assigns parameters i vals j name vals' :
  elem_step parameters i vals (j, name) = Ok vals' →
  ∃ r, vals' = <[("gas", name) := r]> vals.
Proof. intros H. apply elem_step_Ok in H as (_ & _ & r & _ & _ & _ & ->). eauto. Qed.

Lemma nod_step_assigns parameters ci vals j name vals' :
  nod_step parameters ci vals (j, name) = Ok vals' →
  ∃ r, vals' = <[("gas", name) := r]> vals.
Proof. intros H. apply nod_step_Ok in H as (_ & _ & r & _ & _ & _ & ->). eauto. Qed.

Lemma elem_loop_last parameters mesh entries vals vals' i j name :
  for_each (elem_step parameters mesh) entries vals = Ok vals' →
  entries !! i = Some (j, name) →
  (∀ i' j', i < i' → entries !! i' ≠ Some (j', name)) →
  ∃ v a r, parameters !! elem_key j mesh = Some v
           ∧ astype_f8 v = Ok a
           ∧ last_row a = Ok r
           ∧ vals' !! ("gas", name) = Some (Nd1 r).
Proof.
  revert vals i. induction entries as [|[j0 n0] entries IH]; intros vals i H Hi Hlast.
  - by rewrite lookup_nil in Hi.
  - cbn [for_each] in H. unbind H as vals1 H1. destruct i as [|i].
    + injection Hi as -> ->.
      apply elem_step_Ok in H1 as (v & a & r & Hv & Ha & Hr & ->).
      exists v, a, r. split; [done|]. split; [done|]. split; [done|].
      rewrite (loop_other _ (elem_step_assigns parameters mesh) _ _ _ _ H).
      * apply lookup_insert_eq.
      * intros i' j' name' Hi' [= <-]. apply (Hlast (S i') j'); [lia|done].
    + apply (IH vals1 i H Hi).
      intros i' j' Hlt. apply (Hlast (S i') j'). lia.
Qed.

Lemma imap_pair_snd {A} (l : list A) : (imap (λ j x, (j, x)) l).*2 = l.
Proof.
  apply list_eq. intros i. rewrite list_lookup_fmap, list_lookup_imap.
  by destruct (l !! i).
Qed.

(** X6.  After a successful parse, every mesh [i] has, for every decoded
    element-field name that is not also a node-field name (the last of
    the element variables, where a name is repeated), the final time step
    of the element variable of that name on that block,
    [vals_elem_var<j+1>eb<i+1>], cast entry by entry to 64-bit floats. *)
Theorem element_fields_hold_the_last_step fs filename initial self :
  _parse_parameter_file fs filename initial = Ok self →
  ∃ elem_names nod_names,
    parameters self !! "elem_names" = Some (VNames elem_names)
    ∧ parameters self !! "nod_names" = Some (VNames nod_names)
    ∧ ∀ i vals j name,
        data self !! i = Some vals →
        elem_names !! j = Some name →
        (∀ j', j < j' → elem_names !! j' ≠ Some name) →
        name ∉ nod_names →
        ∃ d raw lastrow field,
          parameters self !! elem_key j i = Some (VArr d (Nd2 raw))
          ∧ last (rows raw) = Some lastrow
          ∧ vals !! ("gas", name) = Some (Nd1 field)
          ∧ Forall2 (λ x y, astype_f8_elt d x = Ok y) lastrow field.
Proof.
  intros Hp.
  destruct (data_of_parse _ _ _ _ Hp)
    as (nm & en & nn & cn & _ & Hen & Hnn & _ & _ & Hmesh).
  exists en, nn. split; [done|]. split; [done|].
  intros i vals j name Hvals Hj Hlast Hnot.
  destruct (Hmesh i vals Hvals) as (ci & vals0 & _ & Helem & Hnod).
  destruct (elem_loop_last _ _ _ _ _ j j name Helem)
    as (v & a & r & Hv & Ha & Hr & Hfield).
  { by rewrite list_lookup_imap, Hj. }
  { intros i' j' Hlt Hc. rewrite list_lookup_imap in Hc.
    destruct (en !! i') as [n'|] eqn:Hn'; [|done].
    injection Hc as <- <-. by apply (Hlast i'). }
  destruct v as [| | |d a0| | |]; try done.
  destruct a0 as [x0|l0|raw].
  { cbn [astype_f8 nd_mapM] in Ha. apply fmap_Ok in Ha as (? & _ & ->). done. }
  { cbn [astype_f8 nd_mapM] in Ha. apply fmap_Ok in Ha as (? & _ & ->). done. }
  destruct (astype_f8_rows _ _ _ _ Ha Hr) as (lastrow & Hraw & Hcasts).
  exists d, raw, lastrow, r.
  split; [done|]. split; [done|]. split; [|done].
  rewrite (loop_other _ (nod_step_assigns (self.(parameters)) ci) _ _ _ _ Hnod);
    [done|].
  intros i' j' name' Hi' [= <-]. apply Hnot.
  rewrite list_lookup_imap in Hi'.
  destruct (nn !! i') as [n'|] eqn:Hn'; [|done]. injection Hi' as <- <-.
  apply list_elem_of_lookup. eauto.
Qed.

(** The fields that one mesh has. *)
Lemma mesh_fields_of_parse fs filename initial self en nn i vals ftype fname :
  _parse_parameter_file fs filename initial = Ok self →
  parameters self !! "elem_names" = Some (VNames en) →
  parameters self !! "nod_names" = Some (VNames nn) →
  data self !! i = Some vals →
  is_Some (vals !! (ftype, fname))
  ↔ ftype = "gas" ∧ fname ∈ (en ++ nn)%list.
Proof.
  intros Hp Hen Hnn Hvals.
  destruct (data_of_parse _ _ _ _ Hp)
    as (nm & en' & nn' & cn & _ & Hen' & Hnn' & _ & _ & Hmesh).
  rewrite Hen in Hen'. injection Hen' as <-.
  rewrite Hnn in Hnn'. injection Hnn' as <-.
  destruct (Hmesh i vals Hvals) as (ci & vals0 & _ & Helem & Hnod).
  rewrite (loop_keys _ (nod_step_assigns (parameters self) ci) _ _ _ _ Hnod).
  rewrite (loop_keys _ (elem_step_assigns (parameters self) i) _ _ _ _ Helem).
  rewrite !imap_pair_snd, lookup_empty, elem_of_app. split.
  - intros [[[? Hnone] | (name & [= -> ->] & Hin)] | (name & [= -> ->] & Hin)];
      [done|auto..].
  - intros [-> [Hin | Hin]]; eauto 6.
Qed.

(** X7.  After a successful parse there is one dict of fields per element
    block, and the fields of every one of them are exactly the pairs
    ("gas", name) for the decoded element-field and node-field names: no
    field of another type, and no name that was not decoded.  Without
    such names every dict is empty. *)
Theorem data_fields_are_the_decoded_names fs filename initial self :
  _parse_parameter_file fs filename initial = Ok self →
  ∃ (num_meshes : nat) elem_names nod_names,
    parameters self !! "num_meshes" = Some (VInt (Z.of_nat num_meshes))
    ∧ parameters self !! "elem_names" = Some (VNames elem_names)
    ∧ parameters self !! "nod_names" = Some (VNames nod_names)
    ∧ length (data self) = num_meshes
    ∧ (∀ i vals ftype fname,
         data self !! i = Some vals →
         is_Some (vals !! (ftype, fname))
         ↔ ftype = "gas" ∧ fname ∈ (elem_names ++ nod_names)%list)
    ∧ (elem_names = [] → nod_names = [] →
       ∀ i vals, data self !! i = Some vals → vals = ∅).
Proof.
  intros Hp.
  destruct (data_of_parse _ _ _ _ Hp)
    as (nm & en & nn & cn & Hnm & Hen & Hnn & _ & Hlen & Hmesh).
  exists nm, en, nn. split; [done|]. split; [done|]. split; [done|].
  split; [done|]. split.
  - intros i vals ftype fname Hvals.
    by apply (mesh_fields_of_parse fs filename initial self en nn i).
  - intros -> -> i vals Hvals.
    destruct (Hmesh i vals Hvals) as (ci & vals0 & _ & Helem & Hnod).
    simpl in Helem, Hnod. congruence.
Qed.

End Fields.

Lemma element_fields_hold_the_last_step_witness :
  ∃ self vals d raw lastrow field,
    ExodusII.ExodusIIDataset._parse_parameter_file
      Fixtures.more_meshes "triangle_p.e" ∅ = Ok self
    ∧ ExodusII.ExodusIIDataset.data self !! 0 = Some vals
    ∧ ExodusII.ExodusIIDataset.parameters self !! elem_key 0 0
      = Some (ExodusII.VArr d (ExodusII.Nd2 raw))
    ∧ last (ExodusII.rows raw) = Some lastrow
    ∧ vals !! ("gas", "p") = Some (ExodusII.Nd1 field)
    ∧ Forall2 (λ x y, ExodusII.astype_f8_elt d x = Ok y) lastrow field.
Proof.
  assert (∃ self, ExodusII.ExodusIIDataset._parse_parameter_file
                    Fixtures.more_meshes "triangle_p.e" ∅ = Ok self)
    as [self Hself].
  { eexists. vm_compute. reflexivity. }
  assert (ExodusII.ExodusIIDataset.parameters self !! "elem_names"
          = Some (ExodusII.VNames ["p"])) as Hen.
  { clear -Hself. through Hself. reflexivity. }
  assert (ExodusII.ExodusIIDataset.parameters self !! "nod_names"
          = Some (ExodusII.VNames ["u"])) as Hnn.
  { clear -Hself. through Hself. reflexivity. }
  assert (∃ vals, ExodusII.ExodusIIDataset.data self !! 0 = Some vals)
    as [vals Hvals].
  { clear -Hself. through Hself. eexists. reflexivity. }
  destruct (element_fields_hold_the_last_step
              Fixtures.more_meshes "triangle_p.e" ∅ self Hself)
    as (en & nn & Hen' & Hnn' & Hall).
  rewrite Hen in Hen'. injection Hen' as <-.
  rewrite Hnn in Hnn'. injection Hnn' as <-.
  destruct (Hall 0 vals 0 "p" Hvals eq_refl)
    as (d & raw & lastrow & field & Hv & Hlast & Hfield & Hcast).
  { intros [|[|j']] Hlt; [lia|done|done]. }
  { by rewrite list_elem_of_singleton. }
  exists self, vals, d, raw, lastrow, field. auto 10.
Defined.

Lemma data_fields_are_the_decoded_names_witness :
  ∃ self (num_meshes : nat),
    ExodusII.ExodusIIDataset._parse_parameter_file
      Fixtures.meshes "triangle.e" ∅ = Ok self
    ∧ ExodusII.ExodusIIDataset.parameters self !! "num_meshes"
      = Some (ExodusII.VInt (Z.of_nat num_meshes))
    ∧ length (ExodusII.ExodusIIDataset.data self) = num_meshes.
Proof.
  assert (∃ self, ExodusII.ExodusIIDataset._parse_parameter_file
                    Fixtures.meshes "triangle.e" ∅ = Ok self) as [self Hself].
  { eexists. vm_compute. reflexivity. }
  destruct (data_fields_are_the_decoded_names
              Fixtures.meshes "triangle.e" ∅ self Hself)
    as (nm & en & nn & H1 & _ & _ & H4 & _).
  exists self, nm. auto.
Defined.

(** ** Time steps and parameters of a parsed file *)

Section Parsed.
Import ExodusII ExodusIIDataset.
Context {f8 : Type} `{!Env f8}.
Implicit Types (parameters : gmap string (value f8)) (v : value f8).
Implicit Types (fs : gmap string (entry f8)) (self : dataset f8).

(** The last statement of the parse leaves what was derived alone. *)
Lemma parse_Ok_derived fs filename initial self :
  _parse_parameter_file fs filename initial = Ok self →
  ∃ self0 n,
    derive fs filename initial = Ok self0
    ∧ getitem (parameters self0) "time_whole" ≫= len = Ok n
    ∧ parameters self = parameters self0
    ∧ unique_identifier self = unique_identifier self0
    ∧ current_time self = current_time self0
    ∧ num_steps self = Some n.
Proof.
  intros H. unfold _parse_parameter_file in H.
  do 2 inv_bind H. injection H as <-. simpl. eauto 10.
Qed.

Lemma assign_all_lookup parameters (pairs : list (string * value f8)) k v :
  assign_all parameters pairs !! k = Some v →
  parameters !! k = Some v ∨ v ∈ pairs.*2.
Proof.
  induction pairs as [|[k' v'] pairs IH] using rev_ind; [by left|].
  rewrite assign_all_snoc, fmap_app. simpl.
  destruct (decide (k' = k)) as [->|Hne].
  - rewrite lookup_insert_eq. intros [= ->]. right.
    apply elem_of_app. right. by apply list_elem_of_singleton.
  - rewrite lookup_insert_ne by done. intros Hk.
    destruct (IH Hk) as [? | ?]; [by left|]. right.
    apply elem_of_app. by left.
Qed.

(** What reading the global variables adds to the parameters are numpy
    arrays: the columns of [vals_glo_var]. *)
Lemma read_glo_var_arrays parameters p k v :
  _read_glo_var parameters = Ok p → p !! k = Some v →
  parameters !! k = Some v ∨ ∃ d a, v = VArr d a.
Proof.
  intros Hrun Hk. unfold _read_glo_var in Hrun. unbind Hrun as names Hnames.
  destruct names as [|n0 names0].
  { injection Hrun as <-. by left. }
  unbind Hrun as w Hw. unbind Hrun as s Hs. unbind Hrun as t Ht.
  unbind Hrun as values Hvalues. injection Hrun as <-.
  apply assign_all_lookup in Hk as [? | Hin]; [by left|]. right.
  apply list_elem_of_fmap in Hin as ([k' v'] & -> & Hin).
  change ((k', v') ∈ zip (n0 :: names0) values) in Hin.
  apply elem_of_zip_r in Hin. simpl.
  destruct s as [| | |d a| | |]; try done. injection Ht as <-.
  destruct (nd_transpose a) as [x|l|a']; simpl in Hvalues; [done|..];
    injection Hvalues as <-;
    apply list_elem_of_fmap in Hin as (? & -> & _); eauto.
Qed.

(** X8.  A dataset that parses from parameters without a [time_whole]
    entry has at least one time step: [time_whole] is a numpy array among
    its parameters, the current time is its first entry (never the
    fallback 0.0 of [_get_current_time]), and [num_steps] is its length,
    which is at least 1. *)
Theorem parsed_dataset_has_a_time_step fs filename initial self :
  _parse_parameter_file fs filename initial = Ok self →
  initial !! "time_whole" = None →
  ∃ d a (n : nat),
    parameters self !! "time_whole" = Some (VArr d a)
    ∧ item0 (VArr d a) = Ok (current_time self)
    ∧ len (VArr d a) = Ok n
    ∧ num_steps self = Some n
    ∧ (1 ≤ n)%nat.
Proof.
  intros Hp Hinit.
  destruct (parse_Ok_derived _ _ _ _ Hp)
    as (self0 & n & Hd & Hn & -> & _ & -> & Hsteps).
  destruct (derive_Ok _ _ _ _ Hd)
    as (vs & p & records & nm & en & nn & co & cn & _ & Hread & _ & _
        & _ & Hnow & _ & _ & _ & _ & _ & _ & _ & _ & Hpar & _).
  cbv zeta in *. rewrite Hpar in *. clear Hpar Hd Hp.
  unbind Hn as tw Htw. apply getitem_Ok in Htw.
  rewrite !lookup_insert_ne in Htw by done.
  assert (∃ d a, tw = VArr d a) as (d & a & ->).
  { destruct (read_glo_var_arrays _ _ _ _ Hread Htw) as [Hfile | ?]; [|done].
    apply lookup_union_Some_raw in Hfile as [Hfile | [_ Hfile]]; [|congruence].
    rewrite lookup_fmap in Hfile.
    destruct (vs !! "time_whole") as [[]|]; [..|done];
      injection Hfile as <-; simpl; eauto. }
  exists d, a, n.
  split; [by rewrite !lookup_insert_ne by done|].
  unfold _get_current_time, getitem in Hnow.
  rewrite lookup_insert_ne, Htw in Hnow by done.
  cbn [mbind result_bind] in Hnow.
  destruct a as [x|l|c]; simpl in Hnow, Hn |- *; [done|..].
  - destruct l as [|x l]; [done|]. injection Hn as <-. simpl.
    split; [done|]. split; [done|]. split; [done|]. lia.
  - destruct (rows c) as [|r rs]; [done|]. injection Hn as <-. simpl.
    split; [done|]. split; [done|]. split; [done|]. lia.
Qed.

(** Outside the names of the global variables and the derived keys, the
    parameters after a parse are the variables of the file over the
    parameters before it. *)
Lemma file_variables_of_parse fs filename initial self variables names k :
  _parse_parameter_file fs filename initial = Ok self →
  fs !! filename = Some (NetCDF variables) →
  _get_glo_names ((of_ncvar <$> variables) ∪ initial) = Ok names →
  k ∉ names →
  k ∉ ["info_records"; "num_meshes"; "elem_names"; "nod_names";
       "coordinates"; "connectivity"] →
  parameters self !! k
  = match variables !! k with
    | Some var => Some (of_ncvar var)
    | None => initial !! k
    end.
Proof.
  intros Hp Hfile Hnames Hk Hderived.
  destruct (parse_Ok _ _ _ _ Hp) as (self0 & n & Hd & _ & -> & _).
  destruct (derive_Ok _ _ _ _ Hd)
    as (vs & p & records & nm & en & nn & co & cn & Hopen & Hread & _ & _
        & _ & _ & _ & _ & _ & _ & _ & _ & _ & _ & -> & _).
  cbv zeta in *. unfold NetCDF4FileHandler in Hopen. rewrite Hfile in Hopen.
  injection Hopen as <-.
  rewrite !elem_of_cons, elem_of_nil in Hderived.
  rewrite !lookup_insert_ne by (intros <-; apply Hderived; auto 10).
  rewrite (read_glo_var_other _ _ _ _ Hread Hnames Hk).
  rewrite lookup_union, lookup_fmap.
  by destruct (variables !! k), (initial !! k).
Qed.


(** X10.  A file that names global variables and has no [vals_glo_var]
    does not parse: reading the global variables raises the key error for
    [vals_glo_var], which nothing catches. *)
Theorem global_names_without_values_raise fs filename initial variables
    (c : array2 ascii) :
  fs !! filename = Some (NetCDF variables) →
  variables !! "name_glo_var" = Some (Var2 DChar c) →
  rows c ≠ [] →
  variables !! "vals_glo_var" = None →
  initial !! "vals_glo_var" = None →
  _read_glo_var ((of_ncvar <$> variables) ∪ initial)
  = Raise (KeyError "vals_glo_var")
  ∧ _parse_parameter_file fs filename initial
    = Raise (KeyError "vals_glo_var").
Proof.
  intros Hfile Hnames Hrows Hvals Hinit.
  assert (_read_glo_var ((of_ncvar <$> variables) ∪ initial)
          = Raise (KeyError "vals_glo_var")) as Hread.
  { unfold _read_glo_var, _get_glo_names.
    rewrite (decoded_names_chars _ _ c).
    2: { apply lookup_union_Some_raw. left. by rewrite lookup_fmap, Hnames. }
    cbn [mbind result_bind].
    destruct (rows c) as [|r rs]; [done|].
    cbn [fmap list_fmap mbind result_bind].
    rewrite getitem_None; [done|].
    apply lookup_union_None. by rewrite lookup_fmap, Hvals. }
  split; [done|].
  unfold _parse_parameter_file, derive, _load_variables, NetCDF4FileHandler.
  rewrite Hfile. cbn [mbind result_bind]. by rewrite Hread.
Qed.

End Parsed.

Lemma parsed_dataset_has_a_time_step_witness :
  ∃ self d a (n : nat),
    ExodusII.ExodusIIDataset._parse_parameter_file
      Fixtures.meshes "triangle.e" ∅ = Ok self
    ∧ ExodusII.ExodusIIDataset.parameters self !! "time_whole"
      = Some (ExodusII.VArr d a)
    ∧ ExodusII.item0 (ExodusII.VArr d a)
      = Ok (ExodusII.ExodusIIDataset.current_time self)
    ∧ ExodusII.ExodusIIDataset.num_steps self = Some n
    ∧ (1 ≤ n)%nat.
Proof.
  assert (∃ self, ExodusII.ExodusIIDataset._parse_parameter_file
                    Fixtures.meshes "triangle.e" ∅ = Ok self) as [self Hself].
  { eexists. vm_compute. reflexivity. }
  destruct (parsed_dataset_has_a_time_step
              Fixtures.meshes "triangle.e" ∅ self Hself)
    as (d & a & n & H1 & H2 & _ & H4 & H5); [reflexivity|].
  exists self, d, a, n. auto.
Defined.


Lemma global_names_without_values_raise_witness :
  ExodusII.ExodusIIDataset._parse_parameter_file
    Fixtures.more_meshes "names_only.e" ∅
  = Raise (KeyError "vals_glo_var").
Proof.
  apply (global_names_without_values_raise
           Fixtures.more_meshes "names_only.e" ∅ Fixtures.triangle_names_only
           (ExodusII.Array2 2 [Fixtures.chars "dt"; Fixtures.chars "ke"])).
  - reflexivity.
  - reflexivity.
  - done.
  - reflexivity.
  - reflexivity.
Defined.

(** ** The index of a parsed file *)

Section Index.
Import ExodusII ExodusIIDataset ExodusIIUnstructuredIndex.
Context {f8 : Type} `{!Env f8} {M : Type}.
Context (UnstructuredMesh : nat → string → nd Z → value f8 → result M).
Context (connectivity_indices : M → result (nd Z)).
Implicit Types (parameters : gmap string (value f8)) (v : value f8).
Implicit Types (fs : gmap string (entry f8)) (self : dataset f8).
Implicit Types (meshes : list M).

(** A loop that collects results raises what its first failing pass
    raises, and returns when no pass fails. *)
Lemma mapM_Raise {A B} (f : A → result B) (l : list A) e :
  mapM f l = Raise e →
  ∃ i x, l !! i = Some x ∧ f x = Raise e
         ∧ ∀ i' y, i' < i → l !! i' = Some y → ∃ z, f y = Ok z.
Proof.
  induction l as [|x l IH]; [done|]. cbn [mapM].
  destruct (f x) as [z|e'] eqn:Hx; cbn [mbind result_bind].
  - destruct (mapM f l) as [k|e''] eqn:Hl; [done|]. intros [= ->].
    destruct (IH eq_refl) as (i & y & Hi & Hy & Hbefore).
    exists (S i), y. split; [done|]. split; [done|].
    intros [|i'] y' Hlt Hy'.
    + injection Hy' as <-. eauto.
    + apply (Hbefore i' y'); [lia|done].
  - intros [= ->]. exists 0, x. split; [done|]. split; [done|].
    intros i' y Hlt. lia.
Qed.

Lemma mapM_returns {A B} (f : A → result B) (l : list A) :
  (∀ i x, l !! i = Some x → ∃ y, f x = Ok y) → ∃ k, mapM f l = Ok k.
Proof.
  induction l as [|x l IH]; intros Hall; [by exists []|].
  destruct (Hall 0 x eq_refl) as [y Hy].
  destruct IH as [k Hk]; [intros i x'; apply (Hall (S i) x')|].
  exists (y :: k). cbn [mapM]. by rewrite Hy, Hk.
Qed.

(** X11.  On a parsed dataset [_initialize_mesh] finds the coordinates
    and the connectivity among the parameters and calls the constructor
    of the mesh class once per connectivity block, in the order of the
    blocks, with the position of the block as mesh id, the index file
    name, the block and the coordinates of the whole file.  It returns
    one mesh per block when every call returns, and otherwise raises what
    the first failing call raises: nothing else can fail.  For a file
    without element blocks it returns the empty list, on which reading
    the connectivity length off the first mesh raises [IndexError],
    although the file parsed. *)
Theorem index_meshes_follow_the_blocks fs filename initial self index_filename :
  _parse_parameter_file fs filename initial = Ok self →
  ∃ (num_meshes : nat) connectivity coordinates,
    parameters self !! "num_meshes" = Some (VInt (Z.of_nat num_meshes))
    ∧ parameters self !! "connectivity" = Some (VConn connectivity)
    ∧ parameters self !! "coordinates" = Some coordinates
    ∧ length connectivity = num_meshes
    ∧ (∀ meshes,
         _initialize_mesh UnstructuredMesh (parameters self) index_filename
         = Ok meshes →
         length meshes = num_meshes
         ∧ ∀ i ci, connectivity !! i = Some ci →
             ∃ m, meshes !! i = Some m
                  ∧ UnstructuredMesh i index_filename ci coordinates = Ok m)
    ∧ (∀ e,
         _initialize_mesh UnstructuredMesh (parameters self) index_filename
         = Raise e →
         ∃ i ci, connectivity !! i = Some ci
                 ∧ UnstructuredMesh i index_filename ci coordinates = Raise e
                 ∧ ∀ i' ci', i' < i → connectivity !! i' = Some ci' →
                     ∃ m, UnstructuredMesh i' index_filename ci' coordinates
                          = Ok m)
    ∧ ((∀ i ci, connectivity !! i = Some ci →
          ∃ m, UnstructuredMesh i index_filename ci coordinates = Ok m) →
       ∃ meshes,
         _initialize_mesh UnstructuredMesh (parameters self) index_filename
         = Ok meshes)
    ∧ (num_meshes = 0 →
       _initialize_mesh UnstructuredMesh (parameters self) index_filename
       = Ok []
       ∧ _connectivity_length connectivity_indices [] = Raise IndexError).
Proof.
  intros Hp.
  destruct (connectivity_of_parse _ _ _ _ Hp)
    as (nm & cn & eb & Hnum & Hconn & _ & _ & Hlen & _).
  destruct (parse_Ok _ _ _ _ Hp) as (self0 & n0 & Hd & _ & Hpar & _).
  destruct (derive_Ok _ _ _ _ Hd)
    as (vs & p & records & nm' & en & nn & co & cn' & _ & _ & _ & _
        & _ & _ & _ & _ & _ & _ & _ & _ & _ & _ & Hpar0 & _).
  cbv zeta in Hpar0.
  assert (parameters self !! "coordinates" = Some co) as Hco.
  { rewrite Hpar, Hpar0.
    by rewrite lookup_insert_ne, lookup_insert_eq by done. }
  clear Hpar Hpar0 Hd.
  exists nm, cn, co.
  split; [done|]. split; [done|]. split; [done|]. split; [done|].
  assert (_initialize_mesh UnstructuredMesh (parameters self) index_filename
          = mapM (λ entry : nat * nd Z,
                    UnstructuredMesh entry.1 index_filename entry.2 co)
                 (imap (λ mesh_id conn_ind, (mesh_id, conn_ind)) cn)) as ->.
  { unfold _initialize_mesh, getitem. by rewrite Hco, Hconn. }
  split; [|split; [|split]].
  - intros meshes Hrun. apply mapM_Ok in Hrun.
    split.
    { apply Forall2_length in Hrun. rewrite length_imap in Hrun. lia. }
    intros i ci Hci.
    destruct (Forall2_lookup_l _ _ _ i (i, ci) Hrun) as (m & Hm & Hcall).
    { by rewrite list_lookup_imap, Hci. }
    eauto.
  - intros e Hrun.
    apply mapM_Raise in Hrun as (i & [i0 ci] & Hi & Hcall & Hbefore).
    rewrite list_lookup_imap in Hi.
    destruct (cn !! i) as [c|] eqn:Hc; [|done]. injection Hi as <- <-.
    exists i, c. split; [done|]. split; [done|].
    intros i' ci' Hlt Hci'. apply (Hbefore i' (i', ci')); [done|].
    by rewrite list_lookup_imap, Hci'.
  - intros Hall. apply mapM_returns. intros i [i0 ci] Hi.
    rewrite list_lookup_imap in Hi.
    destruct (cn !! i) as [c|] eqn:Hc; [|done]. injection Hi as <- <-.
    by apply Hall.
  - intros ->. by destruct cn.
Qed.

Lemma length_bind_fmap {A B C} (g : A → B → C) (xs : list A) (ys : list B) :
  length (xs ≫= λ x, g x <$> ys) = length xs * length ys.
Proof.
  induction xs as [|x xs IH]; [done|].
  rewrite bind_cons, length_app, length_fmap, IH. simpl. lia.
Qed.

(** X12.  On a parsed dataset the field list of the index has one entry
    per mesh and decoded field name, element names before node names:
    the pairs ([connect<i>], name) for [i] from 1 to the number of
    meshes.  Mesh [i] is listed with exactly the names under which the
    data of block [i - 1] holds a field of type "gas". *)
Theorem output_fields_match_the_data fs filename initial self index_filename
    meshes :
  _parse_parameter_file fs filename initial = Ok self →
  _initialize_mesh UnstructuredMesh (parameters self) index_filename
  = Ok meshes →
  ∃ (num_meshes : nat) elem_names nod_names field_list,
    parameters self !! "num_meshes" = Some (VInt (Z.of_nat num_meshes))
    ∧ parameters self !! "elem_names" = Some (VNames elem_names)
    ∧ parameters self !! "nod_names" = Some (VNames nod_names)
    ∧ _detect_output_fields (parameters self) meshes = Ok field_list
    ∧ length field_list
      = num_meshes * (length elem_names + length nod_names)
    ∧ (∀ ftype fname,
         (ftype, fname) ∈ field_list
         ↔ ∃ i : nat, (1 ≤ i ≤ num_meshes)%nat
                      ∧ ftype = "connect" +:+ pretty i
                      ∧ fname ∈ (elem_names ++ nod_names)%list)
    ∧ (∀ i vals fname,
         data self !! i = Some vals →
         is_Some (vals !! ("gas", fname))
         ↔ ("connect" +:+ pretty (i + 1), fname) ∈ field_list).
Proof.
  intros Hp Hmeshes.
  destruct (data_of_parse _ _ _ _ Hp)
    as (nm & en & nn & cn & Hnm & Hen & Hnn & Hcn & Hlen & _).
  destruct (connectivity_of_parse _ _ _ _ Hp)
    as (nm' & cn' & _ & Hnm' & Hcn' & _ & _ & Hcnlen & _).
  rewrite Hcn in Hcn'. injection Hcn' as <-.
  rewrite Hnm in Hnm'. injection Hnm' as Hsame.
  apply Nat2Z.inj in Hsame as <-.
  assert (length meshes = nm) as Hml.
  { unfold _initialize_mesh in Hmeshes. unbind Hmeshes as co Hco.
    unfold getitem in Hmeshes. rewrite Hcn in Hmeshes.
    cbn [mbind result_bind] in Hmeshes. apply mapM_Ok in Hmeshes.
    apply Forall2_length in Hmeshes. rewrite length_imap in Hmeshes. lia. }
  exists nm, en, nn. eexists.
  split; [done|]. split; [done|]. split; [done|].
  split.
  { unfold _detect_output_fields, getitem. rewrite Hen, Hnn. reflexivity. }
  assert (∀ ftype fname,
            (ftype, fname)
            ∈ seq 1 (length meshes)
              ≫= (λ i : nat, (λ fname : string,
                                ("connect" +:+ pretty i, fname))
                             <$> (en ++ nn)%list)
            ↔ ∃ i : nat, (1 ≤ i ≤ nm)%nat
                         ∧ ftype = "connect" +:+ pretty i
                         ∧ fname ∈ (en ++ nn)%list) as Hmem.
  { intros ftype fname. rewrite list_elem_of_bind. split.
    - intros (i & Hin & Hi). apply elem_of_seq in Hi.
      apply list_elem_of_fmap in Hin as (fn & [= -> ->] & Hfn).
      exists i. split; [lia|done].
    - intros (i & Hi & -> & Hfn). exists i. split.
      + apply list_elem_of_fmap. eauto.
      + apply elem_of_seq. lia. }
  split; [|split].
  - by rewrite length_bind_fmap, length_seq, length_app, Hml.
  - exact Hmem.
  - intros i vals fname Hvals.
    rewrite (mesh_fields_of_parse _ _ _ _ en nn i vals "gas" fname Hp Hen Hnn Hvals).
    rewrite Hmem. split.
    + intros [_ Hfn]. exists (i + 1). split; [|done].
      apply lookup_lt_Some in Hvals. lia.
    + intros (i' & _ & _ & Hfn). done.
Qed.

End Index.

Lemma index_meshes_follow_the_blocks_witness :
  (∃ self meshes,
     ExodusII.ExodusIIDataset._parse_parameter_file
       Fixtures.meshes "triangle.e" ∅ = Ok self
     ∧ ExodusII.ExodusIIUnstructuredIndex._initialize_mesh Fixtures.host_init
         (ExodusII.ExodusIIDataset.parameters self) "triangle.e" = Ok meshes
     ∧ length meshes = 1)
  ∧ (∃ self,
       ExodusII.ExodusIIDataset._parse_parameter_file
         Fixtures.more_meshes "nodes_only.e" ∅ = Ok self
       ∧ ExodusII.ExodusIIUnstructuredIndex._initialize_mesh Fixtures.host_init
           (ExodusII.ExodusIIDataset.parameters self) "nodes_only.e"
         = Ok []
       ∧ ExodusII.ExodusIIUnstructuredIndex._connectivity_length
           Fixtures.host_connectivity_indices []
         = Raise IndexError).
Proof.
  split.
  - assert (∃ self, ExodusII.ExodusIIDataset._parse_parameter_file
                      Fixtures.meshes "triangle.e" ∅ = Ok self)
      as [self Hself].
    { eexists. vm_compute. reflexivity. }
    assert (ExodusII.ExodusIIDataset.parameters self !! "num_meshes"
            = Some (ExodusII.VInt 1)) as Hnm.
    { clear -Hself. through Hself. reflexivity. }
    assert (ExodusII.ExodusIIDataset.parameters self !! "connectivity"
            = Some (ExodusII.VConn
                      [ExodusII.Nd2 (ExodusII.Array2 3 [[1; 2; 3]]%Z)]))
      as Hcn.
    { clear -Hself. through Hself. reflexivity. }
    destruct (index_meshes_follow_the_blocks
                Fixtures.host_init Fixtures.host_connectivity_indices
                Fixtures.meshes "triangle.e" ∅ self "triangle.e" Hself)
      as (nm & cn & co & Hnm' & Hcn' & _ & _ & Hok & _ & Hall & _).
    rewrite Hnm in Hnm'. injection Hnm' as Hnm'.
    rewrite Hcn in Hcn'. injection Hcn' as <-.
    destruct Hall as [meshes Hrun].
    { intros [|i] ci Hci; [|done]. injection Hci as <-. eexists. reflexivity. }
    exists self, meshes. split; [exact Hself|]. split; [exact Hrun|].
    destruct (Hok meshes Hrun) as [Hlen _]. lia.
  - assert (∃ self, ExodusII.ExodusIIDataset._parse_parameter_file
                      Fixtures.more_meshes "nodes_only.e" ∅ = Ok self)
      as [self Hself].
    { eexists. vm_compute. reflexivity. }
    assert (ExodusII.ExodusIIDataset.parameters self !! "num_meshes"
            = Some (ExodusII.VInt 0)) as Hnm.
    { clear -Hself. through Hself. reflexivity. }
    destruct (index_meshes_follow_the_blocks
                Fixtures.host_init Fixtures.host_connectivity_indices
                Fixtures.more_meshes "nodes_only.e" ∅ self "nodes_only.e" Hself)
      as (nm & cn & co & Hnm' & _ & _ & _ & _ & _ & _ & Hnone).
    rewrite Hnm in Hnm'. injection Hnm' as Hnm'.
    exists self. split; [exact Hself|]. apply Hnone. lia.
Defined.

Lemma output_fields_match_the_data_witness :
  ∃ self meshes field_list,
    ExodusII.ExodusIIDataset._parse_parameter_file
      Fixtures.more_meshes "triangle_p.e" ∅ = Ok self
    ∧ ExodusII.ExodusIIUnstructuredIndex._initialize_mesh Fixtures.host_init
        (ExodusII.ExodusIIDataset.parameters self) "triangle_p.e" = Ok meshes
    ∧ ExodusII.ExodusIIUnstructuredIndex._detect_output_fields
        (ExodusII.ExodusIIDataset.parameters self) meshes = Ok field_list
    ∧ length field_list = 2.
Proof.
  assert (∃ self, ExodusII.ExodusIIDataset._parse_parameter_file
                    Fixtures.more_meshes "triangle_p.e" ∅ = Ok self)
    as [self Hself].
  { eexists. vm_compute. reflexivity. }
  assert (∃ meshes, ExodusII.ExodusIIUnstructuredIndex._initialize_mesh
                      Fixtures.host_init
                      (ExodusII.ExodusIIDataset.parameters self)
                      "triangle_p.e" = Ok meshes) as [meshes Hmeshes].
  { clear -Hself. through Hself. eexists. reflexivity. }
  assert (ExodusII.ExodusIIDataset.parameters self !! "num_meshes"
          = Some (ExodusII.VInt 1)) as Hnm.
  { clear -Hself. through Hself. reflexivity. }
  assert (ExodusII.ExodusIIDataset.parameters self !! "elem_names"
          = Some (ExodusII.VNames ["p"])) as Hen.
  { clear -Hself. through Hself. reflexivity. }
  assert (ExodusII.ExodusIIDataset.parameters self !! "nod_names"
          = Some (ExodusII.VNames ["u"])) as Hnn.
  { clear -Hself. through Hself. reflexivity. }
  destruct (output_fields_match_the_data Fixtures.host_init
              Fixtures.more_meshes "triangle_p.e" ∅ self "triangle_p.e" meshes
              Hself Hmeshes)
    as (nm & en & nn & fields & Hnm' & Hen' & Hnn' & Hrun & Hlen & _).
  rewrite Hnm in Hnm'. injection Hnm' as Hnm'.
  rewrite Hen in Hen'. injection Hen' as <-.
  rewrite Hnn in Hnn'. injection Hnn' as <-.
  exists self, meshes, fields. split; [exact Hself|]. split; [exact Hmeshes|].
  split; [exact Hrun|]. rewrite Hlen. simpl. lia.
Defined.

(** ** Files that do not load *)

Section NotLoading.
Import ExodusII ExodusIIDataset.
Context {f8 : Type} `{!Env f8}.
Implicit Types (parameters : gmap string (value f8)) (v : value f8).
Implicit Types (fs : gmap string (entry f8)) (self : dataset f8).

(** A loop that collects results stops at the first pass that raises. *)
Lemma mapM_first_Raise {A B} (f : A → result B) (l : list A) (k : nat) x e :
  (∀ i y, i < k → l !! i = Some y → ∃ z, f y = Ok z) →
  l !! k = Some x → f x = Raise e →
  mapM f l = Raise e.
Proof.
  revert k. induction l as [|y l IH]; intros k Hbefore Hk Hx.
  - by rewrite lookup_nil in Hk.
  - cbn [mapM]. destruct k as [|k].
    + injection Hk as ->. by rewrite Hx.
    + destruct (Hbefore 0 y) as [z Hz]; [lia|done|]. rewrite Hz.
      cbn [mbind result_bind]. rewrite (IH k); [done| |done|done].
      intros i y' Hi Hy'. apply (Hbefore (S i) y'); [lia|done].
Qed.

(** X13.  When [num_meshes] announces more element blocks than the
    parameters hold, loading the connectivity raises the key error for
    the first block that is missing: the blocks before it are integer
    arrays and load, and no shorter list is returned. *)
Theorem connectivity_stops_at_the_first_missing_block parameters (n k : nat) :
  parameters !! "num_meshes" = Some (VInt (Z.of_nat n)) →
  k < n →
  (∀ i, i < k →
     ∃ c : array2 Z,
       parameters !! ("connect" +:+ pretty (i + 1)) = Some (VArr DInt (Nd2 c))) →
  parameters !! ("connect" +:+ pretty (k + 1)) = None →
  _load_connectivity parameters
  = Raise (KeyError ("connect" +:+ pretty (k + 1))).
Proof.
  intros Hnm Hk Hbefore Hmissing.
  apply getitem_Ok in Hnm. unfold _load_connectivity. rewrite Hnm.
  cbn [mbind result_bind range]. rewrite Nat2Z.id.
  apply (mapM_first_Raise _ _ k k).
  - intros i y Hi Hy. apply lookup_seq in Hy as [-> _]. simpl.
    destruct (Hbefore i Hi) as (c & Hc). unfold getitem. rewrite Hc.
    cbn [mbind result_bind slice_all astype_i8 astype_i8_elt].
    rewrite nd_mapM_pure. eauto.
  - by apply lookup_seq_lt.
  - by rewrite (getitem_None _ _ Hmissing).
Qed.

(** X14.  A parsed dataset has at least one node: its coordinates, when
    a two-dimensional array, are numbers in at least one row, and both
    domain edges are vectors of the same element type.  A file without
    nodes does not parse, the minimum over no rows being an error. *)
Theorem parsed_dataset_has_a_node fs filename initial self d
    (c : array2 (elt f8 d)) :
  _parse_parameter_file fs filename initial = Ok self →
  parameters self !! "coordinates" = Some (VArr d (Nd2 c)) →
  d ≠ DChar
  ∧ rows c ≠ []
  ∧ ∃ lo hi, domain_left_edge self = VArr d (Nd1 lo)
             ∧ domain_right_edge self = VArr d (Nd1 hi).
Proof.
  intros Hp Hc.
  destruct (parse_Ok _ _ _ _ Hp)
    as (self0 & n & Hd & _ & Hpar & _ & _ & -> & -> & _).
  destruct (derive_Ok _ _ _ _ Hd)
    as (vs & p & records & nm & en & nn & co & cn & _ & _ & _ & _
        & _ & _ & _ & _ & _ & _ & _ & _ & Hlo & Hhi & Hpar0 & _).
  cbv zeta in *. rewrite Hpar, Hpar0 in Hc. clear Hpar Hpar0 Hd Hp.
  unfold _load_domain_edge, getitem in Hlo, Hhi. simpl in Hlo, Hhi.
  rewrite Hc in Hlo, Hhi. cbn [mbind result_bind] in Hlo, Hhi.
  destruct d; simpl in Hlo, Hhi; [done|..];
    (destruct c as [w [|r rs]]; simpl in Hlo, Hhi; [done|]);
    injection Hlo as <-; injection Hhi as <-;
    (split; [done|]); (split; [done|]); eauto.
Qed.

(** X15.  A file that parses with at least one element block passes the
    validity probe, as long as its first block is a variable of the file
    itself: no global variable is named [connect1] and the parameters did
    not hold that key before. *)
Theorem parsed_files_pass_the_probe fs filename initial self variables names
    (num_meshes : nat) :
  _parse_parameter_file fs filename initial = Ok self →
  fs !! filename = Some (NetCDF variables) →
  _get_glo_names ((of_ncvar <$> variables) ∪ initial) = Ok names →
  "connect1" ∉ names →
  initial !! "connect1" = None →
  parameters self !! "num_meshes" = Some (VInt (Z.of_nat num_meshes)) →
  0 < num_meshes →
  _is_valid fs filename = Ok (PyBool true).
Proof.
  intros Hp Hfile Hnames Hnot Hinit Hnm Hpos.
  destruct (connectivity_of_parse _ _ _ _ Hp)
    as (nm & cn & eb & Hnum & _ & _ & _ & _ & Hblocks).
  rewrite Hnm in Hnum. injection Hnum as Hsame.
  apply Nat2Z.inj in Hsame as <-.
  destruct (Hblocks 0 Hpos) as (v & ci & Hv & _).
  change ("connect" +:+ pretty (0 + 1)) with "connect1" in Hv.
  rewrite (file_variables_of_parse _ _ _ _ _ _ "connect1" Hp Hfile Hnames Hnot)
    in Hv.
  2: { rewrite !elem_of_cons, elem_of_nil.
       by intros [? | [? | [? | [? | [? | [? | []]]]]]]. }
  destruct (mesh_probe_cases fs filename) as [[Hyes _] | [_ Hno]]; [done|].
  exfalso. apply Hno. exists variables. split; [done|].
  destruct (variables !! "connect1"); [eauto | congruence].
Qed.

End NotLoading.

Lemma connectivity_stops_at_the_first_missing_block_witness :
  ExodusII.ExodusIIDataset._load_connectivity
    (<["num_meshes" := ExodusII.VInt 2]> (Fixtures.loaded Fixtures.triangle))
  = Raise (KeyError "connect2").
Proof.
  apply (connectivity_stops_at_the_first_missing_block
           (<["num_meshes" := ExodusII.VInt 2]>
              (Fixtures.loaded Fixtures.triangle)) 2 1).
  - reflexivity.
  - lia.
  - intros i Hi. assert (i = 0) as -> by lia.
    exists (ExodusII.Array2 3 [[1; 2; 3]]%Z). reflexivity.
  - reflexivity.
Defined.

Lemma parsed_dataset_has_a_node_witness :
  ∃ self lo hi,
    ExodusII.ExodusIIDataset._parse_parameter_file
      Fixtures.meshes "triangle.e" ∅ = Ok self
    ∧ ExodusII.ExodusIIDataset.domain_left_edge self
      = ExodusII.VArr ExodusII.DReal (ExodusII.Nd1 lo)
    ∧ ExodusII.ExodusIIDataset.domain_right_edge self
      = ExodusII.VArr ExodusII.DReal (ExodusII.Nd1 hi).
Proof.
  assert (∃ self, ExodusII.ExodusIIDataset._parse_parameter_file
                    Fixtures.meshes "triangle.e" ∅ = Ok self) as [self Hself].
  { eexists. vm_compute. reflexivity. }
  destruct (parsed_dataset_has_a_node (f8 := Z)
              Fixtures.meshes "triangle.e" ∅ self ExodusII.DReal
              (ExodusII.Array2 2 [[0; 0]; [4; 0]; [0; 3]]%Z) Hself)
    as (_ & _ & lo & hi & Hlo & Hhi).
  - clear -Hself. through Hself. reflexivity.
  - exists self, lo, hi. auto.
Defined.

Lemma parsed_files_pass_the_probe_witness :
  ExodusII.ExodusIIDataset._is_valid Fixtures.meshes "triangle.e"
  = Ok (PyBool true).
Proof.
  assert (∃ self, ExodusII.ExodusIIDataset._parse_parameter_file
                    Fixtures.meshes "triangle.e" ∅ = Ok self) as [self Hself].
  { eexists. vm_compute. reflexivity. }
  apply (parsed_files_pass_the_probe
           Fixtures.meshes "triangle.e" ∅ self Fixtures.triangle [] 1 Hself).
  - reflexivity.
  - vm_compute. reflexivity.
  - apply not_elem_of_nil.
  - reflexivity.
  - clear -Hself. through Hself. reflexivity.
  - lia.
Defined.
